(** * Waveform plotting helpers ([plotting.py]): model and verification

    The module has four entry points, [plot_trace_waveform],
    [plot_trace_image], [plot_unit_waveform] and [plot_peak_waveform].
    Each one fetches data from the [preprocessing] module and drives the
    plotting backend.  The embedding below is shallow:

    - a Python computation is a state-and-exception passing function
      ([Py]); an exception aborts the rest of the computation but keeps
      the state reached so far;
    - the process state ([World]) holds the two module-level mutable
      objects the code reaches: the global [np.random] generator and the
      pyplot state machine, the latter as the log of the calls made to it;
    - [np.sqrt], [np.ceil] and [/] are computed in IEEE binary64, on the
      reference model of the standard library ([SpecFloat]);
    - [np.random.seed] and [np.random.choice] are the legacy [RandomState]
      ones: MT19937, integer seeding, and masked rejection sampling for
      bounded integers; the rejection loop is given a bound [fuel] on the
      raw draws it may use for one value, and a run that ends within its
      fuel ends the same way with more ([fuel_monotone]);
    - the three functions of [preprocessing] are parameters: functions of
      their arguments that return a value or raise;
    - the samples of a trace are integers. *)

From Stdlib Require Import ZArith Lia List SpecFloat.
From stdpp Require Import base option list gmap strings.

Local Open Scope Z_scope.

(* ================================================================== *)
(** * Python outcomes and the computation monad *)

Inductive exn : Type :=
| TypeError
| ValueError
| ZeroDivisionError
| IndexError
| KeyError
| OverflowError.

(** [OutOfFuel] is the outcome of a run whose rejection-sampling loop did
    not finish within the number of raw draws it was given. *)
Inductive outcome (A : Type) : Type :=
| Ok (a : A)
| Raise (e : exn)
| OutOfFuel.

Arguments Ok {A} a.
Arguments Raise {A} e.
Arguments OutOfFuel {A}.

Definition Py (Σ A : Type) : Type := Σ -> Σ * outcome A.

Definition ret {Σ A} (a : A) : Py Σ A := fun w => (w, Ok a).

Definition bind {Σ A B} (m : Py Σ A) (k : A -> Py Σ B) : Py Σ B :=
  fun w =>
    match m w with
    | (w', Ok a) => k a w'
    | (w', Raise e) => (w', Raise e)
    | (w', OutOfFuel) => (w', OutOfFuel)
    end.

Definition lift {Σ A} (o : outcome A) : Py Σ A := fun w => (w, o).

Definition raise {Σ A} (e : exn) : Py Σ A := lift (Raise e).

Notation "'let*' x := m 'in' k" := (bind m (fun x => k))
  (at level 10, x name, m at level 100, k at level 200).
Notation "m ;; k" := (bind m (fun _ => k))
  (at level 100, k at level 200, right associativity).

(** [for x in l: body x] *)
Fixpoint for_ {Σ A} (l : list A) (body : A -> Py Σ unit) : Py Σ unit :=
  match l with
  | [] => ret tt
  | x :: l' => body x ;; for_ l' body
  end.

(** [range(start, stop)] *)
Definition py_range (start stop : Z) : list Z := seqZ start (stop - start).

(** [enumerate(l)] *)
Definition enumerate {A} (l : list A) : list (nat * A) := imap (fun i x => (i, x)) l.

(** A Python value as the code meets it where a channel list is expected:
    an integer, or a list of integers. *)
Inductive pyval : Type :=
| PyInt (z : Z)
| PyList (l : list Z).

(** [len(v)] *)
Definition py_len (v : pyval) : outcome Z :=
  match v with
  | PyInt _ => Raise TypeError
  | PyList l => Ok (Z.of_nat (length l))
  end.

(** [for x in v] iterates over the items of a list. *)
Definition py_items (v : pyval) : outcome (list Z) :=
  match v with
  | PyInt _ => Raise TypeError
  | PyList l => Ok l
  end.

(* ================================================================== *)
(** * IEEE binary64, as NumPy and Python use it in the grid computation *)

Module Float64.

Definition prec : Z := 53.
Definition emax : Z := 1024.

(** Conversion of an integer to a double (round to nearest even). *)
Definition float_of_int (n : Z) : spec_float :=
  binary_normalize prec emax n 0 false.

(** [np.sqrt] *)
Definition sqrt (x : spec_float) : spec_float := SFsqrt prec emax x.

(** Python's [a / b] on two integers: the correctly rounded quotient of
    the exact integers, [ZeroDivisionError] when [b] is zero. *)
Definition int_truediv (a b : Z) : outcome spec_float :=
  match b with
  | Z0 => Raise ZeroDivisionError
  | _ =>
      match a with
      | Z0 => Ok (S754_zero (b <? 0))
      | _ =>
          let '(mz, ez, lz) :=
            SFdiv_core_binary prec emax (Z.abs a) 0 (Z.abs b) 0 in
          Ok (binary_round_aux prec emax (xorb (a <? 0) (b <? 0)) mz ez lz)
      end
  end.

(** The integer [ceil] of a finite double. *)
Definition ceil_finite (s : bool) (m : positive) (e : Z) : Z :=
  let v := if s then Zneg m else Zpos m in
  match e with
  | Zneg p => - ((- v) / 2 ^ Zpos p)
  | _ => v * 2 ^ e
  end.

(** [int(np.ceil(x))]: Python's [int] refuses infinities and NaN. *)
Definition int_ceil (x : spec_float) : outcome Z :=
  match x with
  | S754_zero _ => Ok 0
  | S754_finite s m e => Ok (ceil_finite s m e)
  | S754_infinity _ => Raise OverflowError
  | S754_nan => Raise ValueError
  end.

(** Wrap-around into the signed 64-bit range. *)
Definition wrap_int64 (z : Z) : Z := (z + 2 ^ 63) mod 2 ^ 64 - 2 ^ 63.

(** [np.ceil(x).astype(int)]: a cast to int64, which raises nothing; a
    value that is not finite converts to the least int64. *)
Definition ceil_astype_int (x : spec_float) : Z :=
  match x with
  | S754_zero _ => 0
  | S754_finite s m e => wrap_int64 (ceil_finite s m e)
  | _ => - 2 ^ 63
  end.

End Float64.

(** Lines 21-24 of [plot_trace_waveform]: the subplot grid for
    [num_channels] channels, as [(rows, cols)]. *)
Definition subplot_grid (num_channels : Z) : outcome (Z * Z) :=
  match Float64.int_ceil (Float64.sqrt (Float64.float_of_int num_channels)) with
  | Ok cols =>
      match Float64.int_truediv num_channels cols with
      | Ok q => Ok (Float64.ceil_astype_int q, cols)
      | Raise e => Raise e
      | OutOfFuel => OutOfFuel
      end
  | Raise e => Raise e
  | OutOfFuel => OutOfFuel
  end.

(* ================================================================== *)
(** * The global [np.random] generator *)

Module MT19937.

Definition RK_STATE_LEN : nat := 624.
Definition N : nat := 624.
Definition M : nat := 397.
Definition MATRIX_A : Z := 0x9908b0df.
Definition UPPER_MASK : Z := 0x80000000.
Definition LOWER_MASK : Z := 0x7fffffff.

Definition u32 (z : Z) : Z := Z.land z 0xffffffff.

Record state : Type := { key : list Z; pos : nat }.

(** [mt19937_seed]: the loop that fills the key from a 32-bit seed. *)
Fixpoint seed_loop (n : nat) (pos : Z) (seed : Z) : list Z :=
  match n with
  | O => []
  | S n' =>
      seed :: seed_loop n' (pos + 1)
                (u32 (1812433253 * Z.lxor seed (Z.shiftr seed 30) + pos + 1))
  end.

Definition mt19937_seed (seed : Z) : state :=
  {| key := seed_loop RK_STATE_LEN 0 (u32 seed); pos := RK_STATE_LEN |}.

(** One step of [mt19937_gen]: [key[i]] is rewritten in place from
    [key[i]], [key[j]] and [key[m]]. *)
Definition twist (k : list Z) (i j m : nat) : list Z :=
  let y := Z.lor (Z.land (k !!! i) UPPER_MASK) (Z.land (k !!! j) LOWER_MASK) in
  <[ i := Z.lxor (Z.lxor (k !!! m) (Z.shiftr y 1))
                 (Z.land (u32 (- Z.land y 1)) MATRIX_A) ]> k.

Definition mt19937_gen (s : state) : state :=
  let k1 := foldl (fun k i => twist k i (i + 1) (i + M)) (key s)
                  (seq 0 (N - M)) in
  let k2 := foldl (fun k i => twist k i (i + 1) (i - (N - M))) k1
                  (seq (N - M) (M - 1)) in
  {| key := twist k2 (N - 1) 0 (M - 1); pos := 0 |}.

Definition temper (y : Z) : Z :=
  let y := Z.lxor y (Z.shiftr y 11) in
  let y := Z.lxor y (Z.land (Z.shiftl y 7) 0x9d2c5680) in
  let y := Z.lxor y (Z.land (Z.shiftl y 15) 0xefc60000) in
  Z.lxor y (Z.shiftr y 18).

(** [mt19937_next]: the next 32-bit output. *)
Definition mt19937_next (s : state) : Z * state :=
  let s := if decide (pos s = RK_STATE_LEN) then mt19937_gen s else s in
  (temper (key s !!! pos s), {| key := key s; pos := S (pos s) |}).

(** [mt19937_next64]: two 32-bit outputs, the first one in the high half. *)
Definition mt19937_next64 (s : state) : Z * state :=
  let '(hi, s) := mt19937_next s in
  let '(lo, s) := mt19937_next s in
  (Z.lor (Z.shiftl hi 32) lo, s).

(** [gen_mask]: the smallest mask of the form [2^b - 1] that covers [max]. *)
Definition gen_mask (max : Z) : Z :=
  let mask := max in
  let mask := Z.lor mask (Z.shiftr mask 1) in
  let mask := Z.lor mask (Z.shiftr mask 2) in
  let mask := Z.lor mask (Z.shiftr mask 4) in
  let mask := Z.lor mask (Z.shiftr mask 8) in
  let mask := Z.lor mask (Z.shiftr mask 16) in
  Z.lor mask (Z.shiftr mask 32).

(** [while ((val = next(state) & mask) > rng);] with at most [fuel] draws. *)
Fixpoint bounded_masked (next : state -> Z * state) (fuel : nat)
    (rng mask : Z) (s : state) : state * outcome Z :=
  match fuel with
  | O => (s, OutOfFuel)
  | S fuel' =>
      let '(v, s') := next s in
      let val := Z.land v mask in
      if rng <? val then bounded_masked next fuel' rng mask s' else (s', Ok val)
  end.

(** One value in [[off, off + rng]], for [0 < rng < 2^64]. *)
Definition bounded_uint64 (fuel : nat) (off rng : Z) : Py state Z :=
  if rng <=? 0xFFFFFFFF then
    if rng =? 0xFFFFFFFF then
      fun s => let '(v, s') := mt19937_next s in (s', Ok (off + v))
    else
      let* val := bounded_masked mt19937_next fuel rng (gen_mask rng) in
      ret (off + val)
  else
    if rng =? 0xFFFFFFFFFFFFFFFF then
      fun s => let '(v, s') := mt19937_next64 s in (s', Ok (off + v))
    else
      let* val := bounded_masked mt19937_next64 fuel rng (gen_mask rng) in
      ret (off + val).

(** [random_bounded_uint64_fill]: [cnt] values in [[off, off + rng]]; when
    [rng] is zero nothing is drawn. *)
Fixpoint random_bounded_uint64_fill (fuel : nat) (off rng : Z) (cnt : nat)
    : Py state (list Z) :=
  match cnt with
  | O => ret []
  | S cnt' =>
      let* x := (if rng =? 0 then ret off else bounded_uint64 fuel off rng) in
      let* xs := random_bounded_uint64_fill fuel off rng cnt' in
      ret (x :: xs)
  end.

End MT19937.

(** The legacy [RandomState] methods the module calls. *)
Module RandomState.

(** [seed(seed)] for an integer seed. *)
Definition seed (seed : Z) : Py MT19937.state unit :=
  if (0 <=? seed) && (seed <=? 0xFFFFFFFF) then
    fun _ => (MT19937.mt19937_seed seed, Ok tt)
  else raise ValueError.

(** [randint(low, high, size)] *)
Definition randint (fuel : nat) (low high size : Z) : Py MT19937.state (list Z) :=
  if size =? 0 then ret []
  else if size <? 0 then raise ValueError
  else if high - 1 <? low then raise ValueError
  else MT19937.random_bounded_uint64_fill fuel low (high - 1 - low) (Z.to_nat size).

(** [a[idx]] for an array of indices. *)
Fixpoint take_items (a : list Z) (idx : list Z) : outcome (list Z) :=
  match idx with
  | [] => Ok []
  | i :: idx' =>
      match (if 0 <=? i then a !! Z.to_nat i else None) with
      | None => Raise IndexError
      | Some x =>
          match take_items a idx' with
          | Ok xs => Ok (x :: xs)
          | o => o
          end
      end
  end.

(** [choice(a, size)], with its defaults [replace=True] and [p=None]:
    [size] positions of [a] drawn by [randint(0, len(a), size)]. *)
Definition choice (fuel : nat) (a : list Z) (size : Z) : Py MT19937.state (list Z) :=
  let pop_size := Z.of_nat (length a) in
  if (pop_size =? 0) && negb (size =? 0) then raise ValueError
  else
    let* idx := randint fuel 0 pop_size size in
    lift (take_items a idx).

End RandomState.

(* ================================================================== *)
(** * Arrays *)

(** A two-dimensional array, [time x channel] for a trace snippet. *)
Record ndarray2 : Type :=
  { nrows : nat; ncols : nat; item2 : nat -> nat -> Z }.

(** A three-dimensional array, [time x channel x variant] for a reshaped
    trace. *)
Record ndarray3 : Type :=
  { shape0 : nat; shape1 : nat; shape2 : nat; item3 : nat -> nat -> nat -> Z }.

(** [a[:, j]] for an index [j] already in range. *)
Definition col (a : ndarray2) (j : nat) : list Z :=
  map (fun i => item2 a i j) (seq 0 (nrows a)).

(** [a[:, channel]]: negative indices count from the end, an index out of
    range raises [IndexError]. *)
Definition column (a : ndarray2) (channel : Z) : outcome (list Z) :=
  let n := Z.of_nat (ncols a) in
  if (0 <=? channel) && (channel <? n) then Ok (col a (Z.to_nat channel))
  else if (- n <=? channel) && (channel <? 0) then Ok (col a (Z.to_nat (channel + n)))
  else Raise IndexError.

(** [np.transpose(a, (1, 0, 2))] *)
Definition transpose_102 (a : ndarray3) : ndarray3 :=
  {| shape0 := shape1 a; shape1 := shape0 a; shape2 := shape2 a;
     item3 := fun i j k => item3 a j i k |}.

(** All the entries of [a], in row-major order. *)
Definition elements3 (a : ndarray3) : list Z :=
  flat_map (fun i =>
    flat_map (fun j =>
      map (fun k => item3 a i j k) (seq 0 (shape2 a)))
      (seq 0 (shape1 a)))
    (seq 0 (shape0 a)).

(** [a.min()] and [a.max()]: a reduction of an empty array raises
    [ValueError]. *)
Definition ndarray_min (a : ndarray3) : outcome Z :=
  match elements3 a with
  | [] => Raise ValueError
  | x :: l => Ok (foldl Z.min x l)
  end.

Definition ndarray_max (a : ndarray3) : outcome Z :=
  match elements3 a with
  | [] => Raise ValueError
  | x :: l => Ok (foldl Z.max x l)
  end.

(** [a[:, :, k]] as the list of its rows. *)
Definition slice_last (a : ndarray3) (k : nat) : list (list Z) :=
  map (fun i => map (fun j => item3 a i j k) (seq 0 (shape1 a))) (seq 0 (shape0 a)).

(* ================================================================== *)
(** * The plotting backend and the process state *)

(** The calls the module makes to the plotting backend.  An axes of the
    grid made by [plt.subplots] is named by its position in the flattened
    array of axes. *)
Inductive PltCall : Type :=
| Subplots (nrows ncols : Z) (figsize : Z * Z)
| AxPlot (ax : Z) (ydata : list Z)
| AxSetTitle (ax : Z) (channel : Z)
| AxSetXlabel (ax : Z) (label : string)
| AxSetYlabel (ax : Z) (label : string)
| AxLabelOuter (ax : Z)
| AxAxis (ax : Z) (arg : string)
| TightLayout
| Show
| Figure (figsize : option (Z * Z))
| Subplot (nrows ncols index : Z)
| Imshow (img : list (list Z)) (cmap : string) (vmin vmax : Z)
| Text (s : string)
| Axes
| Colorbar
| Plot (ydata : list Z)
| Xlabel (s : string)
| Ylabel (s : string)
| Title (unit_id channel_id : Z).

Record World : Type :=
  { np_random : MT19937.state; pyplot : list PltCall }.

(** A call to the backend is appended to its log. *)
Definition plt (c : PltCall) : Py World unit :=
  fun w => ({| np_random := np_random w; pyplot := pyplot w ++ [c] |}, Ok tt).

(** A computation on the generator, run on the global one. *)
Definition on_np_random {A} (m : Py MT19937.state A) : Py World A :=
  fun w =>
    let '(s, o) := m (np_random w) in
    ({| np_random := s; pyplot := pyplot w |}, o).

(** [plt.subplots(rows, cols, figsize=...)] followed by
    [np.array(axs).reshape(-1)]: the number of axes of the grid. *)
Definition plt_subplots (rows cols : Z) (figsize : Z * Z) : Py World Z :=
  if (0 <? rows) && (0 <? cols) then
    plt (Subplots rows cols figsize) ;; ret (rows * cols)
  else raise ValueError.

(** [axs[i]] on the flattened array of [naxes] axes. *)
Definition axs_item (naxes i : Z) : outcome Z :=
  if (0 <=? i) && (i <? naxes) then Ok i
  else if (- naxes <=? i) && (i <? 0) then Ok (i + naxes)
  else Raise IndexError.

(** [plt.subplot(nrows, ncols, index)] *)
Definition plt_subplot (nrows ncols index : Z) : Py World unit :=
  if (1 <=? index) && (index <=? nrows * ncols) then plt (Subplot nrows ncols index)
  else raise ValueError.

(** The functions of [np.random] are the methods of the global generator. *)
Definition np_random_seed (seed : Z) : Py World unit :=
  on_np_random (RandomState.seed seed).

Definition np_random_choice (fuel : nat) (a : list Z) (size : Z)
    : Py World (list Z) :=
  on_np_random (RandomState.choice fuel a size).

(* ================================================================== *)
(** * The [preprocessing] module *)

Class Preprocessing (Recording Spikes : Type) : Type :=
  { get_trace_snippet : Recording -> Z -> outcome ndarray2;
    get_trace_reshaped : Recording -> Z -> outcome ndarray3;
    get_unit_frames : Spikes -> Z -> outcome (list Z) }.

(** A row of the peaks table: its two columns. *)
Record PeakRow : Type := { peak_frame : Z; peak_channel : pyval }.

(** [table.loc[idx, column]] *)
Definition loc {A} (table : gmap Z PeakRow) (idx : Z) (column : PeakRow -> A)
    : outcome A :=
  match table !! idx with
  | Some row => Ok (column row)
  | None => Raise KeyError
  end.

(* ================================================================== *)
(** * The four entry points *)

Section Plotting.

Context {Recording Spikes : Type} `{Preprocessing Recording Spikes}.

(** Lines 28-44 of [plot_trace_waveform]: the subplots, once the grid of
    [axs] axes is made. *)
Definition fill_grid (trace_snippet : ndarray2) (channels : pyval)
    (num_channels rows cols axs : Z) : Py World unit :=
  let* items := lift (py_items channels) in
  for_ (enumerate items) (fun '(i, channel) =>
    let* ax := lift (axs_item axs (Z.of_nat i)) in
    let* y := lift (column trace_snippet channel) in
    plt (AxPlot ax y) ;;
    plt (AxSetTitle ax channel) ;;
    plt (AxSetXlabel ax "Time") ;;
    plt (AxSetYlabel ax "Amplitude") ;;
    plt (AxLabelOuter ax)) ;;
  for_ (py_range num_channels (rows * cols)) (fun i =>
    let* ax := lift (axs_item axs i) in
    plt (AxAxis ax "off")) ;;
  plt TightLayout ;;
  plt Show.

Definition plot_trace_waveform (recording : Recording) (sample_time : Z)
    (channels : pyval) : Py World unit :=
  let* trace_snippet := lift (get_trace_snippet recording sample_time) in
  let* num_channels := lift (py_len channels) in
  let* grid := lift (subplot_grid num_channels) in
  let '(rows, cols) := grid in
  let* axs := plt_subplots rows cols (4 * cols, 3 * rows) in
  fill_grid trace_snippet channels num_channels rows cols axs.

(** Lines 64-75 of [plot_trace_image]: the figure, once the colour bounds
    are known. *)
Definition show_image (trace_reshaped : ndarray3) (vmin vmax : Z) : Py World unit :=
  plt (Figure (Some (8, 10))) ;;
  for_ (seq 0 (shape2 trace_reshaped)) (fun i =>
    plt_subplot 1 2 (Z.of_nat i + 1) ;;
    plt (Imshow (slice_last (transpose_102 trace_reshaped) i) "viridis" vmin vmax)) ;;
  plt (Text "time (frames)") ;;
  plt (Text "channel") ;;
  plt Axes ;;
  plt Colorbar ;;
  plt Show.

Definition plot_trace_image (recording : Recording) (sample_frame : Z)
    : Py World unit :=
  let* trace_reshaped := lift (get_trace_reshaped recording sample_frame) in
  let trace_transposed := transpose_102 trace_reshaped in
  let* vmin := lift (ndarray_min trace_transposed) in
  let* vmax := lift (ndarray_max trace_transposed) in
  show_image trace_reshaped vmin vmax.

(** Lines 94-102 of [plot_unit_waveform]: the frames that are plotted. *)
Definition frames_to_plot (fuel : nat) (sample_frames : list Z)
    (all_waveforms : bool) (num_waveforms seed : Z) : Py World (list Z) :=
  if all_waveforms then ret sample_frames
  else if Z.of_nat (length sample_frames) <? num_waveforms then ret sample_frames
  else
    np_random_seed seed ;;
    np_random_choice fuel sample_frames num_waveforms.

(** Lines 107-108 of [plot_unit_waveform]: the body of the loop. *)
Definition plot_frame (recording : Recording) (channel_id frame : Z)
    : Py World unit :=
  let* trace_snippet := lift (get_trace_snippet recording frame) in
  let* y := lift (column trace_snippet channel_id) in
  plt (Plot y).

(** Lines 104-114 of [plot_unit_waveform]: the figure for the frames that
    were selected. *)
Definition show_frames (recording : Recording) (unit_id channel_id : Z)
    (frames : list Z) : Py World unit :=
  plt (Figure None) ;;
  for_ frames (plot_frame recording channel_id) ;;
  plt (Xlabel "time (frames)") ;;
  plt (Ylabel "action potential (mV)") ;;
  plt (Title unit_id channel_id) ;;
  plt Show.

Definition plot_unit_waveform (fuel : nat) (recording : Recording)
    (spikes : Spikes) (unit_id channel_id : Z) (all_waveforms : bool)
    (num_waveforms seed : Z) : Py World unit :=
  let* sample_frames := lift (get_unit_frames spikes unit_id) in
  let* frames := frames_to_plot fuel sample_frames all_waveforms num_waveforms seed in
  show_frames recording unit_id channel_id frames.

(** [plot_peak_waveform], with the grid plot it calls as a parameter and
    any state for that callee. *)
Definition plot_peak_waveform_with {Σ : Type}
    (grid_plot : Recording -> Z -> pyval -> Py Σ unit)
    (recording : Recording) (peaks_noise_table : gmap Z PeakRow)
    (start_idx end_idx : Z) : Py Σ unit :=
  for_ (py_range start_idx (end_idx + 1)) (fun idx =>
    let* frame := lift (loc peaks_noise_table idx peak_frame) in
    let* channel := lift (loc peaks_noise_table idx peak_channel) in
    grid_plot recording frame channel).

Definition plot_peak_waveform
    : Recording -> gmap Z PeakRow -> Z -> Z -> Py World unit :=
  plot_peak_waveform_with plot_trace_waveform.

End Plotting.

(* ================================================================== *)
(** * A small recording, for evaluating the model on concrete inputs *)

Module Demo.

(** A recording of four channels; the sample of channel [c] at frame [f] is
    [10 * f + c], and a snippet holds the three frames from [t] on. *)
Definition snippet (t : Z) : ndarray2 :=
  {| nrows := 3; ncols := 4;
     item2 := fun i j => 10 * (t + Z.of_nat i) + Z.of_nat j |}.

(** Two variants of a window of two frames and three channels; the second
    variant is the first one negated. *)
Definition reshaped (t : Z) : ndarray3 :=
  {| shape0 := 2; shape1 := 3; shape2 := 2;
     item3 := fun i j k =>
       let v := 10 * (t + Z.of_nat i) + Z.of_nat j in
       match k with O => v | _ => - v end |}.

(** A spike table: pairs of a unit and a frame. *)
Definition spike_table : Type := list (Z * Z).

#[export] Instance preprocessing : Preprocessing unit spike_table :=
  {| get_trace_snippet := fun _ t => Ok (snippet t);
     get_trace_reshaped := fun _ t => Ok (reshaped t);
     get_unit_frames := fun spikes unit_id =>
       Ok (map snd (filter (fun s => bool_decide (fst s = unit_id)) spikes)) |}.

(** The ten frames of unit 7 below. *)
Definition unit7_frames : list Z :=
  [100; 101; 102; 103; 104; 105; 106; 107; 108; 109].

Definition w0 : World :=
  {| np_random := MT19937.mt19937_seed 5489; pyplot := [] |}.

(** Unit 7 has ten spikes, at frames 100 to 109; unit 8 has two. *)
Definition spikes : spike_table :=
  map (fun f => (7, f)) (seqZ 100 10) ++ [(8, 500); (8, 600)].

Definition peaks : gmap Z PeakRow :=
  list_to_map
    [ (2, {| peak_frame := 20; peak_channel := PyList [0; 1] |});
      (3, {| peak_frame := 30; peak_channel := PyList [2] |});
      (4, {| peak_frame := 40; peak_channel := PyList [3; 0; 1] |});
      (5, {| peak_frame := 50; peak_channel := PyInt 2 |}) ].

End Demo.

(* ================================================================== *)
(** * Notions used in the statements *)

(** Ceiling division and the integer ceiling of a square root. *)
Definition cdiv (a b : Z) : Z := - ((- a) / b).

Definition ceil_sqrt (n : Z) : Z :=
  let s := Z.sqrt n in if s * s =? n then s else s + 1.

(** The mantissa, in units of [2^ex], that [binary_round_aux] gives for a
    mantissa [mx] of 53 or 54 bits at exponent [ex]. *)
Definition rounded (mx : Z) (lx : location) : Z :=
  if mx <? 2 ^ 53 then round_nearest_even mx lx
  else
    let mrs := shr_1 (shr_record_of_loc mx lx) in
    2 * round_nearest_even (shr_m mrs) (loc_of_shr_record mrs).

(** [m] leaves the generator alone, appends [d] to the backend log and
    ends with [r], whatever the state it starts from. *)
Definition logs {A} (m : Py World A) (d : list PltCall) (r : outcome A) : Prop :=
  forall w, m w = ({| np_random := np_random w; pyplot := pyplot w ++ d |}, r).

(** [m] only emits calls that satisfy [P], and leaves the generator
    alone. *)
Definition emits {A} (P : PltCall -> Prop) (m : Py World A) : Prop :=
  exists d r, logs m d r /\ Forall P d.

Definition log_only {A} (m : Py World A) : Prop := emits (fun _ => True) m.

(** [m] appends [d] to the backend log and ends with [r], whatever the
    state it starts from; it may change the generator. *)
Definition fixed_output {A} (m : Py World A) (d : list PltCall) (r : outcome A)
    : Prop :=
  forall w, exists s, m w = ({| np_random := s; pyplot := pyplot w ++ d |}, r).

(** [v] is the least, resp. the greatest, entry of [a]. *)
Definition is_min (a : ndarray3) (v : Z) : Prop :=
  In v (elements3 a) /\ forall x, In x (elements3 a) -> v <= x.

Definition is_max (a : ndarray3) (v : Z) : Prop :=
  In v (elements3 a) /\ forall x, In x (elements3 a) -> x <= v.

(** [c], when it draws a panel, uses the colour bounds [lo] and [hi]. *)
Definition panel_bounds (lo hi : Z) (c : PltCall) : Prop :=
  match c with
  | Imshow _ _ vmin vmax => vmin = lo /\ vmax = hi
  | _ => True
  end.

(** A callee for [plot_peak_waveform_with] that only records its
    arguments. *)
Definition spy {Recording : Type} (_ : Recording) (sample_time : Z)
    (channels : pyval) : Py (list (Z * pyval)) unit :=
  fun calls => (calls ++ [(sample_time, channels)], Ok tt).

Section Waveforms.

Context {Recording Spikes : Type} `{Preprocessing Recording Spikes}.

(** [line] is what [get_trace_snippet(recording, frame)[:, channel_id]]
    evaluates to. *)
Definition is_waveform (recording : Recording) (channel_id frame : Z)
    (line : list Z) : Prop :=
  exists snip, get_trace_snippet recording frame = Ok snip /\
               column snip channel_id = Ok line.

(** The calls of a complete run of [plot_unit_waveform] that plots
    [lines]. *)
Definition unit_figure (unit_id channel_id : Z) (lines : list (list Z))
    : list PltCall :=
  Figure None :: map Plot lines ++
  [Xlabel "time (frames)"; Ylabel "action potential (mV)";
   Title unit_id channel_id; Show].

(** What a call ends with when it stops at line 21 or 24 with [e], after
    the snippet was fetched. *)
Definition stops_with (recording : Recording) (sample_time : Z) (e : exn)
    : outcome unit :=
  match get_trace_snippet recording sample_time with
  | Ok _ => Raise e
  | Raise e' => Raise e'
  | OutOfFuel => OutOfFuel
  end.

End Waveforms.

(** A computation indexed by its fuel is monotone when a run that ends
    within its fuel ends the same way with more. *)
Definition fuel_monotone {Σ A} (m : nat -> Py Σ A) : Prop :=
  forall fuel fuel' σ σ' r,
    m fuel σ = (σ', r) -> r <> OutOfFuel -> (fuel <= fuel')%nat ->
    m fuel' σ = (σ', r).

(** ** The figures of [plot_trace_waveform] *)

(** The calls of lines 33-37, for a channel drawn on the axes [ax]. *)
Definition channel_calls (ax channel : Z) (y : list Z) : list PltCall :=
  [AxPlot ax y; AxSetTitle ax channel; AxSetXlabel ax "Time";
   AxSetYlabel ax "Amplitude"; AxLabelOuter ax].

(** The calls of lines 32-37 for the channels [channels], whose waveforms
    are [ys], the first of them drawn on the axes [first]. *)
Definition channels_calls (first : nat) (channels : list Z) (ys : list (list Z))
    : list PltCall :=
  concat (imap (fun i '(channel, y) => channel_calls (Z.of_nat (first + i)) channel y)
               (zip channels ys)).

(** The calls of a complete run of [plot_trace_waveform] on [channels]. *)
Definition trace_figure (rows cols : Z) (channels : list Z) (ys : list (list Z))
    : list PltCall :=
  Subplots rows cols (4 * cols, 3 * rows) ::
  channels_calls 0 channels ys ++
  map (fun i => AxAxis i "off") (py_range (Z.of_nat (length channels)) (rows * cols)) ++
  [TightLayout; Show].

(** The grid for [n] channels, when the doubles are exact. *)
Definition grid_rows (n : Z) : Z := cdiv n (ceil_sqrt n).
Definition grid_cols (n : Z) : Z := ceil_sqrt n.

(** The loop of lines 32-37 from position [first] on. *)
Definition channels_loop (trace_snippet : ndarray2) (axs : Z) (first : nat)
    (channels : list Z) : Py World unit :=
  for_ (imap (fun i x => ((first + i)%nat, x)) channels) (fun '(i, channel) =>
    let* ax := lift (axs_item axs (Z.of_nat i)) in
    let* y := lift (column trace_snippet channel) in
    plt (AxPlot ax y) ;;
    plt (AxSetTitle ax channel) ;;
    plt (AxSetXlabel ax "Time") ;;
    plt (AxSetYlabel ax "Amplitude") ;;
    plt (AxLabelOuter ax)).

(** ** The panels of [plot_trace_image] *)

(** [c], when it draws a panel, draws a variant [i] of [a] that the
    two-panel layout has room for, transposed, with the colour bounds [lo]
    and [hi]. *)
Definition panel_of (a : ndarray3) (lo hi : Z) (c : PltCall) : Prop :=
  match c with
  | Imshow img cmap vmin vmax =>
      exists i, (i < shape2 a)%nat /\ (i < 2)%nat /\
                img = slice_last (transpose_102 a) i /\
                cmap = "viridis" /\ vmin = lo /\ vmax = hi
  | _ => True
  end.

(** ** The draws of [plot_unit_waveform] *)

(** The first [n] outputs of the generator from the state [s] on, and the
    state after them. *)
Fixpoint mt19937_outputs (n : nat) (s : MT19937.state) : list Z * MT19937.state :=
  match n with
  | O => ([], s)
  | S n' =>
      let '(v, s') := MT19937.mt19937_next s in
      let '(vs, s'') := mt19937_outputs n' s' in
      (v :: vs, s'')
  end.

Section Figures.

Context {Recording Spikes : Type} `{Preprocessing Recording Spikes}.

(** The waveform of [frame] cannot be taken: fetching its snippet raises
    [e], or indexing the snippet with [channel_id] does. *)
Definition frame_fails (recording : Recording) (channel_id frame : Z) (e : exn)
    : Prop :=
  get_trace_snippet recording frame = Raise e \/
  exists snip, get_trace_snippet recording frame = Ok snip /\
               column snip channel_id = Raise e.

(** [fig] is the figure that [plot_trace_waveform] draws for the row
    [row] of a peaks table. *)
Definition row_figure (recording : Recording) (row : PeakRow) (fig : list PltCall)
    : Prop :=
  exists snip l ys,
    get_trace_snippet recording (peak_frame row) = Ok snip /\
    peak_channel row = PyList l /\
    1 <= Z.of_nat (length l) <= 2 ^ 52 /\
    Forall2 (fun channel y => column snip channel = Ok y) l ys /\
    fig = trace_figure (grid_rows (Z.of_nat (length l)))
            (grid_cols (Z.of_nat (length l))) l ys.

End Figures.

(** ** More recordings for evaluating the model *)

Module DemoTraces.

(** A recording whose reshaped trace is [a] at every frame. *)
Definition reshaping (a : ndarray3) : Preprocessing unit Demo.spike_table :=
  {| get_trace_snippet := fun _ t => Ok (Demo.snippet t);
     get_trace_reshaped := fun _ _ => Ok a;
     get_unit_frames := fun _ _ => Ok [] |}.

(** A window of no frames. *)
Definition no_frames : ndarray3 :=
  {| shape0 := 0; shape1 := 3; shape2 := 2; item3 := fun _ _ _ => 0 |}.

(** [k] variants of a window of two frames and three channels. *)
Definition variants (k : nat) : ndarray3 :=
  {| shape0 := 2; shape1 := 3; shape2 := k;
     item3 := fun i j v => Z.of_nat (100 * v + 10 * i + j) |}.

(** The waveforms of the channels [l] in the snippet at [t]. *)
Definition waveforms (t : Z) (l : list Z) : list (list Z) :=
  map (fun channel => col (Demo.snippet t) (Z.to_nat channel)) l.

(** The figure of [plot_trace_waveform] for the channels [l] at [t]. *)
Definition figure (t : Z) (l : list Z) : list PltCall :=
  trace_figure (grid_rows (Z.of_nat (length l))) (grid_cols (Z.of_nat (length l)))
    l (waveforms t l).

End DemoTraces.

(* ================================================================== *)
(** * Computations and the backend log *)

Lemma bind_ok_inv {Σ A B} (m : Py Σ A) (k : A -> Py Σ B) w w' b :
  bind m k w = (w', Ok b) ->
  exists w1 a, m w = (w1, Ok a) /\ k a w1 = (w', Ok b).
Proof.
  unfold bind. destruct (m w) as [w1 [a|e|]]; intros Hk; try discriminate.
  by exists w1, a.
Qed.

Lemma bind_ext {Σ A B} (m m' : Py Σ A) (k k' : A -> Py Σ B) w :
  m w = m' w -> (forall a w1, k a w1 = k' a w1) -> bind m k w = bind m' k' w.
Proof.
  intros Hm Hk. unfold bind. rewrite Hm.
  by destruct (m' w) as [w1 [a|e|]]; [apply Hk| |].
Qed.

Lemma for_ok_inv {Σ A} (l : list A) (body : A -> Py Σ unit) w w' :
  for_ l body w = (w', Ok tt) ->
  forall x, In x l -> exists w1 w2, body x w1 = (w2, Ok tt).
Proof.
  revert w. induction l as [|y l IH]; intros w Hrun x Hx; [destruct Hx|].
  cbn [for_] in Hrun. apply bind_ok_inv in Hrun as (w1 & [] & Hy & Hl).
  destruct Hx as [<-|Hx]; [by exists w, w1|by eapply IH].
Qed.

Lemma elem_of_py_range (start stop idx : Z) :
  In idx (py_range start stop) <-> start <= idx < stop.
Proof.
  unfold py_range. rewrite <- list_elem_of_In, elem_of_seqZ. lia.
Qed.

Lemma world_eta (w : World) :
  {| np_random := np_random w; pyplot := pyplot w ++ [] |} = w.
Proof. destruct w; cbn. by rewrite app_nil_r. Qed.

Lemma logs_lift {A} (o : outcome A) : logs (lift o) [] o.
Proof. intros w. unfold lift. by rewrite world_eta. Qed.

Lemma logs_ret {A} (a : A) : logs (ret a) [] (Ok a).
Proof. apply (logs_lift (Ok a)). Qed.

Lemma logs_plt (c : PltCall) : logs (plt c) [c] (Ok tt).
Proof. by intros w. Qed.

Lemma logs_bind {A B} (m : Py World A) (k : A -> Py World B) d a d' r :
  logs m d (Ok a) -> logs (k a) d' r -> logs (bind m k) (d ++ d') r.
Proof.
  intros Hm Hk w. unfold bind. rewrite Hm, Hk. cbn. by rewrite app_assoc.
Qed.

Lemma logs_bind_raise {A B} (m : Py World A) (k : A -> Py World B) d e :
  logs m d (Raise e) -> logs (bind m k) d (Raise e).
Proof. intros Hm w. unfold bind. by rewrite Hm. Qed.

Lemma logs_bind_fuel {A B} (m : Py World A) (k : A -> Py World B) d :
  logs m d OutOfFuel -> logs (bind m k) d OutOfFuel.
Proof. intros Hm w. unfold bind. by rewrite Hm. Qed.

Lemma emits_lift {A} P (o : outcome A) : emits P (@lift World A o).
Proof. exists [], o. split; [apply logs_lift|constructor]. Qed.

Lemma emits_ret {A} P (a : A) : emits P (@ret World A a).
Proof. apply (emits_lift P (Ok a)). Qed.

Lemma emits_raise {A} P (e : exn) : emits P (@raise World A e).
Proof. apply emits_lift. Qed.

Lemma emits_plt (P : PltCall -> Prop) (c : PltCall) : P c -> emits P (plt c).
Proof. intros Hc. exists [c], (Ok tt). split; [apply logs_plt|by constructor]. Qed.

Lemma emits_bind {A B} P (m : Py World A) (k : A -> Py World B) :
  emits P m -> (forall a, emits P (k a)) -> emits P (bind m k).
Proof.
  intros (d & [a|e|] & Hm & Hd) Hk.
  - destruct (Hk a) as (d' & r & Hka & Hd'). exists (d ++ d'), r.
    split; [by eapply logs_bind|by apply Forall_app].
  - exists d, (Raise e). split; [by eapply logs_bind_raise|done].
  - exists d, OutOfFuel. split; [by eapply logs_bind_fuel|done].
Qed.

Lemma emits_for {A} P (l : list A) (body : A -> Py World unit) :
  (forall x, emits P (body x)) -> emits P (for_ l body).
Proof.
  intros Hbody. induction l as [|x l IH]; cbn [for_].
  - apply emits_ret.
  - apply emits_bind; [apply Hbody|by intros _].
Qed.

Lemma emits_if {A} P (b : bool) (m1 m2 : Py World A) :
  emits P m1 -> emits P m2 -> emits P (if b then m1 else m2).
Proof. by destruct b. Qed.

(** Proves [emits P m] for a computation made of the primitives above. *)
Ltac emits_steps :=
  repeat first
    [ apply emits_lift | apply emits_ret | apply emits_raise
    | apply emits_plt; by cbn
    | apply emits_for; intros ?
    | apply emits_bind; [|intros ?]
    | apply emits_if
    | match goal with |- emits _ (let '(_, _) := ?p in _) => destruct p end
    | match goal with |- emits _ (match ?p with (_, _) => _ end) => destruct p end ].

Lemma log_only_state {A} (m : Py World A) w :
  log_only m ->
  np_random (fst (m w)) = np_random w /\
  exists d, pyplot (fst (m w)) = pyplot w ++ d.
Proof. intros (d & r & Hm & _). rewrite (Hm w). cbn. split; [done|by exists d]. Qed.

Lemma logs_fixed {A} (m : Py World A) d r : logs m d r -> fixed_output m d r.
Proof. intros Hm w. eexists. apply Hm. Qed.

Lemma fixed_bind_logs {A B} (m : Py World A) (k : A -> Py World B) d a d' r :
  fixed_output m d (Ok a) -> logs (k a) d' r -> fixed_output (bind m k) (d ++ d') r.
Proof.
  intros Hm Hk w. destruct (Hm w) as [s Hs]. exists s.
  unfold bind. rewrite Hs, Hk. cbn. by rewrite app_assoc.
Qed.

Lemma fixed_bind_stop {A B} (m : Py World A) (k : A -> Py World B) d r :
  fixed_output m d r -> (forall a, r <> Ok a) ->
  exists r', fixed_output (bind m k) d r'.
Proof.
  intros Hm Hr. destruct r as [a|e|]; [by destruct (Hr a)| |].
  - exists (Raise e). intros w. destruct (Hm w) as [s Hs]. exists s.
    unfold bind. by rewrite Hs.
  - exists OutOfFuel. intros w. destruct (Hm w) as [s Hs]. exists s.
    unfold bind. by rewrite Hs.
Qed.

(* ================================================================== *)
(** * [plot_trace_waveform]: failures before the figure *)

Section TraceWaveform.

Context {Recording Spikes : Type} `{Preprocessing Recording Spikes}.

Lemma plot_trace_waveform_scalar recording sample_time c w :
  plot_trace_waveform recording sample_time (PyInt c) w
  = (w, stops_with recording sample_time TypeError).
Proof.
  unfold plot_trace_waveform, stops_with, bind, lift.
  by destruct (get_trace_snippet recording sample_time).
Qed.

Lemma subplot_grid_0 : subplot_grid 0 = Raise ZeroDivisionError.
Proof. reflexivity. Qed.

Lemma plot_trace_waveform_empty recording sample_time w :
  plot_trace_waveform recording sample_time (PyList []) w
  = (w, stops_with recording sample_time ZeroDivisionError).
Proof.
  unfold plot_trace_waveform, stops_with, bind, lift.
  by destruct (get_trace_snippet recording sample_time).
Qed.

Lemma stops_with_not_ok recording sample_time e :
  stops_with recording sample_time e <> Ok tt.
Proof. unfold stops_with. by destruct (get_trace_snippet _ _). Qed.

Lemma plot_trace_waveform_ok_channels recording sample_time channels w :
  snd (plot_trace_waveform recording sample_time channels w) = Ok tt ->
  exists l, channels = PyList l /\ l <> [].
Proof.
  destruct channels as [c|[|x l]].
  - rewrite plot_trace_waveform_scalar. intros Hs. by apply stops_with_not_ok in Hs.
  - rewrite plot_trace_waveform_empty. intros Hs. by apply stops_with_not_ok in Hs.
  - intros _. by exists (x :: l).
Qed.

(** C10.  With an empty channel list the call stops in its grid
    computation: [cols] is computed as 0 and the division [0 / 0] raises
    [ZeroDivisionError] (unless fetching the snippet already failed); the
    plotting backend and the generator are left as they were.  Hence the
    channels of a call that succeeds are a non-empty list. *)
Theorem plot_trace_waveform_empty_channels :
  Float64.int_ceil (Float64.sqrt (Float64.float_of_int 0)) = Ok 0 /\
  Float64.int_truediv 0 0 = Raise ZeroDivisionError /\
  (forall (recording : Recording) sample_time w,
     plot_trace_waveform recording sample_time (PyList []) w
     = (w, match get_trace_snippet recording sample_time with
           | Ok _ => Raise ZeroDivisionError
           | Raise e => Raise e
           | OutOfFuel => OutOfFuel
           end)) /\
  (forall (recording : Recording) sample_time channels w,
     snd (plot_trace_waveform recording sample_time channels w) = Ok tt ->
     exists l, channels = PyList l /\ l <> []).
Proof.
  split; [reflexivity|]. split; [reflexivity|]. split.
  - intros. apply plot_trace_waveform_empty.
  - intros. by eapply plot_trace_waveform_ok_channels.
Qed.

End TraceWaveform.

(* ================================================================== *)
(** * The grid computation in binary64 *)

Module Float64Facts.
Import Float64.

Lemma digits2_pos_size (p : positive) : digits2_pos p = Pos.size p.
Proof. induction p as [p IH|p IH|]; simpl; congruence. Qed.

(** The number of binary digits, through [Z.log2]. *)
Lemma Zdigits2_log2 (m : Z) : 0 < m -> Zdigits2 m = Z.log2 m + 1.
Proof.
  destruct m as [|p|p]; try lia. intros _.
  destruct p as [p|p|]; simpl; rewrite ?digits2_pos_size; lia.
Qed.

Lemma Zdigits2_eq (m d : Z) : 0 < d -> 2 ^ (d - 1) <= m < 2 ^ d -> Zdigits2 m = d.
Proof.
  intros Hd Hm.
  assert (0 < m) by (pose proof (Z.pow_pos_nonneg 2 (d - 1)); lia).
  rewrite Zdigits2_log2 by done.
  rewrite (Z.log2_unique m (d - 1)); [lia|lia|].
  replace (Z.succ (d - 1)) with d by lia. done.
Qed.

Lemma loc_of_shr_record_of_loc m l : loc_of_shr_record (shr_record_of_loc m l) = l.
Proof. by destruct l as [|[]]. Qed.

Lemma shr_m_of_loc m l : shr_m (shr_record_of_loc m l) = m.
Proof. by destruct l as [|[]]. Qed.

Lemma fexp_normal e : -1021 <= e -> fexp prec emax e = e - 53.
Proof. unfold fexp, emin, prec, emax. lia. Qed.

(** ** Rounding *)

Lemma round_nearest_even_cases m l :
  round_nearest_even m l = m \/ round_nearest_even m l = m + 1.
Proof. unfold round_nearest_even. destruct l as [|[]]; try destruct (Z.even m); auto. Qed.

(** The last step of [binary_round_aux], on a mantissa that rounding may
    have carried to [2^53]. *)
Lemma round_finish (m e : Z) :
  2 ^ 52 <= m <= 2 ^ 53 -> -1074 <= e <= 960 ->
  (let '(mrs, e') := shr_fexp prec emax m e loc_Exact in
   match shr_m mrs with
   | Z0 => S754_zero false
   | Zpos p => if e' <=? emax - prec then S754_finite false p e' else S754_infinity false
   | Zneg _ => S754_nan
   end) =
  if m <? 2 ^ 53 then S754_finite false (Z.to_pos m) e
  else S754_finite false (Z.to_pos (2 ^ 52)) (e + 1).
Proof.
  intros Hm He. unfold shr_fexp.
  destruct (Z.ltb_spec m (2 ^ 53)) as [Hlt|Hge].
  - rewrite (Zdigits2_eq m 53) by (change (53 - 1) with 52; lia).
    rewrite fexp_normal by lia.
    replace (53 + e - 53 - e) with 0 by lia. cbn [shr shr_record_of_loc shr_m].
    destruct m as [|p|p]; try lia.
    destruct (Z.leb_spec e (emax - prec)) as [_|Hbad]; [done|unfold emax, prec in Hbad; lia].
  - assert (m = 2 ^ 53) as -> by lia.
    change (Zdigits2 (2 ^ 53)) with 54.
    rewrite fexp_normal by lia.
    replace (54 + e - 53 - e) with 1 by lia.
    cbn. destruct (Z.leb_spec (e + 1) (emax - prec)) as [_|Hbad]; [done|unfold emax, prec in Hbad; lia].
Qed.

Lemma shr_1_pos (m : Z) (r s : bool) :
  0 < m ->
  shr_1 (Build_shr_record m r s) = Build_shr_record (m / 2) (Z.odd m) (r || s).
Proof.
  intros Hm. destruct m as [|p|p]; try lia.
  destruct p as [p|p|].
  - cbn [shr_1]. rewrite <- (Z.div_unique (Z.pos p~1) 2 (Z.pos p) 1) by lia. done.
  - cbn [shr_1]. rewrite <- (Z.div_unique (Z.pos p~0) 2 (Z.pos p) 0) by lia. done.
  - reflexivity.
Qed.

(** A mantissa of 53 bits that is exact is kept as it is. *)
Lemma round53_exact (mx ex : Z) :
  2 ^ 52 <= mx < 2 ^ 53 -> -1074 <= ex <= 900 ->
  binary_round_aux prec emax false mx ex loc_Exact = S754_finite false (Z.to_pos mx) ex.
Proof.
  intros Hm He. unfold binary_round_aux, shr_fexp at 1.
  rewrite (Zdigits2_eq mx 53) by (change (53 - 1) with 52; lia).
  rewrite fexp_normal by lia.
  replace (53 + ex - 53 - ex) with 0 by lia. cbn [shr].
  cbn [shr_record_of_loc loc_of_shr_record shr_m round_nearest_even].
  rewrite round_finish by lia.
  destruct (Z.ltb_spec mx (2 ^ 53)); [done|lia].
Qed.

(** Rounding a mantissa of 53 or 54 bits gives a finite double, whose
    mantissa in units of [2^ex] is [rounded mx lx]. *)
Lemma round_cases (mx ex : Z) (lx : location) :
  2 ^ 52 <= mx < 2 ^ 54 -> -1074 <= ex <= 900 ->
  exists m e,
    binary_round_aux prec emax false mx ex lx = S754_finite false m e /\
    ex <= e <= ex + 2 /\
    Zpos m * 2 ^ (e - ex) = rounded mx lx.
Proof.
  intros Hm He. unfold binary_round_aux, rounded.
  destruct (Z.ltb_spec mx (2 ^ 53)) as [Hlt|Hge].
  - unfold shr_fexp at 1.
    rewrite (Zdigits2_eq mx 53) by (change (53 - 1) with 52; lia).
    rewrite fexp_normal by lia.
    replace (53 + ex - 53 - ex) with 0 by lia. cbn [shr].
    rewrite loc_of_shr_record_of_loc, shr_m_of_loc.
    set (m' := round_nearest_even mx lx).
    assert (Hm' : m' = mx \/ m' = mx + 1) by apply round_nearest_even_cases.
    clearbody m'. rewrite round_finish by lia.
    destruct (Z.ltb_spec m' (2 ^ 53)).
    + exists (Z.to_pos m'), ex. split; [done|]. split; [lia|].
      rewrite Z.sub_diag, Z2Pos.id by lia. change (2 ^ 0) with 1. lia.
    + exists (Z.to_pos (2 ^ 52)), (ex + 1). split; [done|]. split; [lia|].
      replace (ex + 1 - ex) with 1 by lia. change (Z.pos (Z.to_pos (2 ^ 52)) * 2 ^ 1) with (2 ^ 53). lia.
  - unfold shr_fexp at 1.
    rewrite (Zdigits2_eq mx 54) by (change (54 - 1) with 53; lia).
    rewrite fexp_normal by lia.
    replace (54 + ex - 53 - ex) with 1 by lia. cbn [shr SpecFloat.iter_pos].
    set (mrs := shr_1 (shr_record_of_loc mx lx)).
    assert (Hmrs : shr_m mrs = mx / 2).
    { unfold mrs. destruct lx as [|[]]; cbn [shr_record_of_loc];
        rewrite shr_1_pos by lia; done. }
    set (m' := round_nearest_even (shr_m mrs) (loc_of_shr_record mrs)).
    assert (Hm' : m' = mx / 2 \/ m' = mx / 2 + 1).
    { unfold m'. rewrite <- Hmrs. apply round_nearest_even_cases. }
    clearbody m' mrs. assert (2 ^ 52 <= mx / 2 < 2 ^ 53).
    { split; [apply Z.div_le_lower_bound; lia|apply Z.div_lt_upper_bound; lia]. }
    generalize dependent (mx / 2). intros h Hmrs Hm' Hh.
    rewrite round_finish by lia.
    destruct (Z.ltb_spec m' (2 ^ 53)).
    + exists (Z.to_pos m'), (ex + 1). split; [done|]. split; [lia|].
      replace (ex + 1 - ex) with 1 by lia. rewrite Z2Pos.id by lia. change (2 ^ 1) with 2. lia.
    + exists (Z.to_pos (2 ^ 52)), (ex + 1 + 1). split; [done|]. split; [lia|].
      replace (ex + 1 + 1 - ex) with 2 by lia.
      change (Z.pos (Z.to_pos (2 ^ 52)) * 2 ^ 2) with (2 ^ 54). lia.
Qed.

Lemma rounded_53 mx lx :
  mx < 2 ^ 53 ->
  (rounded mx lx = mx \/ rounded mx lx = mx + 1) /\
  (lx = loc_Exact -> rounded mx lx = mx).
Proof.
  intros Hlt. unfold rounded.
  destruct (Z.ltb_spec mx (2 ^ 53)); [|lia].
  split; [apply round_nearest_even_cases|]. by intros ->.
Qed.

Lemma rounded_54 mx lx :
  2 ^ 53 <= mx ->
  (rounded mx lx = 2 * (mx / 2) \/ rounded mx lx = 2 * (mx / 2) + 2) /\
  (lx = loc_Exact -> Z.odd mx = false -> rounded mx lx = mx).
Proof.
  intros Hge. unfold rounded.
  destruct (Z.ltb_spec mx (2 ^ 53)); [lia|].
  assert (Hs : forall r s, shr_1 (Build_shr_record mx r s)
                 = Build_shr_record (mx / 2) (Z.odd mx) (r || s)).
  { intros. apply shr_1_pos. lia. }
  split.
  - set (mrs := shr_1 _).
    assert (Hmrs : shr_m mrs = mx / 2).
    { unfold mrs. destruct lx as [|[]]; cbn [shr_record_of_loc]; rewrite Hs; done. }
    cbn zeta. rewrite Hmrs.
    destruct (round_nearest_even_cases (mx / 2) (loc_of_shr_record mrs)) as [->| ->]; lia.
  - intros -> Hodd. cbn [shr_record_of_loc]. rewrite Hs, Hodd. cbn.
    pose proof (Z.div_mod mx 2). rewrite Zmod_odd, Hodd in *. lia.
Qed.

Lemma cdiv_unique (a b k : Z) : 0 < b -> (k - 1) * b < a <= k * b -> cdiv a b = k.
Proof.
  intros Hb Ha. unfold cdiv.
  rewrite <- (Z.div_unique (- a) b (- k) (k * b - a)); lia.
Qed.

Lemma pow2_pos (a : Z) : 0 <= a -> 0 < 2 ^ a.
Proof. intros. apply Z.pow_pos_nonneg; lia. Qed.

Lemma pow2_add (a b : Z) : 0 <= a -> 0 <= b -> 2 ^ a * 2 ^ b = 2 ^ (a + b).
Proof. intros. by rewrite Z.pow_add_r. Qed.

(** The ceiling of a double, from its mantissa in units of [2^ex]. *)
Lemma ceil_finite_scaled (m : positive) (e ex : Z) :
  ex <= e -> ex <= 0 ->
  ceil_finite false m e = cdiv (Zpos m * 2 ^ (e - ex)) (2 ^ (- ex)).
Proof.
  intros He Hex. unfold ceil_finite, cdiv.
  pose proof (pow2_pos (- ex) ltac:(lia)) as Hc.
  assert (Hge : 0 <= e -> Z.pos m * 2 ^ e = - (- (Z.pos m * 2 ^ (e - ex)) / 2 ^ (- ex))).
  { intros H0. replace (e - ex) with (e + - ex) by lia.
    rewrite <- pow2_add by lia.
    replace (- (Z.pos m * (2 ^ e * 2 ^ (- ex)))) with (- (Z.pos m * 2 ^ e) * 2 ^ (- ex)) by ring.
    rewrite Z.div_mul by lia. lia. }
  destruct e as [|p|p]; [apply Hge; lia|apply Hge; lia|].
  assert (2 ^ (- ex) = 2 ^ Z.pos p * 2 ^ (Z.neg p - ex)) as ->
    by (rewrite pow2_add by lia; f_equal; lia).
  rewrite <- Z.mul_opp_l.
  pose proof (pow2_pos (Z.pos p) ltac:(lia)).
  pose proof (pow2_pos (Z.neg p - ex) ltac:(lia)).
  rewrite Z.div_mul_cancel_r by lia. done.
Qed.

Lemma shl_align_spec (mx : positive) (ex ex' : Z) :
  ex' <= ex ->
  exists mz, shl_align mx ex ex' = (mz, ex') /\ Zpos mz = Zpos mx * 2 ^ (ex - ex').
Proof.
  intros He. unfold shl_align. destruct (ex' - ex) as [|p|p] eqn:E; try lia.
  - exists mx. assert (ex' = ex) as -> by lia. rewrite Z.sub_diag. split; [done|lia].
  - exists (Pos.iter xO mx p). split; [done|].
    rewrite (Pos.iter_swap_gen _ _ Zpos xO (Z.mul 2)) by done.
    replace (ex - ex') with (Z.pos p) by lia.
    rewrite <- Z.shiftl_mul_pow2 by lia. done.
Qed.

(** An integer below [2^53] converts exactly, to a mantissa of 53 bits. *)
Lemma float_of_int_normal (n : Z) :
  1 <= n < 2 ^ 53 ->
  let d := Z.log2 n + 1 in
  float_of_int n = S754_finite false (Z.to_pos (n * 2 ^ (53 - d))) (d - 53).
Proof.
  intros Hn d.
  pose proof (Z.log2_spec n ltac:(lia)) as Hlog.
  assert (Hd : 1 <= d <= 53).
  { pose proof (Z.log2_nonneg n).
    assert (Z.log2 n < 53) by (apply Z.log2_lt_pow2; lia). lia. }
  replace (Z.succ (Z.log2 n)) with d in Hlog by lia.
  replace (Z.log2 n) with (d - 1) in Hlog by lia.
  assert (Hdig : Zdigits2 n = d) by (apply Zdigits2_eq; lia).
  destruct n as [|p|p]; try lia.
  unfold float_of_int, binary_normalize, binary_round.
  change (Z.pos (digits2_pos p)) with (Zdigits2 (Z.pos p)). rewrite Hdig.
  rewrite fexp_normal by lia.
  destruct (shl_align_spec p 0 (d + 0 - 53) ltac:(lia)) as (mz & -> & Hmz).
  replace (0 - (d + 0 - 53)) with (53 - d) in Hmz by lia.
  assert (Hb : 2 ^ 52 <= Z.pos mz < 2 ^ 53).
  { rewrite Hmz. pose proof (pow2_pos (53 - d) ltac:(lia)).
    pose proof (pow2_add (d - 1) (53 - d) ltac:(lia) ltac:(lia)) as E1.
    pose proof (pow2_add d (53 - d) ltac:(lia) ltac:(lia)) as E2.
    replace (d - 1 + (53 - d)) with 52 in E1 by lia.
    replace (d + (53 - d)) with 53 in E2 by lia. nia. }
  rewrite round53_exact by lia.
  f_equal; [|lia]. rewrite <- Hmz. done.
Qed.

(** ** Square roots *)

Lemma sqrt_scaled_square (k T : Z) : 0 <= k -> 0 < T -> Z.sqrt (k * k * (T * T)) = k * T.
Proof.
  intros. replace (k * k * (T * T)) with ((k * T) * (k * T)) by ring.
  apply Z.sqrt_square. nia.
Qed.

Lemma sqrt_scaled_bounds (n k T : Z) :
  0 <= k -> k * k < n < (k + 1) * (k + 1) -> 0 < T -> 2 * k < T ->
  k * T + 1 <= Z.sqrt (n * (T * T)) < (k + 1) * T.
Proof.
  intros Hk Hn HT HkT. split.
  - apply Z.sqrt_le_square; nia.
  - apply Z.sqrt_lt_square; nia.
Qed.

Lemma sqrt_lt_pow2 (n h : Z) : 0 <= h -> 0 <= n < 2 ^ (2 * h) -> Z.sqrt n < 2 ^ h.
Proof.
  intros Hh Hn. pose proof (pow2_pos h Hh).
  apply Z.sqrt_lt_square; [lia|lia|].
  rewrite pow2_add by lia. replace (h + h) with (2 * h) by lia. lia.
Qed.

(** Below [2^52] the ceiling of the rounded square root is the exact one:
    the square root of a non-square [n] exceeds [Z.sqrt n] by more than
    one unit of the 53-bit mantissa. *)
Lemma int_ceil_sqrt_small (n : Z) :
  1 <= n < 2 ^ 52 ->
  exists m e, sqrt (float_of_int n) = S754_finite false m e /\
              ceil_finite false m e = ceil_sqrt n.
Proof.
  intros Hn.
  pose proof (Z.log2_spec n ltac:(lia)) as Hlog.
  pose proof (Z.log2_nonneg n) as Hlog0.
  assert (Hlog1 : Z.log2 n < 52) by (apply Z.log2_lt_pow2; lia).
  rewrite float_of_int_normal by lia. cbn zeta.
  set (d := Z.log2 n + 1) in *.
  replace (Z.succ (Z.log2 n)) with d in Hlog by lia.
  replace (Z.log2 n) with (d - 1) in Hlog by lia.
  assert (Hd : 1 <= d <= 52) by lia. clearbody d. clear Hlog0 Hlog1.
  set (h := (d + 1) / 2).
  assert (Hh : 2 * h - 1 <= d <= 2 * h) by (unfold h; Z.div_mod_to_equations; lia).
  clearbody h.
  set (M := n * 2 ^ (53 - d)).
  assert (HM : 2 ^ 52 <= M < 2 ^ 53).
  { unfold M. pose proof (pow2_pos (53 - d) ltac:(lia)).
    pose proof (pow2_add (d - 1) (53 - d) ltac:(lia) ltac:(lia)) as E1.
    pose proof (pow2_add d (53 - d) ltac:(lia) ltac:(lia)) as E2.
    replace (d - 1 + (53 - d)) with 52 in E1 by lia.
    replace (d + (53 - d)) with 53 in E2 by lia. nia. }
  unfold sqrt, SFsqrt, SFsqrt_core_binary.
  rewrite Z2Pos.id by lia.
  rewrite (Zdigits2_eq M 53) by (change (53 - 1) with 52; lia).
  rewrite !Z.div2_div.
  replace ((53 + (d - 53) + 1) / 2) with h
    by (Z.div_mod_to_equations; lia).
  rewrite fexp_normal by lia.
  replace (Z.min (h - 53) ((d - 53) / 2)) with (h - 53)
    by (Z.div_mod_to_equations; lia).
  set (t := 53 - h).
  assert (Hs : d - 53 - 2 * (h - 53) = d - 53 + 2 * t) by lia. rewrite Hs.
  assert (HsP : 0 < d - 53 + 2 * t) by lia.
  assert (Hm' : match d - 53 + 2 * t with
                | 0 => M | Z.pos _ => Z.shiftl M (d - 53 + 2 * t) | Z.neg _ => 0
                end = n * (2 ^ t * 2 ^ t)).
  { destruct (d - 53 + 2 * t) as [|p|p] eqn:E; try lia.
    rewrite Z.shiftl_mul_pow2 by lia. unfold M.
    rewrite <- Z.mul_assoc, !pow2_add by lia. f_equal. f_equal. lia. }
  rewrite Hm'. clear Hm' Hs.
  set (T := 2 ^ t).
  assert (HT : 0 < T) by (apply pow2_pos; lia).
  set (k := Z.sqrt n).
  assert (Hk : 0 <= k /\ k * k <= n < (k + 1) * (k + 1)).
  { split; [apply Z.sqrt_nonneg|]. pose proof (Z.sqrt_spec n ltac:(lia)) as Hq. apply Hq. }
  assert (HkT : 2 * k < T).
  { assert (k < 2 ^ h).
    { apply sqrt_lt_pow2; [lia|]. split; [lia|].
      eapply Z.lt_le_trans; [apply Hlog|]. apply Z.pow_le_mono_r; lia. }
    assert (2 ^ (h + 1) <= T) by (apply Z.pow_le_mono_r; lia).
    rewrite <- pow2_add in * by lia. change (2 ^ 1) with 2 in *. lia. }
  pose proof (Z.sqrtrem_spec (n * (T * T)) ltac:(nia)) as Hrem.
  pose proof (Z.sqrtrem_sqrt (n * (T * T))) as Hq.
  destruct (Z.sqrtrem (n * (T * T))) as [q r]. cbn [fst] in Hq.
  destruct Hrem as [Hrem Hr].
  assert (HT2 : T * T = 2 ^ (2 * t))
    by (unfold T; rewrite pow2_add by lia; f_equal; lia).
  assert (Hq52 : 2 ^ 52 <= q < 2 ^ 53).
  { rewrite Hq. split.
    - apply Z.sqrt_le_square; [nia|lia|].
      rewrite HT2. change (2 ^ 52 * 2 ^ 52) with (2 ^ 104).
      assert (2 ^ 104 <= 2 ^ (d - 1) * 2 ^ (2 * t)).
      { rewrite pow2_add by lia. apply Z.pow_le_mono_r; lia. }
      pose proof (pow2_pos (2 * t) ltac:(lia)). nia.
    - apply Z.sqrt_lt_square; [nia|lia|].
      rewrite HT2. change (2 ^ 53 * 2 ^ 53) with (2 ^ 106).
      assert (2 ^ d * 2 ^ (2 * t) <= 2 ^ 106).
      { rewrite pow2_add by lia. apply Z.pow_le_mono_r; lia. }
      pose proof (pow2_pos (2 * t) ltac:(lia)). nia. }
  set (l := if r =? 0 then loc_Exact else loc_Inexact (if r <=? q then Lt else Gt)).
  destruct (round_cases q (h - 53) l ltac:(lia) ltac:(lia)) as (m & e & -> & He & HR).
  exists m, e. split; [done|].
  rewrite (ceil_finite_scaled m e (h - 53)) by lia. rewrite HR.
  replace (- (h - 53)) with t by lia. fold T.
  destruct (rounded_53 q l ltac:(lia)) as [Hcases Hexact].
  unfold ceil_sqrt. fold k.
  destruct (Z.eqb_spec (k * k) n) as [Hsq|Hnsq].
  - assert (q = k * T).
    { rewrite Hq, <- Hsq. apply sqrt_scaled_square; lia. }
    assert (r = 0) by nia.
    rewrite Hexact by (unfold l; subst r; done).
    apply cdiv_unique; nia.
  - pose proof (sqrt_scaled_bounds n k T ltac:(lia) ltac:(lia) HT HkT) as Hb.
    rewrite <- Hq in Hb.
    apply cdiv_unique; [lia|]. destruct Hcases as [-> | ->]; nia.
Qed.

(** ** Division *)

Lemma cdiv_spec (a b : Z) : 0 < b -> a <= cdiv a b * b < a + b.
Proof. intros Hb. unfold cdiv. Z.div_mod_to_equations. nia. Qed.

Lemma new_location_exact (c : Z) : new_location c 0 = loc_Exact.
Proof. unfold new_location. by destruct (Z.even c). Qed.

Lemma wrap_int64_small (z : Z) : - 2 ^ 63 <= z < 2 ^ 63 -> wrap_int64 z = z.
Proof. intros. unfold wrap_int64. rewrite Z.mod_small; lia. Qed.

Lemma odd_mul_pow2 (a s : Z) : 0 < s -> Z.odd (a * 2 ^ s) = false.
Proof.
  intros. replace s with (1 + (s - 1)) by lia.
  rewrite <- pow2_add by lia. change (2 ^ 1) with 2.
  replace (a * (2 * 2 ^ (s - 1))) with (2 * (a * 2 ^ (s - 1))) by ring.
  apply Z.odd_even.
Qed.

(** Below [2^52] the ceiling of the rounded quotient is the exact one: a
    quotient that is not an integer exceeds its floor by at least [1 / c],
    which is two units of the mantissa or more. *)
Lemma int_truediv_ceil (n c : Z) :
  1 <= n < 2 ^ 52 -> 1 <= c < 2 ^ 52 ->
  exists x, int_truediv n c = Ok x /\ ceil_astype_int x = cdiv n c.
Proof.
  intros Hn Hc.
  pose proof (Z.log2_spec n ltac:(lia)) as Hl1.
  pose proof (Z.log2_spec c ltac:(lia)) as Hl2.
  pose proof (Z.log2_nonneg n). pose proof (Z.log2_nonneg c).
  assert (Z.log2 n < 52) by (apply Z.log2_lt_pow2; lia).
  assert (Z.log2 c < 52) by (apply Z.log2_lt_pow2; lia).
  set (d1 := Z.log2 n + 1). set (d2 := Z.log2 c + 1).
  replace (Z.succ (Z.log2 n)) with d1 in Hl1 by lia.
  replace (Z.log2 n) with (d1 - 1) in Hl1 by lia.
  replace (Z.succ (Z.log2 c)) with d2 in Hl2 by lia.
  replace (Z.log2 c) with (d2 - 1) in Hl2 by lia.
  assert (Hd1 : 1 <= d1 <= 52) by lia. assert (Hd2 : 1 <= d2 <= 52) by lia.
  clearbody d1 d2.
  unfold int_truediv.
  destruct c as [|pc|pc]; try lia. destruct n as [|pn|pn]; try lia.
  cbn [Z.abs Z.ltb Z.compare xorb].
  unfold SFdiv_core_binary.
  change (Z.abs (Z.pos pn)) with (Z.pos pn). change (Z.abs (Z.pos pc)) with (Z.pos pc).
  rewrite (Zdigits2_eq (Z.pos pn) d1), (Zdigits2_eq (Z.pos pc) d2) by lia.
  rewrite fexp_normal by lia.
  set (n := Z.pos pn) in *. set (c := Z.pos pc) in *.
  set (s := 53 + d2 - d1).
  replace (Z.min (d1 + 0 - (d2 + 0) - 53) (0 - 0)) with (- s) by lia.
  replace (0 - 0 - - s) with s by lia.
  assert (Hs : d2 + 1 <= s) by lia.
  assert (Hm' : match s with
                | 0 => n | Z.pos _ => Z.shiftl n s | Z.neg _ => 0
                end = n * 2 ^ s).
  { destruct s as [|p|p] eqn:E; try lia. rewrite Z.shiftl_mul_pow2 by lia. done. }
  rewrite Hm'. clear Hm'.
  set (U := 2 ^ s).
  assert (HU : 0 < U) by (apply pow2_pos; lia).
  assert (HUc : 2 * c < U).
  { assert (2 ^ (d2 + 1) <= U) by (apply Z.pow_le_mono_r; lia).
    rewrite <- pow2_add in * by lia. change (2 ^ 1) with 2 in *. lia. }
  assert (HU2 : U = 2 * 2 ^ (s - 1)).
  { unfold U. replace s with (1 + (s - 1)) at 1 by lia.
    rewrite <- pow2_add by lia. done. }
  destruct (Z.div_eucl (n * U) c) as [q r] eqn:Hdiv.
  assert (Hq : q = n * U / c) by (unfold Z.div; by rewrite Hdiv).
  assert (Hr : r = (n * U) mod c) by (unfold Z.modulo; by rewrite Hdiv).
  clear Hdiv.
  assert (Hq52 : 2 ^ 52 <= q < 2 ^ 54).
  { rewrite Hq. split.
    - apply Z.div_le_lower_bound; [lia|].
      assert (2 ^ d2 * 2 ^ 52 = 2 ^ (d1 - 1) * U).
      { unfold U. rewrite !pow2_add by lia. f_equal. lia. }
      nia.
    - apply Z.div_lt_upper_bound; [lia|].
      assert (2 ^ d1 * U = 2 ^ (d2 - 1) * 2 ^ 54).
      { unfold U. rewrite !pow2_add by lia. f_equal. lia. }
      nia. }
  destruct (round_cases q (- s) (new_location c r) ltac:(lia) ltac:(lia))
    as (m & e & -> & He & HR).
  eexists. split; [done|]. cbn [ceil_astype_int].
  pose proof (cdiv_spec n c ltac:(lia)) as Hcd.
  assert (Hcd1 : 1 <= cdiv n c <= n) by nia.
  rewrite (ceil_finite_scaled m e (- s)) by lia. rewrite HR.
  replace (- - s) with s by lia. fold U.
  assert (Hgoal : cdiv (rounded q (new_location c r)) U = cdiv n c);
    [|rewrite Hgoal; apply wrap_int64_small; lia].
  set (a := n / c). set (b := n mod c).
  assert (Hab : n = c * a + b /\ 0 <= b < c).
  { split; [apply Z.div_mod; lia|apply Z.mod_pos_bound; lia]. }
  assert (0 <= a) by (apply Z.div_pos; lia).
  clearbody a b.
  destruct (Z.eq_dec b 0) as [Hb|Hb].
  - assert (Hna : cdiv n c = a) by (apply cdiv_unique; nia).
    assert (Hqa : q = a * U).
    { rewrite Hq. replace (n * U) with (a * U * c) by nia. apply Z.div_mul. lia. }
    assert (Hr0 : r = 0).
    { rewrite Hr. replace (n * U) with (a * U * c) by nia. apply Z.mod_mul. lia. }
    rewrite Hr0, new_location_exact, Hna.
    assert (HR' : rounded q loc_Exact = q).
    { destruct (Z.lt_ge_cases q (2 ^ 53)).
      - by apply rounded_53.
      - apply rounded_54; [done|done|]. rewrite Hqa. apply odd_mul_pow2. lia. }
    rewrite HR', Hqa. apply cdiv_unique; nia.
  - assert (Hna : cdiv n c = a + 1) by (apply cdiv_unique; nia).
    assert (Hqb : a * U + 2 <= q < (a + 1) * U).
    { rewrite Hq. split.
      - apply Z.div_le_lower_bound; [lia|nia].
      - apply Z.div_lt_upper_bound; [lia|nia]. }
    rewrite Hna. apply cdiv_unique; [lia|].
    destruct (Z.lt_ge_cases q (2 ^ 53)).
    + destruct (rounded_53 q (new_location c r) ltac:(lia)) as [[-> | ->] _]; nia.
    + destruct (rounded_54 q (new_location c r) ltac:(lia)) as [HRc _].
      assert (q - 1 <= 2 * (q / 2) <= q) by (Z.div_mod_to_equations; lia).
      assert (2 * (q / 2) + 2 <= (a + 1) * U).
      { rewrite HU2 in *. set (V := 2 ^ (s - 1)) in *. clearbody V.
        assert (q / 2 < (a + 1) * V); [|lia].
        apply Z.div_lt_upper_bound; lia. }
      destruct HRc as [-> | ->]; nia.
Qed.

End Float64Facts.

(** The doubles on two values: [sqrt(10.0) = 3.1622776601683795] and
    [10 / 4 = 2.5]. *)
Lemma float64_examples :
  Float64.sqrt (Float64.float_of_int 10) = S754_finite false 7120816245988179 (-51) /\
  Float64.int_truediv 10 4 = Ok (S754_finite false 5629499534213120 (-51)) /\
  subplot_grid 10 = Ok (3, 4).
Proof. by vm_compute. Qed.

(** The exact ceiling of a square root. *)
Lemma ceil_sqrt_spec (n : Z) :
  1 <= n ->
  (ceil_sqrt n - 1) * (ceil_sqrt n - 1) < n <= ceil_sqrt n * ceil_sqrt n /\
  1 <= ceil_sqrt n <= n.
Proof.
  intros Hn. unfold ceil_sqrt.
  pose proof (Z.sqrt_spec n ltac:(lia)) as Hs. cbn zeta in Hs.
  pose proof (Z.sqrt_nonneg n).
  destruct (Z.eqb_spec (Z.sqrt n * Z.sqrt n) n); nia.
Qed.

(** Up to [2^52] channels the doubles compute the exact grid. *)
Lemma subplot_grid_exact (n : Z) :
  1 <= n <= 2 ^ 52 ->
  subplot_grid n = Ok (cdiv n (ceil_sqrt n), ceil_sqrt n).
Proof.
  intros Hn. destruct (Z.eq_dec n (2 ^ 52)) as [->|Hne]; [by vm_compute|].
  unfold subplot_grid.
  destruct (Float64Facts.int_ceil_sqrt_small n) as (m & e & -> & Hc); [lia|].
  cbn [Float64.int_ceil]. rewrite Hc.
  pose proof (ceil_sqrt_spec n ltac:(lia)) as [_ Hc1].
  destruct (Float64Facts.int_truediv_ceil n (ceil_sqrt n)) as (x & -> & Hx); [lia|lia|].
  by rewrite Hx.
Qed.

(** Beyond [2^52] the doubles no longer give [ceil(sqrt(n))], and beyond
    [2^54] the grid can be too small for the channels. *)
Lemma subplot_grid_2p52_1 :
  subplot_grid (2 ^ 52 + 1) = Ok (2 ^ 26 + 1, 2 ^ 26) /\
  ceil_sqrt (2 ^ 52 + 1) = 2 ^ 26 + 1.
Proof. by vm_compute. Qed.

Lemma subplot_grid_2p54_1 :
  subplot_grid (2 ^ 54 + 1) = Ok (2 ^ 27, 2 ^ 27) /\
  2 ^ 27 * 2 ^ 27 < 2 ^ 54 + 1.
Proof. by vm_compute. Qed.

Section Grid.

Context {Recording Spikes : Type} `{Preprocessing Recording Spikes}.

Lemma log_only_fill_grid trace_snippet channels num_channels rows cols axs :
  log_only (fill_grid trace_snippet channels num_channels rows cols axs).
Proof. unfold log_only, fill_grid. emits_steps. Qed.

Lemma plot_trace_waveform_run (recording : Recording) sample_time
    (trace_snippet : ndarray2) (l : list Z) (rows cols : Z) w :
  get_trace_snippet recording sample_time = Ok trace_snippet ->
  subplot_grid (Z.of_nat (length l)) = Ok (rows, cols) ->
  0 < rows -> 0 < cols ->
  plot_trace_waveform recording sample_time (PyList l) w
  = fill_grid trace_snippet (PyList l) (Z.of_nat (length l)) rows cols (rows * cols)
      {| np_random := np_random w;
         pyplot := pyplot w ++ [Subplots rows cols (4 * cols, 3 * rows)] |}.
Proof.
  intros Hfetch Hgrid Hrows Hcols.
  unfold plot_trace_waveform. unfold bind at 1, lift at 1. rewrite Hfetch.
  unfold bind at 1, lift at 1. cbn [py_len].
  unfold bind at 1, lift at 1. rewrite Hgrid.
  unfold bind at 1, plt_subplots.
  destruct (Z.ltb_spec 0 rows); [|lia]. destruct (Z.ltb_spec 0 cols); [|lia].
  reflexivity.
Qed.

(** The figure that [plot_trace_waveform] opens has the grid of
    [subplot_grid] on the number of channels. *)
Lemma plot_trace_waveform_grid (recording : Recording) sample_time
    (trace_snippet : ndarray2) (l : list Z) (rows cols : Z) w :
  get_trace_snippet recording sample_time = Ok trace_snippet ->
  subplot_grid (Z.of_nat (length l)) = Ok (rows, cols) ->
  0 < rows -> 0 < cols ->
  exists d,
    pyplot (fst (plot_trace_waveform recording sample_time (PyList l) w))
    = pyplot w ++ Subplots rows cols (4 * cols, 3 * rows) :: d.
Proof.
  intros Hfetch Hgrid Hrows Hcols.
  rewrite (plot_trace_waveform_run _ _ trace_snippet l rows cols w) by done.
  destruct (log_only_state (fill_grid trace_snippet (PyList l) (Z.of_nat (length l))
                              rows cols (rows * cols))
              {| np_random := np_random w;
                 pyplot := pyplot w ++ [Subplots rows cols (4 * cols, 3 * rows)] |}
              (log_only_fill_grid _ _ _ _ _ _)) as [_ [d Hd]].
  exists d. rewrite Hd. cbn [pyplot]. by rewrite <- app_assoc.
Qed.

Lemma logs_for_ok {A} (l : list A) (body : A -> Py World unit) :
  (forall x, In x l -> exists d, logs (body x) d (Ok tt)) ->
  exists d, logs (for_ l body) d (Ok tt).
Proof.
  induction l as [|x l IH]; intros Hbody; cbn [for_].
  - exists []. apply logs_ret.
  - destruct (Hbody x) as [d Hd]; [by left|].
    destruct IH as [d' Hd']; [intros y Hy; apply Hbody; by right|].
    exists (d ++ d'). by apply (logs_bind _ _ d tt).
Qed.

Lemma column_ok (a : ndarray2) (channel : Z) :
  - Z.of_nat (ncols a) <= channel < Z.of_nat (ncols a) ->
  exists y, column a channel = Ok y.
Proof.
  intros Hc. unfold column.
  destruct (Z.leb_spec 0 channel), (Z.ltb_spec channel (Z.of_nat (ncols a)));
    cbn [andb]; eauto; try lia.
  destruct (Z.leb_spec (- Z.of_nat (ncols a)) channel), (Z.ltb_spec channel 0);
    cbn [andb]; eauto; lia.
Qed.

Lemma axs_item_ok (naxes i : Z) : 0 <= i < naxes -> axs_item naxes i = Ok i.
Proof.
  intros Hi. unfold axs_item.
  by destruct (Z.leb_spec 0 i), (Z.ltb_spec i naxes); try lia.
Qed.

(** With a grid of at least [num_channels] axes and channels that are
    columns of the snippet, the loops of lines 32-41 find all their axes. *)
Lemma fill_grid_ok (trace_snippet : ndarray2) (l : list Z) (rows cols : Z) :
  Z.of_nat (length l) <= rows * cols ->
  Forall (fun channel => - Z.of_nat (ncols trace_snippet) <= channel
                         < Z.of_nat (ncols trace_snippet)) l ->
  exists d, logs (fill_grid trace_snippet (PyList l) (Z.of_nat (length l))
                    rows cols (rows * cols)) d (Ok tt).
Proof.
  intros Hn Hl. unfold fill_grid.
  destruct (logs_for_ok (enumerate l) (fun '(i, channel) =>
              let* ax := lift (axs_item (rows * cols) (Z.of_nat i)) in
              let* y := lift (column trace_snippet channel) in
              plt (AxPlot ax y) ;;
              plt (AxSetTitle ax channel) ;;
              plt (AxSetXlabel ax "Time") ;;
              plt (AxSetYlabel ax "Amplitude") ;;
              plt (AxLabelOuter ax))) as [d1 Hd1].
  { intros [i channel] Hin. apply list_elem_of_In in Hin.
    unfold enumerate in Hin. apply list_elem_of_lookup in Hin as [j Hj].
    rewrite list_lookup_imap in Hj.
    destruct (l !! j) as [c|] eqn:Hlj; [|done]. injection Hj as <- <-.
    assert (j < length l)%nat by (by eapply lookup_lt_Some).
    rewrite Forall_forall in Hl.
    destruct (column_ok trace_snippet c) as [y Hy];
      [apply Hl; by eapply list_elem_of_lookup_2|].
    eexists. eapply (logs_bind _ _ [] (Z.of_nat j)).
    { rewrite <- (axs_item_ok (rows * cols) (Z.of_nat j)) by lia. apply logs_lift. }
    eapply (logs_bind _ _ [] y); [rewrite <- Hy; apply logs_lift|].
    do 4 (eapply logs_bind; [apply logs_plt|]). apply logs_plt. }
  destruct (logs_for_ok (py_range (Z.of_nat (length l)) (rows * cols)) (fun i =>
              let* ax := lift (axs_item (rows * cols) i) in
              plt (AxAxis ax "off"))) as [d2 Hd2].
  { intros i Hi. apply elem_of_py_range in Hi.
    eexists. eapply (logs_bind _ _ [] i); [|apply logs_plt].
    rewrite <- (axs_item_ok (rows * cols) i) by lia. apply logs_lift. }
  eexists. eapply (logs_bind _ _ [] l); [apply (logs_lift (Ok l))|].
  eapply (logs_bind _ _ d1 tt); [done|].
  eapply (logs_bind _ _ d2 tt); [done|].
  eapply logs_bind; [apply logs_plt|]. apply logs_plt.
Qed.

(** A call with between 1 and [2^52] channels, all of them columns of the
    snippet, completes. *)
Lemma plot_trace_waveform_ok (recording : Recording) sample_time
    (trace_snippet : ndarray2) (l : list Z) w :
  get_trace_snippet recording sample_time = Ok trace_snippet ->
  1 <= Z.of_nat (length l) <= 2 ^ 52 ->
  Forall (fun channel => - Z.of_nat (ncols trace_snippet) <= channel
                         < Z.of_nat (ncols trace_snippet)) l ->
  snd (plot_trace_waveform recording sample_time (PyList l) w) = Ok tt.
Proof.
  intros Hfetch Hn Hl.
  pose proof (subplot_grid_exact _ Hn) as Hgrid.
  pose proof (ceil_sqrt_spec (Z.of_nat (length l)) ltac:(lia)) as [_ Hc].
  pose proof (Float64Facts.cdiv_spec (Z.of_nat (length l))
                (ceil_sqrt (Z.of_nat (length l))) ltac:(lia)) as Hr.
  rewrite (plot_trace_waveform_run _ _ trace_snippet l _ _ w Hfetch Hgrid)
    by (nia || lia).
  destruct (fill_grid_ok trace_snippet l (cdiv (Z.of_nat (length l))
              (ceil_sqrt (Z.of_nat (length l)))) (ceil_sqrt (Z.of_nat (length l))))
    as [d Hd]; [lia|done|].
  by rewrite Hd.
Qed.

(** C2, as amended.  For a channel list of length [n] with
    [1 <= n <= 2^52] the grid computation succeeds with
    [cols = ceil(sqrt(n))] and [rows = ceil(n / cols)], so that
    [rows * cols >= n] and [rows * cols - n < cols]; and this is the grid
    of the figure that [plot_trace_waveform] opens. *)
Theorem subplot_grid_near_square (n : Z) :
  1 <= n <= 2 ^ 52 ->
  exists rows cols,
    subplot_grid n = Ok (rows, cols) /\
    (cols - 1) * (cols - 1) < n <= cols * cols /\
    (rows - 1) * cols < n <= rows * cols /\
    rows * cols >= n /\ rows * cols - n < cols /\
    forall (recording : Recording) sample_time trace_snippet (l : list Z) w,
      Z.of_nat (length l) = n ->
      get_trace_snippet recording sample_time = Ok trace_snippet ->
      exists d,
        pyplot (fst (plot_trace_waveform recording sample_time (PyList l) w))
        = pyplot w ++ Subplots rows cols (4 * cols, 3 * rows) :: d.
Proof.
  intros Hn. exists (cdiv n (ceil_sqrt n)), (ceil_sqrt n).
  pose proof (ceil_sqrt_spec n ltac:(lia)) as [Hc Hc1].
  pose proof (Float64Facts.cdiv_spec n (ceil_sqrt n) ltac:(lia)) as Hr.
  pose proof (subplot_grid_exact n Hn) as Hgrid.
  split; [done|]. split; [done|]. split; [nia|]. split; [lia|]. split; [lia|].
  intros recording sample_time trace_snippet l w <- Hfetch.
  apply (plot_trace_waveform_grid _ _ trace_snippet); [done|done|nia|lia].
Qed.

End Grid.

(** C2, where it fails.  For the empty list [cols] is computed as 0, no
    [rows] could satisfy [rows * cols - n < cols] then, and the division
    raises, so that no grid is computed at all.  For [n = 2^54 + 1] the
    doubles give a grid of [2^27] by [2^27] axes, one fewer than [n]. *)
Lemma subplot_grid_not_for_any_length :
  (Float64.int_ceil (Float64.sqrt (Float64.float_of_int (Z.of_nat (length (@nil Z)))))
   = Ok 0 /\
   subplot_grid (Z.of_nat (length (@nil Z))) = Raise ZeroDivisionError /\
   (forall rows, ~ (rows * 0 - 0 < 0)) /\
   ~ (exists rows cols,
        subplot_grid 0 = Ok (rows, cols) /\ rows * cols >= 0 /\ rows * cols - 0 < cols)) /\
  (subplot_grid (2 ^ 54 + 1) = Ok (2 ^ 27, 2 ^ 27) /\
   ~ (2 ^ 27 * 2 ^ 27 >= 2 ^ 54 + 1)).
Proof.
  split.
  - split; [reflexivity|]. split; [reflexivity|]. split; [lia|].
    intros (rows & cols & Hgrid & _). by rewrite subplot_grid_0 in Hgrid.
  - split; [by vm_compute|lia].
Qed.

(* ================================================================== *)
(** * [plot_peak_waveform] *)

Section PeakWaveform.

Context {Recording Spikes : Type} `{Preprocessing Recording Spikes}.

Lemma peak_body_ok_inv {Σ} (grid_plot : Recording -> Z -> pyval -> Py Σ unit)
    (recording : Recording) (table : gmap Z PeakRow) (idx : Z) σ1 σ2 :
  (let* frame := lift (loc table idx peak_frame) in
   let* channel := lift (loc table idx peak_channel) in
   grid_plot recording frame channel) σ1 = (σ2, Ok tt) ->
  exists row, table !! idx = Some row /\
    grid_plot recording (peak_frame row) (peak_channel row) σ1 = (σ2, Ok tt).
Proof.
  unfold bind, lift, loc. destruct (table !! idx) as [row|]; [|done].
  intros Hrun. by exists row.
Qed.

(** C9.  The [peak_channel] cell of a row is passed as it is to
    [plot_trace_waveform], which takes its length right after fetching
    the snippet: on a cell that holds a single channel number the call
    raises [TypeError] and leaves the plotting backend untouched.  So in
    a run of [plot_peak_waveform] that completes, every row of the range
    exists and its [peak_channel] is a list. *)
Theorem plot_peak_waveform_needs_channel_lists :
  (forall (recording : Recording) sample_time c w,
     plot_trace_waveform recording sample_time (PyInt c) w
     = (w, match get_trace_snippet recording sample_time with
           | Ok _ => Raise TypeError
           | Raise e => Raise e
           | OutOfFuel => OutOfFuel
           end)) /\
  (forall (recording : Recording) (table : gmap Z PeakRow) start_idx end_idx w,
     snd (plot_peak_waveform recording table start_idx end_idx w) = Ok tt ->
     forall idx, start_idx <= idx <= end_idx ->
       exists row l, table !! idx = Some row /\ peak_channel row = PyList l).
Proof.
  split; [intros; apply plot_trace_waveform_scalar|].
  intros recording table start_idx end_idx w Hrun idx Hidx.
  unfold plot_peak_waveform, plot_peak_waveform_with in Hrun.
  destruct (for_ _ _ w) as [w' r] eqn:Hfor. cbn [snd] in Hrun. subst r.
  eapply for_ok_inv in Hfor as (w1 & w2 & Hbody);
    [|apply elem_of_py_range with (idx := idx); lia].
  apply peak_body_ok_inv in Hbody as (row & Hrow & Hplot).
  assert (Hs : snd (plot_trace_waveform recording (peak_frame row)
                      (peak_channel row) w1) = Ok tt) by (by rewrite Hplot).
  apply plot_trace_waveform_ok_channels in Hs as (l & Hl & _).
  by exists row, l.
Qed.

Lemma peak_body_row {Σ} (grid_plot : Recording -> Z -> pyval -> Py Σ unit)
    (recording : Recording) (table : gmap Z PeakRow) (idx : Z) (row : PeakRow) σ :
  table !! idx = Some row ->
  (let* frame := lift (loc table idx peak_frame) in
   let* channel := lift (loc table idx peak_channel) in
   grid_plot recording frame channel) σ
  = grid_plot recording (peak_frame row) (peak_channel row) σ.
Proof. intros Hrow. unfold bind, lift, loc. by rewrite Hrow. Qed.

Lemma peak_loop_rows {Σ} (grid_plot : Recording -> Z -> pyval -> Py Σ unit)
    (recording : Recording) (table : gmap Z PeakRow) (idxs : list Z)
    (rows : list PeakRow) σ :
  Forall2 (fun idx row => table !! idx = Some row) idxs rows ->
  for_ idxs (fun idx =>
    let* frame := lift (loc table idx peak_frame) in
    let* channel := lift (loc table idx peak_channel) in
    grid_plot recording frame channel) σ
  = for_ rows (fun row => grid_plot recording (peak_frame row) (peak_channel row)) σ.
Proof.
  intros Hrows. revert σ.
  induction Hrows as [|idx row idxs rows Hrow _ IH]; intros σ; [done|].
  cbn [for_]. apply bind_ext; [by apply peak_body_row|intros _; apply IH].
Qed.

Lemma spy_loop (recording : Recording) (rows : list PeakRow) calls :
  for_ rows (fun row => spy recording (peak_frame row) (peak_channel row)) calls
  = (calls ++ map (fun row => (peak_frame row, peak_channel row)) rows, Ok tt).
Proof.
  revert calls. induction rows as [|row rows IH]; intros calls; cbn [for_ map].
  - unfold ret. by rewrite app_nil_r.
  - unfold bind, spy at 1. rewrite IH. by rewrite <- app_assoc.
Qed.

Lemma py_range_lookup (start stop : Z) (i : nat) :
  (i < length (py_range start stop))%nat ->
  py_range start stop !! i = Some (start + Z.of_nat i).
Proof.
  unfold py_range. rewrite length_seqZ. intros Hi.
  apply lookup_seqZ. lia.
Qed.

(** C3.  [plot_peak_waveform] walks the rows [start_idx], [start_idx + 1],
    ..., [end_idx] in that order and calls the grid plot once for each of
    them, with that row's [peak_frame] and [peak_channel]: whatever the
    callee, the run is the sequence of its calls on the rows of the range,
    and a callee that records its arguments ends with exactly these, in
    order.  For [start_idx = 2] and [end_idx = 4] these are three calls,
    for the rows 2, 3 and 4. *)
Theorem plot_peak_waveform_calls :
  (forall start_idx end_idx,
     length (py_range start_idx (end_idx + 1)) = Z.to_nat (end_idx + 1 - start_idx) /\
     forall i, (i < length (py_range start_idx (end_idx + 1)))%nat ->
       py_range start_idx (end_idx + 1) !! i = Some (start_idx + Z.of_nat i)) /\
  (forall (recording : Recording) (table : gmap Z PeakRow) start_idx end_idx rows,
     Forall2 (fun idx row => table !! idx = Some row)
             (py_range start_idx (end_idx + 1)) rows ->
     (forall Σ (grid_plot : Recording -> Z -> pyval -> Py Σ unit) σ,
        plot_peak_waveform_with grid_plot recording table start_idx end_idx σ
        = for_ rows (fun row =>
            grid_plot recording (peak_frame row) (peak_channel row)) σ) /\
     plot_peak_waveform_with spy recording table start_idx end_idx []
     = (map (fun row => (peak_frame row, peak_channel row)) rows, Ok tt)) /\
  (forall (recording : Recording) (table : gmap Z PeakRow) r2 r3 r4,
     table !! 2 = Some r2 -> table !! 3 = Some r3 -> table !! 4 = Some r4 ->
     plot_peak_waveform_with spy recording table 2 4 []
     = ([(peak_frame r2, peak_channel r2); (peak_frame r3, peak_channel r3);
         (peak_frame r4, peak_channel r4)], Ok tt) /\
     forall w,
       plot_peak_waveform recording table 2 4 w
       = (plot_trace_waveform recording (peak_frame r2) (peak_channel r2) ;;
          plot_trace_waveform recording (peak_frame r3) (peak_channel r3) ;;
          plot_trace_waveform recording (peak_frame r4) (peak_channel r4) ;;
          ret tt) w).
Proof.
  split; [|split].
  - intros start_idx end_idx. split.
    + unfold py_range. by rewrite length_seqZ.
    + apply py_range_lookup.
  - intros recording table start_idx end_idx rows Hrows. split.
    + intros Σ grid_plot σ. by apply peak_loop_rows.
    + unfold plot_peak_waveform_with.
      rewrite (peak_loop_rows _ _ _ _ rows) by done. apply spy_loop.
  - intros recording table r2 r3 r4 H2 H3 H4.
    assert (Hrows : Forall2 (fun idx row => table !! idx = Some row)
                      (py_range 2 (4 + 1)) [r2; r3; r4])
      by (repeat constructor; done).
    split.
    + unfold plot_peak_waveform_with.
      rewrite (peak_loop_rows _ _ _ _ [r2; r3; r4]) by done. apply spy_loop.
    + intros w. unfold plot_peak_waveform, plot_peak_waveform_with.
      by rewrite (peak_loop_rows _ _ _ _ [r2; r3; r4]).
Qed.

End PeakWaveform.

(* ================================================================== *)
(** * [plot_unit_waveform] *)

Section UnitWaveform.

Context {Recording Spikes : Type} `{Preprocessing Recording Spikes}.

Lemma plot_frame_logs recording channel_id frame line :
  is_waveform recording channel_id frame line ->
  logs (plot_frame recording channel_id frame) [Plot line] (Ok tt).
Proof.
  intros (snip & Hsnip & Hline) w.
  unfold plot_frame, bind, lift. by rewrite Hsnip, Hline.
Qed.

Lemma plot_frames_logs recording channel_id frames lines :
  Forall2 (is_waveform recording channel_id) frames lines ->
  logs (for_ frames (plot_frame recording channel_id)) (map Plot lines) (Ok tt).
Proof.
  induction 1 as [|frame line frames lines Hline _ IH]; cbn [for_ map].
  - apply logs_ret.
  - apply (logs_bind _ _ [Plot line] tt); [by apply plot_frame_logs|done].
Qed.

Lemma log_only_plot_frame recording channel_id frame :
  log_only (plot_frame recording channel_id frame).
Proof. unfold log_only, plot_frame. emits_steps. Qed.

Lemma plot_unit_waveform_unfold fuel recording spikes unit_id channel_id
    all_waveforms num_waveforms seed :
  plot_unit_waveform fuel recording spikes unit_id channel_id all_waveforms
    num_waveforms seed
  = (let* sample_frames := lift (get_unit_frames spikes unit_id) in
     let* frames := frames_to_plot fuel sample_frames all_waveforms num_waveforms seed in
     show_frames recording unit_id channel_id frames).
Proof. reflexivity. Qed.

Lemma show_frames_logs recording unit_id channel_id frames lines :
  Forall2 (is_waveform recording channel_id) frames lines ->
  logs (show_frames recording unit_id channel_id frames)
       (unit_figure unit_id channel_id lines) (Ok tt).
Proof.
  intros Hlines. unfold show_frames, unit_figure.
  apply (logs_bind _ _ [Figure None] tt); [apply logs_plt|].
  apply (logs_bind _ _ (map Plot lines) tt); [by apply plot_frames_logs|].
  apply (logs_bind _ _ [_] tt); [apply logs_plt|].
  apply (logs_bind _ _ [_] tt); [apply logs_plt|].
  apply (logs_bind _ _ [_] tt); [apply logs_plt|]. apply logs_plt.
Qed.

Lemma log_only_show_frames recording unit_id channel_id frames :
  log_only (show_frames recording unit_id channel_id frames).
Proof.
  unfold log_only, show_frames. emits_steps.
Qed.

Lemma frames_to_plot_keep fuel sample_frames all_waveforms num_waveforms seed w :
  all_waveforms = true \/ Z.of_nat (length sample_frames) < num_waveforms ->
  frames_to_plot fuel sample_frames all_waveforms num_waveforms seed w
  = (w, Ok sample_frames).
Proof.
  unfold frames_to_plot. intros [->|Hlt]; [done|].
  destruct all_waveforms; [done|].
  by destruct (Z.ltb_spec (Z.of_nat (length sample_frames)) num_waveforms); [|lia].
Qed.

(** Every available frame is plotted when [all_waveforms] is set or there
    are fewer frames than [num_waveforms]. *)
Lemma plot_unit_waveform_keep fuel recording spikes unit_id channel_id
    all_waveforms num_waveforms seed sample_frames lines w :
  get_unit_frames spikes unit_id = Ok sample_frames ->
  all_waveforms = true \/ Z.of_nat (length sample_frames) < num_waveforms ->
  Forall2 (is_waveform recording channel_id) sample_frames lines ->
  plot_unit_waveform fuel recording spikes unit_id channel_id all_waveforms
    num_waveforms seed w
  = ({| np_random := np_random w;
        pyplot := pyplot w ++ unit_figure unit_id channel_id lines |}, Ok tt).
Proof.
  intros Hframes Hkeep Hlines.
  rewrite plot_unit_waveform_unfold. unfold bind at 1, lift. rewrite Hframes.
  unfold bind at 1. rewrite frames_to_plot_keep by done.
  by apply show_frames_logs.
Qed.

(** C7.  With [all_waveforms = True] the frames returned by
    [get_unit_frames] are plotted as they are, one fetch and one line per
    frame, in their order, with no sampling: the run appends to the
    backend exactly the figure made of these lines, and leaves the
    generator alone. *)
Theorem plot_unit_waveform_all_waveforms
    fuel (recording : Recording) (spikes : Spikes) unit_id channel_id
    num_waveforms seed sample_frames lines w :
  get_unit_frames spikes unit_id = Ok sample_frames ->
  Forall2 (is_waveform recording channel_id) sample_frames lines ->
  plot_unit_waveform fuel recording spikes unit_id channel_id true
    num_waveforms seed w
  = ({| np_random := np_random w;
        pyplot := pyplot w ++ Figure None :: map Plot lines ++
                  [Xlabel "time (frames)"; Ylabel "action potential (mV)";
                   Title unit_id channel_id; Show] |}, Ok tt) /\
  frames_to_plot fuel sample_frames true num_waveforms seed w = (w, Ok sample_frames) /\
  length lines = length sample_frames.
Proof.
  intros Hframes Hlines. split; [|split].
  - by apply (plot_unit_waveform_keep _ _ _ _ _ _ _ _ sample_frames); [|left|].
  - apply frames_to_plot_keep. by left.
  - symmetry. by eapply Forall2_length.
Qed.

(** C6.  When there are fewer frames than [num_waveforms], every frame
    returned by [get_unit_frames] is selected and plotted, whether
    [all_waveforms] is set or not. *)
Theorem plot_unit_waveform_few_frames
    fuel (recording : Recording) (spikes : Spikes) unit_id channel_id
    all_waveforms num_waveforms seed sample_frames lines w :
  get_unit_frames spikes unit_id = Ok sample_frames ->
  Z.of_nat (length sample_frames) < num_waveforms ->
  Forall2 (is_waveform recording channel_id) sample_frames lines ->
  frames_to_plot fuel sample_frames all_waveforms num_waveforms seed w
  = (w, Ok sample_frames) /\
  plot_unit_waveform fuel recording spikes unit_id channel_id all_waveforms
    num_waveforms seed w
  = ({| np_random := np_random w;
        pyplot := pyplot w ++ Figure None :: map Plot lines ++
                  [Xlabel "time (frames)"; Ylabel "action potential (mV)";
                   Title unit_id channel_id; Show] |}, Ok tt).
Proof.
  intros Hframes Hfew Hlines. split.
  - apply frames_to_plot_keep. by right.
  - by apply (plot_unit_waveform_keep _ _ _ _ _ _ _ _ sample_frames); [|right|].
Qed.

(** The sampling branch: the global generator is re-seeded, then drawn
    from. *)
Lemma frames_to_plot_sample fuel sample_frames num_waveforms seed w :
  num_waveforms <= Z.of_nat (length sample_frames) ->
  frames_to_plot fuel sample_frames false num_waveforms seed w
  = if (0 <=? seed) && (seed <=? 0xFFFFFFFF) then
      let '(s, r) := RandomState.choice fuel sample_frames num_waveforms
                       (MT19937.mt19937_seed seed) in
      ({| np_random := s; pyplot := pyplot w |}, r)
    else (w, Raise ValueError).
Proof.
  intros Hn. unfold frames_to_plot.
  destruct (Z.ltb_spec (Z.of_nat (length sample_frames)) num_waveforms); [lia|].
  unfold bind, np_random_seed, np_random_choice, on_np_random, RandomState.seed.
  destruct ((0 <=? seed) && (seed <=? 0xFFFFFFFF)); cbn.
  - by destruct (RandomState.choice _ _ _ _).
  - by destruct w.
Qed.

Lemma frames_to_plot_fixed fuel sample_frames all_waveforms num_waveforms seed :
  exists r, fixed_output
              (frames_to_plot fuel sample_frames all_waveforms num_waveforms seed) [] r.
Proof.
  destruct (decide (all_waveforms = true \/
                    Z.of_nat (length sample_frames) < num_waveforms)) as [Hkeep|Hsample].
  - exists (Ok sample_frames). intros w. exists (np_random w).
    rewrite frames_to_plot_keep by done. by rewrite world_eta.
  - assert (all_waveforms = false) as -> by (destruct all_waveforms; tauto).
    assert (Hn : num_waveforms <= Z.of_nat (length sample_frames)) by lia.
    destruct ((0 <=? seed) && (seed <=? 0xFFFFFFFF)) eqn:Hseed.
    + destruct (RandomState.choice fuel sample_frames num_waveforms
                  (MT19937.mt19937_seed seed)) as [s r] eqn:Hchoice.
      exists r. intros w. exists s.
      rewrite frames_to_plot_sample, Hseed, Hchoice by done. by rewrite app_nil_r.
    + exists (Raise ValueError). intros w. exists (np_random w).
      rewrite frames_to_plot_sample, Hseed by done. by rewrite world_eta.
Qed.

Lemma plot_unit_waveform_fixed fuel recording spikes unit_id channel_id
    all_waveforms num_waveforms seed :
  exists d r, fixed_output
    (plot_unit_waveform fuel recording spikes unit_id channel_id all_waveforms
       num_waveforms seed) d r.
Proof.
  rewrite plot_unit_waveform_unfold.
  destruct (get_unit_frames spikes unit_id) as [sample_frames|e|] eqn:Hframes.
  - destruct (frames_to_plot_fixed fuel sample_frames all_waveforms num_waveforms seed)
      as [r Hsel].
    assert (Hstep : forall (k : list Z -> Py World unit) w,
              bind (lift (Ok sample_frames)) k w = k sample_frames w) by done.
    destruct r as [frames|e|].
    + destruct (log_only_show_frames recording unit_id channel_id frames)
        as (d' & r' & Hshow & _).
      exists ([] ++ d'), r'. intros w. rewrite Hstep.
      by apply (fixed_bind_logs _ _ [] frames).
    + exists [], (Raise e). intros w. rewrite Hstep.
      destruct (Hsel w) as [s Hs]. exists s. unfold bind. by rewrite Hs.
    + exists [], OutOfFuel. intros w. rewrite Hstep.
      destruct (Hsel w) as [s Hs]. exists s. unfold bind. by rewrite Hs.
  - exists [], (Raise e). apply logs_fixed.
    apply logs_bind_raise, logs_lift.
  - exists [], OutOfFuel. apply logs_fixed.
    apply logs_bind_fuel, logs_lift.
Qed.

(** C5.  The frames that [plot_unit_waveform] selects, what the call ends
    with and what it sends to the plotting backend are functions of its
    arguments alone: two calls with the same arguments, started in any two
    states of the process (in particular any two states of the global
    generator), select the same frames and draw the same figure. *)
Theorem plot_unit_waveform_deterministic
    fuel (recording : Recording) (spikes : Spikes) unit_id channel_id
    all_waveforms num_waveforms seed :
  (forall sample_frames w1 w2,
     snd (frames_to_plot fuel sample_frames all_waveforms num_waveforms seed w1)
     = snd (frames_to_plot fuel sample_frames all_waveforms num_waveforms seed w2)) /\
  (forall w1 w2,
     let run := plot_unit_waveform fuel recording spikes unit_id channel_id
                  all_waveforms num_waveforms seed in
     snd (run w1) = snd (run w2) /\
     exists d, pyplot (fst (run w1)) = pyplot w1 ++ d /\
               pyplot (fst (run w2)) = pyplot w2 ++ d).
Proof.
  split.
  - intros sample_frames w1 w2.
    destruct (frames_to_plot_fixed fuel sample_frames all_waveforms num_waveforms seed)
      as [r Hsel].
    destruct (Hsel w1) as [s1 ->]. by destruct (Hsel w2) as [s2 ->].
  - intros w1 w2 run.
    destruct (plot_unit_waveform_fixed fuel recording spikes unit_id channel_id
                all_waveforms num_waveforms seed) as (d & r & Hrun).
    unfold run. destruct (Hrun w1) as [s1 ->]. destruct (Hrun w2) as [s2 ->].
    split; [done|]. by exists d.
Qed.

Lemma bind_show_frames_state (m : Py World (list Z)) recording unit_id channel_id w :
  np_random (fst ((let* frames := m in
                   show_frames recording unit_id channel_id frames) w))
  = np_random (fst (m w)) /\
  exists d, pyplot (fst ((let* frames := m in
                          show_frames recording unit_id channel_id frames) w))
            = pyplot (fst (m w)) ++ d.
Proof.
  unfold bind. destruct (m w) as [w1 [frames|e|]]; cbn [fst].
  - apply log_only_state, log_only_show_frames.
  - split; [done|]. exists []. by rewrite app_nil_r.
  - split; [done|]. exists []. by rewrite app_nil_r.
Qed.

(** C8.  When [plot_unit_waveform] samples (no [all_waveforms], at least
    [num_waveforms] frames), it replaces the state of the global generator
    by the one seeded with [seed] and advances it by the draws of
    [choice]: the state it leaves does not depend on the one it found.
    When it does not sample, or [seed] is refused, it leaves the generator
    as it was.  Apart from the generator, the call only appends to the log
    of the plotting backend. *)
Theorem plot_unit_waveform_reseeds
    fuel (recording : Recording) (spikes : Spikes) unit_id channel_id
    all_waveforms num_waveforms seed sample_frames w :
  get_unit_frames spikes unit_id = Ok sample_frames ->
  let w' := fst (plot_unit_waveform fuel recording spikes unit_id channel_id
                   all_waveforms num_waveforms seed w) in
  (all_waveforms = false ->
   num_waveforms <= Z.of_nat (length sample_frames) ->
   0 <= seed <= 0xFFFFFFFF ->
   np_random w' = fst (RandomState.choice fuel sample_frames num_waveforms
                         (MT19937.mt19937_seed seed))) /\
  (all_waveforms = true \/ Z.of_nat (length sample_frames) < num_waveforms \/
   ~ 0 <= seed <= 0xFFFFFFFF ->
   np_random w' = np_random w) /\
  exists d, pyplot w' = pyplot w ++ d.
Proof.
  intros Hframes w'. subst w'. rewrite plot_unit_waveform_unfold.
  assert (Hstep : forall (k : list Z -> Py World unit),
            bind (lift (get_unit_frames spikes unit_id)) k w = k sample_frames w)
    by (intros k; unfold bind, lift; by rewrite Hframes).
  rewrite Hstep.
  destruct (bind_show_frames_state
              (frames_to_plot fuel sample_frames all_waveforms num_waveforms seed)
              recording unit_id channel_id w) as [-> [d ->]].
  split; [|split].
  - intros -> Hn Hseed. rewrite frames_to_plot_sample by done.
    destruct (Z.leb_spec 0 seed); [|lia].
    destruct (Z.leb_spec seed 0xFFFFFFFF); [|lia]. cbn [andb].
    by destruct (RandomState.choice _ _ _ _).
  - intros [->|[Hfew|Hseed]].
    + by rewrite frames_to_plot_keep by (by left).
    + by rewrite frames_to_plot_keep by (by right).
    + destruct (decide (all_waveforms = true \/
                        Z.of_nat (length sample_frames) < num_waveforms)) as [Hkeep|Hsample].
      * by rewrite frames_to_plot_keep.
      * assert (all_waveforms = false) as -> by (destruct all_waveforms; tauto).
        rewrite frames_to_plot_sample by lia.
        destruct (Z.leb_spec 0 seed); [|done].
        destruct (Z.leb_spec seed 0xFFFFFFFF); [lia|done].
  - destruct (frames_to_plot_fixed fuel sample_frames all_waveforms num_waveforms seed)
      as [r Hsel].
    destruct (Hsel w) as [s ->]. cbn. rewrite app_nil_r. by exists d.
Qed.

End UnitWaveform.

(* ================================================================== *)
(** * [plot_trace_image] *)

Section TraceImage.

Context {Recording Spikes : Type} `{Preprocessing Recording Spikes}.

Lemma elements3_spec (a : ndarray3) (x : Z) :
  In x (elements3 a) <->
  exists i j k, (i < shape0 a)%nat /\ (j < shape1 a)%nat /\ (k < shape2 a)%nat /\
                x = item3 a i j k.
Proof.
  unfold elements3. split.
  - intros Hx. apply in_flat_map in Hx as (i & Hi & Hx).
    apply in_flat_map in Hx as (j & Hj & Hx).
    apply in_map_iff in Hx as (k & <- & Hk).
    apply in_seq in Hi, Hj, Hk. exists i, j, k. repeat split; lia.
  - intros (i & j & k & Hi & Hj & Hk & ->).
    apply in_flat_map. exists i. split; [apply in_seq; lia|].
    apply in_flat_map. exists j. split; [apply in_seq; lia|].
    apply in_map_iff. exists k. split; [done|apply in_seq; lia].
Qed.

(** Transposing the first two axes keeps the entries. *)
Lemma elements3_transpose (a : ndarray3) (x : Z) :
  In x (elements3 (transpose_102 a)) <-> In x (elements3 a).
Proof.
  rewrite !elements3_spec. cbn. split.
  - intros (i & j & k & Hi & Hj & Hk & ->). by exists j, i, k.
  - intros (i & j & k & Hi & Hj & Hk & ->). by exists j, i, k.
Qed.

Lemma foldl_min_spec (l : list Z) (x : Z) :
  In (foldl Z.min x l) (x :: l) /\ forall y, In y (x :: l) -> foldl Z.min x l <= y.
Proof.
  revert x. induction l as [|z l IH]; intros x; cbn [foldl].
  - split; [by left|]. intros y [<-|[]]. lia.
  - destruct (IH (Z.min x z)) as [Hin Hle]. split.
    + destruct Hin as [Hin|Hin]; [|by right; right].
      rewrite <- Hin. destruct (Z.min_spec x z) as [[_ ->]|[_ ->]]; [by left|by right; left].
    + intros y Hy. pose proof (Hle (Z.min x z) ltac:(by left)).
      destruct Hy as [<-|[<-|Hy]]; [lia|lia|apply Hle; by right].
Qed.

Lemma foldl_max_spec (l : list Z) (x : Z) :
  In (foldl Z.max x l) (x :: l) /\ forall y, In y (x :: l) -> y <= foldl Z.max x l.
Proof.
  revert x. induction l as [|z l IH]; intros x; cbn [foldl].
  - split; [by left|]. intros y [<-|[]]. lia.
  - destruct (IH (Z.max x z)) as [Hin Hle]. split.
    + destruct Hin as [Hin|Hin]; [|by right; right].
      rewrite <- Hin. destruct (Z.max_spec x z) as [[_ ->]|[_ ->]]; [by right; left|by left].
    + intros y Hy. pose proof (Hle (Z.max x z) ltac:(by left)).
      destruct Hy as [<-|[<-|Hy]]; [lia|lia|apply Hle; by right].
Qed.

Lemma ndarray_min_transposed (a : ndarray3) (v : Z) :
  ndarray_min (transpose_102 a) = Ok v -> is_min a v.
Proof.
  unfold ndarray_min, is_min.
  destruct (elements3 (transpose_102 a)) as [|x l] eqn:El; [done|].
  intros [= <-]. destruct (foldl_min_spec l x) as [Hin Hle].
  rewrite <- El in Hin, Hle. split.
  - exact (proj1 (elements3_transpose a _) Hin).
  - intros y Hy. exact (Hle y (proj2 (elements3_transpose a y) Hy)).
Qed.

Lemma ndarray_max_transposed (a : ndarray3) (v : Z) :
  ndarray_max (transpose_102 a) = Ok v -> is_max a v.
Proof.
  unfold ndarray_max, is_max.
  destruct (elements3 (transpose_102 a)) as [|x l] eqn:El; [done|].
  intros [= <-]. destruct (foldl_max_spec l x) as [Hin Hle].
  rewrite <- El in Hin, Hle. split.
  - exact (proj1 (elements3_transpose a _) Hin).
  - intros y Hy. exact (Hle y (proj2 (elements3_transpose a y) Hy)).
Qed.

Lemma plot_trace_image_unfold recording sample_frame :
  plot_trace_image recording sample_frame
  = (let* trace_reshaped := lift (get_trace_reshaped recording sample_frame) in
     let* vmin := lift (ndarray_min (transpose_102 trace_reshaped)) in
     let* vmax := lift (ndarray_max (transpose_102 trace_reshaped)) in
     show_image trace_reshaped vmin vmax).
Proof. reflexivity. Qed.

Lemma plot_trace_image_run recording sample_frame (a : ndarray3) w :
  get_trace_reshaped recording sample_frame = Ok a ->
  plot_trace_image recording sample_frame w
  = match ndarray_min (transpose_102 a) with
    | Ok vmin =>
        match ndarray_max (transpose_102 a) with
        | Ok vmax => show_image a vmin vmax w
        | Raise e => (w, Raise e)
        | OutOfFuel => (w, OutOfFuel)
        end
    | Raise e => (w, Raise e)
    | OutOfFuel => (w, OutOfFuel)
    end.
Proof.
  intros Hfetch. rewrite plot_trace_image_unfold. unfold bind at 1, lift at 1.
  rewrite Hfetch. unfold bind at 1, lift at 1.
  destruct (ndarray_min (transpose_102 a)); [|done|done].
  unfold bind at 1, lift at 1. by destruct (ndarray_max (transpose_102 a)).
Qed.

Lemma show_image_emits (a : ndarray3) (vmin vmax : Z) :
  emits (panel_bounds vmin vmax) (show_image a vmin vmax).
Proof. unfold show_image, plt_subplot. emits_steps. Qed.

(** The run on a reshaped trace of two variants. *)
Lemma show_image_two (a : ndarray3) (vmin vmax : Z) :
  shape2 a = 2%nat ->
  logs (show_image a vmin vmax)
    [Figure (Some (8, 10));
     Subplot 1 2 1; Imshow (slice_last (transpose_102 a) 0) "viridis" vmin vmax;
     Subplot 1 2 2; Imshow (slice_last (transpose_102 a) 1) "viridis" vmin vmax;
     Text "time (frames)"; Text "channel"; Axes; Colorbar; Show]
    (Ok tt).
Proof.
  intros Hv. unfold show_image. rewrite Hv.
  assert (Hpanel : forall i index : Z, 1 <= index <= 2 -> forall img,
            logs (plt_subplot 1 2 index ;; plt (Imshow img "viridis" vmin vmax))
                 [Subplot 1 2 index; Imshow img "viridis" vmin vmax] (Ok tt)).
  { intros _ index Hi img. apply (logs_bind _ _ [_] tt); [|apply logs_plt].
    unfold plt_subplot.
    destruct (Z.leb_spec 1 index); [|lia].
    destruct (Z.leb_spec index (1 * 2)); [|lia]. apply logs_plt. }
  apply (logs_bind _ _ [_] tt); [apply logs_plt|].
  apply (logs_bind _ _ [_; _; _; _] tt).
  { cbn [seq for_].
    apply (logs_bind _ _ [_; _] tt); [apply (Hpanel 0); cbn; lia|].
    apply (logs_bind _ _ [_; _] tt); [apply (Hpanel 0); cbn; lia|].
    apply logs_ret. }
  apply (logs_bind _ _ [_] tt); [apply logs_plt|].
  apply (logs_bind _ _ [_] tt); [apply logs_plt|].
  apply (logs_bind _ _ [_] tt); [apply logs_plt|].
  apply (logs_bind _ _ [_] tt); [apply logs_plt|]. apply logs_plt.
Qed.

(** C4.  Every panel that [plot_trace_image] draws uses the same colour
    bounds, and these are the least and the greatest entry of the whole
    reshaped trace, all variants together; they are computed before the
    figure is opened.  For a trace of two variants the run draws the two
    panels, both with these bounds. *)
Theorem plot_trace_image_shared_bounds
    (recording : Recording) sample_frame (trace_reshaped : ndarray3) w :
  get_trace_reshaped recording sample_frame = Ok trace_reshaped ->
  let w' := fst (plot_trace_image recording sample_frame w) in
  exists d, pyplot w' = pyplot w ++ d /\ np_random w' = np_random w /\
    (forall img cmap vmin vmax, In (Imshow img cmap vmin vmax) d ->
       is_min trace_reshaped vmin /\ is_max trace_reshaped vmax) /\
    (shape2 trace_reshaped = 2%nat -> elements3 trace_reshaped <> [] ->
     exists vmin vmax,
       is_min trace_reshaped vmin /\ is_max trace_reshaped vmax /\
       snd (plot_trace_image recording sample_frame w) = Ok tt /\
       d = [Figure (Some (8, 10));
            Subplot 1 2 1;
            Imshow (slice_last (transpose_102 trace_reshaped) 0) "viridis" vmin vmax;
            Subplot 1 2 2;
            Imshow (slice_last (transpose_102 trace_reshaped) 1) "viridis" vmin vmax;
            Text "time (frames)"; Text "channel"; Axes; Colorbar; Show]).
Proof.
  intros Hfetch w'. subst w'. rewrite (plot_trace_image_run _ _ trace_reshaped) by done.
  assert (Hne : elements3 trace_reshaped <> [] ->
                elements3 (transpose_102 trace_reshaped) <> []).
  { intros Hne Hnil. destruct (elements3 trace_reshaped) as [|x l] eqn:El; [done|].
    assert (Hx : In x (elements3 (transpose_102 trace_reshaped)))
      by (apply elements3_transpose; rewrite El; by left).
    by rewrite Hnil in Hx. }
  destruct (ndarray_min (transpose_102 trace_reshaped)) as [vmin|e|] eqn:Hmin;
    cycle 1.
  { exists []. cbn [fst snd]. rewrite app_nil_r.
    split; [done|]. split; [done|]. split; [done|]. intros _ Hne'. apply Hne in Hne'.
    unfold ndarray_min in Hmin. by destruct (elements3 (transpose_102 _)). }
  { exists []. cbn [fst snd]. rewrite app_nil_r.
    split; [done|]. split; [done|]. split; [done|]. intros _ Hne'. apply Hne in Hne'.
    unfold ndarray_min in Hmin. by destruct (elements3 (transpose_102 _)). }
  destruct (ndarray_max (transpose_102 trace_reshaped)) as [vmax|e|] eqn:Hmax;
    cycle 1.
  { exists []. cbn [fst snd]. rewrite app_nil_r.
    split; [done|]. split; [done|]. split; [done|]. intros _ Hne'. apply Hne in Hne'.
    unfold ndarray_max in Hmax. by destruct (elements3 (transpose_102 _)). }
  { exists []. cbn [fst snd]. rewrite app_nil_r.
    split; [done|]. split; [done|]. split; [done|]. intros _ Hne'. apply Hne in Hne'.
    unfold ndarray_max in Hmax. by destruct (elements3 (transpose_102 _)). }
  clear Hne.
  apply ndarray_min_transposed in Hmin. apply ndarray_max_transposed in Hmax.
  destruct (show_image_emits trace_reshaped vmin vmax) as (d & r & Hrun & Hd).
  exists d. rewrite (Hrun w). cbn [fst snd np_random pyplot].
  split; [done|]. split; [done|]. split.
  - intros img cmap lo hi Hin.
    rewrite Forall_forall in Hd. apply list_elem_of_In, Hd in Hin.
    cbn in Hin. by destruct Hin as [-> ->].
  - intros Hv _. exists vmin, vmax. split; [done|]. split; [done|].
    pose proof (show_image_two trace_reshaped vmin vmax Hv w) as Htwo.
    rewrite (Hrun w) in Htwo. injection Htwo as Hd2 ->. split; [done|].
    by apply app_inv_head in Hd2.
Qed.

End TraceImage.

(* ================================================================== *)
(** * Sampling *)

(** The generator on its reference values: the first output for the seed
    5489 of the reference implementation, and for the seed 0. *)
Lemma mt19937_reference_outputs :
  fst (MT19937.mt19937_next (MT19937.mt19937_seed 5489)) = 3499211612 /\
  fst (MT19937.mt19937_next (MT19937.mt19937_seed 0)) = 2357136044.
Proof. by vm_compute. Qed.

Lemma fuel_monotone_const {Σ A} (m : Py Σ A) : fuel_monotone (fun _ => m).
Proof. by intros fuel fuel' σ σ' r Hm _ _. Qed.

Lemma fuel_monotone_bind {Σ A B} (m : nat -> Py Σ A) (k : A -> nat -> Py Σ B) :
  fuel_monotone m -> (forall a, fuel_monotone (k a)) ->
  fuel_monotone (fun fuel => bind (m fuel) (fun a => k a fuel)).
Proof.
  intros Hm Hk fuel fuel' σ σ' r Hrun Hr Hle. unfold bind in *.
  destruct (m fuel σ) as [σ1 [a|e|]] eqn:Hm1.
  - rewrite (Hm _ _ _ _ _ Hm1) by done. by eapply Hk.
  - rewrite (Hm _ _ _ _ _ Hm1) by done. done.
  - by injection Hrun as _ <-.
Qed.

Lemma fuel_monotone_masked next rng mask :
  fuel_monotone (fun fuel => MT19937.bounded_masked next fuel rng mask).
Proof.
  intros fuel. induction fuel as [|fuel IH]; intros fuel' s s' r Hrun Hr Hle.
  - cbn in Hrun. by injection Hrun as _ <-.
  - destruct fuel' as [|fuel']; [lia|]. cbn [MT19937.bounded_masked] in *.
    destruct (next s) as [v s1]. destruct (rng <? Z.land v mask); [|done].
    apply (IH fuel'); [done|done|lia].
Qed.

Lemma fuel_monotone_uint64 off rng :
  fuel_monotone (fun fuel => MT19937.bounded_uint64 fuel off rng).
Proof.
  unfold MT19937.bounded_uint64.
  destruct (rng <=? 0xFFFFFFFF).
  - destruct (rng =? 0xFFFFFFFF); [apply fuel_monotone_const|].
    apply (fuel_monotone_bind _ (fun val _ => ret (off + val)));
      [apply fuel_monotone_masked|intros; apply fuel_monotone_const].
  - destruct (rng =? 0xFFFFFFFFFFFFFFFF); [apply fuel_monotone_const|].
    apply (fuel_monotone_bind _ (fun val _ => ret (off + val)));
      [apply fuel_monotone_masked|intros; apply fuel_monotone_const].
Qed.

Lemma fuel_monotone_fill off rng cnt :
  fuel_monotone (fun fuel => MT19937.random_bounded_uint64_fill fuel off rng cnt).
Proof.
  induction cnt as [|cnt IH]; cbn [MT19937.random_bounded_uint64_fill].
  - apply fuel_monotone_const.
  - apply (fuel_monotone_bind
             (fun fuel => if rng =? 0 then ret off
                          else MT19937.bounded_uint64 fuel off rng)
             (fun x fuel =>
                let* xs := MT19937.random_bounded_uint64_fill fuel off rng cnt in
                ret (x :: xs))).
    + destruct (rng =? 0); [apply fuel_monotone_const|apply fuel_monotone_uint64].
    + intros x. apply (fuel_monotone_bind _ (fun xs _ => ret (x :: xs)));
        [apply IH|intros; apply fuel_monotone_const].
Qed.

Lemma fuel_monotone_choice a size :
  fuel_monotone (fun fuel => RandomState.choice fuel a size).
Proof.
  unfold RandomState.choice.
  destruct ((Z.of_nat (length a) =? 0) && negb (size =? 0));
    [apply fuel_monotone_const|].
  apply (fuel_monotone_bind _ (fun idx _ => lift (RandomState.take_items a idx)));
    [|intros; apply fuel_monotone_const].
  unfold RandomState.randint.
  destruct (size =? 0); [apply fuel_monotone_const|].
  destruct (size <? 0); [apply fuel_monotone_const|].
  destruct (_ <? _); [apply fuel_monotone_const|apply fuel_monotone_fill].
Qed.

Lemma fuel_monotone_frames_to_plot sample_frames all_waveforms num_waveforms seed :
  fuel_monotone (fun fuel =>
    frames_to_plot fuel sample_frames all_waveforms num_waveforms seed).
Proof.
  unfold frames_to_plot.
  destruct all_waveforms; [apply fuel_monotone_const|].
  destruct (_ <? _); [apply fuel_monotone_const|].
  apply (fuel_monotone_bind (fun _ => np_random_seed seed)
           (fun _ fuel => np_random_choice fuel sample_frames num_waveforms));
    [apply fuel_monotone_const|intros _].
  intros fuel fuel' w w' r Hrun Hr Hle.
  unfold np_random_choice, on_np_random in *.
  destruct (RandomState.choice fuel _ _ _) as [s o] eqn:Hchoice.
  injection Hrun as <- <-.
  by rewrite (fuel_monotone_choice _ _ _ _ _ _ _ Hchoice Hr Hle).
Qed.

(** With enough fuel the result of [plot_unit_waveform] does not depend
    on the fuel. *)
Lemma fuel_monotone_plot_unit_waveform {Recording Spikes : Type}
    `{Preprocessing Recording Spikes} (recording : Recording) (spikes : Spikes)
    unit_id channel_id all_waveforms num_waveforms seed :
  fuel_monotone (fun fuel =>
    plot_unit_waveform fuel recording spikes unit_id channel_id all_waveforms
      num_waveforms seed).
Proof.
  apply (fuel_monotone_bind (fun _ => lift (get_unit_frames spikes unit_id))
           (fun sample_frames fuel =>
              let* frames := frames_to_plot fuel sample_frames all_waveforms
                               num_waveforms seed in
              show_frames recording unit_id channel_id frames));
    [apply fuel_monotone_const|intros sample_frames].
  apply (fuel_monotone_bind _
           (fun frames _ => show_frames recording unit_id channel_id frames));
    [apply fuel_monotone_frames_to_plot|intros; apply fuel_monotone_const].
Qed.

Lemma take_items_ok (a idx sel : list Z) :
  RandomState.take_items a idx = Ok sel ->
  length sel = length idx /\ Forall (fun x => In x a) sel.
Proof.
  revert sel. induction idx as [|i idx IH]; intros sel; cbn [RandomState.take_items].
  - by intros [= <-].
  - destruct (0 <=? i); [|done].
    destruct (a !! Z.to_nat i) as [x|] eqn:Hx; [|done].
    destruct (RandomState.take_items a idx) as [xs|e|]; [|done|done].
    intros [= <-]. destruct (IH xs eq_refl) as [Hlen Hall]. split; [cbn; lia|].
    constructor; [|done]. apply list_elem_of_In. by eapply list_elem_of_lookup_2.
Qed.

Lemma fill_length fuel off rng cnt s s' l :
  MT19937.random_bounded_uint64_fill fuel off rng cnt s = (s', Ok l) ->
  length l = cnt.
Proof.
  revert s s' l. induction cnt as [|cnt IH]; intros s s' l;
    cbn [MT19937.random_bounded_uint64_fill].
  - by intros [= _ <-].
  - intros Hrun. apply bind_ok_inv in Hrun as (s1 & x & _ & Hrun).
    apply bind_ok_inv in Hrun as (s2 & xs & Hxs & Hret).
    injection Hret as _ <-. cbn. f_equal. by eapply IH.
Qed.

(** What the sampling branch selects: [num_waveforms] frames, each of
    them one of the available frames. *)
Lemma frames_to_plot_sample_members fuel sample_frames num_waveforms seed w sel :
  num_waveforms <= Z.of_nat (length sample_frames) ->
  snd (frames_to_plot fuel sample_frames false num_waveforms seed w) = Ok sel ->
  length sel = Z.to_nat num_waveforms /\ Forall (fun x => In x sample_frames) sel.
Proof.
  intros Hn. rewrite frames_to_plot_sample by done.
  destruct (_ && _); [|done].
  destruct (RandomState.choice _ _ _ _) as [s r] eqn:Hchoice. cbn [snd]. intros ->.
  unfold RandomState.choice in Hchoice.
  destruct (_ && _); [done|].
  apply bind_ok_inv in Hchoice as (s1 & idx & Hidx & Htake).
  injection Htake as _ Htake. apply take_items_ok in Htake as [Hlen Hall].
  split; [|done]. rewrite Hlen. unfold RandomState.randint in Hidx.
  destruct (Z.eqb_spec num_waveforms 0) as [->|_]; [by injection Hidx as _ <-|].
  destruct (_ <? _); [done|]. destruct (_ <? _); [done|].
  by eapply fill_length.
Qed.

Lemma fuel_monotone_snd {Σ A} (m : nat -> Py Σ A) fuel fuel' σ r :
  fuel_monotone m -> snd (m fuel σ) = r -> r <> OutOfFuel -> (fuel <= fuel')%nat ->
  snd (m fuel' σ) = r.
Proof.
  intros Hm Hr Hne Hle. destruct (m fuel σ) as [σ' r'] eqn:Hrun. cbn [snd] in Hr. subst r'.
  by rewrite (Hm _ _ _ _ _ Hrun Hne Hle).
Qed.

Lemma fill_seed_0 :
  snd (MT19937.random_bounded_uint64_fill 3 0 9 10 (MT19937.mt19937_seed 0))
  = Ok [5; 0; 3; 3; 7; 9; 3; 5; 2; 4].
Proof. vm_compute. reflexivity. Qed.

Lemma choice_seed_0 :
  snd (RandomState.choice 3 Demo.unit7_frames 10 (MT19937.mt19937_seed 0))
  = Ok [105; 100; 103; 103; 107; 109; 103; 105; 102; 104].
Proof. vm_compute. reflexivity. Qed.

Lemma randint_10 fuel s :
  RandomState.randint fuel 0 10 10 s
  = MT19937.random_bounded_uint64_fill fuel 0 9 10 s.
Proof. reflexivity. Qed.

(** C1.  On the ten frames 100, ..., 109, with the default arguments
    ([all_waveforms] false, [num_waveforms] 10, [seed] 0) and any fuel
    from 3 on, the positions that [choice] draws are 5, 0, 3, 3, 7, 9, 3,
    5, 2, 4: position 3 is taken three times and position 5 twice, so the
    selected frames are not pairwise distinct positions of the frame
    list. *)
Theorem frames_to_plot_repeats_positions (k : nat) (w : World) :
  snd (RandomState.randint (3 + k) 0 10 10 (MT19937.mt19937_seed 0))
  = Ok [5; 0; 3; 3; 7; 9; 3; 5; 2; 4] /\
  snd (frames_to_plot (3 + k) Demo.unit7_frames false 10 0 w)
  = Ok [105; 100; 103; 103; 107; 109; 103; 105; 102; 104] /\
  ~ NoDup [5; 0; 3; 3; 7; 9; 3; 5; 2; 4].
Proof.
  split; [|split].
  - rewrite randint_10.
    exact (fuel_monotone_snd
             (fun fuel => MT19937.random_bounded_uint64_fill fuel 0 9 10) 3 (3 + k)
             (MT19937.mt19937_seed 0) _ (fuel_monotone_fill 0 9 10) fill_seed_0
             ltac:(discriminate) ltac:(lia)).
  - rewrite (frames_to_plot_sample (3 + k) Demo.unit7_frames 10 0 w ltac:(cbn [length Demo.unit7_frames]; lia)).
    change ((0 <=? 0) && (0 <=? 0xFFFFFFFF)) with true. cbn iota.
    pose proof (fuel_monotone_snd
                  (fun fuel => RandomState.choice fuel Demo.unit7_frames 10)
                  3 (3 + k) (MT19937.mt19937_seed 0) _
                  (fuel_monotone_choice Demo.unit7_frames 10) choice_seed_0
                  ltac:(discriminate) ltac:(lia)) as Hsel.
    cbn beta in Hsel.
    destruct (RandomState.choice (3 + k) Demo.unit7_frames 10 (MT19937.mt19937_seed 0)) as [s r].
    exact Hsel.
  - intros Hnd. apply NoDup_cons in Hnd as [_ Hnd]. apply NoDup_cons in Hnd as [_ Hnd].
    apply NoDup_cons in Hnd as [Hnotin _]. apply Hnotin. by left.
Qed.

(* ================================================================== *)
(** * The theorems at work on the demo recording *)

Section Runs.

Import Demo.

Lemma demo_unit7_frames : get_unit_frames spikes 7 = Ok unit7_frames.
Proof. vm_compute. reflexivity. Defined.

Lemma demo_unit8_frames : get_unit_frames spikes 8 = Ok [500; 600].
Proof. vm_compute. reflexivity. Defined.

Lemma demo_unit8_lines :
  Forall2 (is_waveform tt 1) [500; 600] [[5001; 5011; 5021]; [6001; 6011; 6021]].
Proof.
  repeat constructor.
  - exists (snippet 500). split; reflexivity.
  - exists (snippet 600). split; reflexivity.
Defined.

Lemma subplot_grid_near_square_witness :
  1 <= 10 <= 2 ^ 52 /\
  exists rows cols,
    subplot_grid 10 = Ok (rows, cols) /\
    rows * cols >= 10 /\ rows * cols - 10 < cols.
Proof.
  assert (Hn : 1 <= 10 <= 2 ^ 52) by lia. split; [exact Hn|].
  destruct (subplot_grid_near_square (Recording := unit) (Spikes := spike_table) 10 Hn)
    as (rows & cols & Hgrid & _ & _ & Hge & Hlt & _).
  exists rows, cols. split; [exact Hgrid|]. split; [exact Hge|exact Hlt].
Defined.

Lemma plot_peak_waveform_calls_witness :
  plot_peak_waveform_with spy tt peaks 2 4 []
  = ([(20, PyList [0; 1]); (30, PyList [2]); (40, PyList [3; 0; 1])], Ok tt).
Proof.
  apply (proj1 (proj2 (proj2 (plot_peak_waveform_calls (Recording := unit)
                                (Spikes := spike_table))) tt peaks
                 {| peak_frame := 20; peak_channel := PyList [0; 1] |}
                 {| peak_frame := 30; peak_channel := PyList [2] |}
                 {| peak_frame := 40; peak_channel := PyList [3; 0; 1] |}
                 eq_refl eq_refl eq_refl)).
Defined.

Lemma plot_trace_image_shared_bounds_witness :
  get_trace_reshaped tt 5 = Ok (reshaped 5) /\
  exists d, pyplot (fst (plot_trace_image tt 5 w0)) = pyplot w0 ++ d /\
    forall img cmap vmin vmax, In (Imshow img cmap vmin vmax) d ->
      is_min (reshaped 5) vmin /\ is_max (reshaped 5) vmax.
Proof.
  assert (Hf : get_trace_reshaped tt 5 = Ok (reshaped 5)) by reflexivity.
  split; [exact Hf|].
  destruct (plot_trace_image_shared_bounds tt 5 (reshaped 5) w0 Hf)
    as (d & Hd & _ & Hpanels & _).
  exists d. split; [exact Hd|exact Hpanels].
Defined.

Lemma plot_unit_waveform_few_frames_witness :
  get_unit_frames spikes 8 = Ok [500; 600] /\
  Z.of_nat (length [500; 600]) < 10 /\
  plot_unit_waveform 64 tt spikes 8 1 false 10 0 w0
  = ({| np_random := np_random w0;
        pyplot := pyplot w0 ++ Figure None ::
                  map Plot [[5001; 5011; 5021]; [6001; 6011; 6021]] ++
                  [Xlabel "time (frames)"; Ylabel "action potential (mV)";
                   Title 8 1; Show] |}, Ok tt).
Proof.
  assert (Hlt : Z.of_nat (length [500; 600]) < 10) by (cbn; lia).
  split; [exact demo_unit8_frames|]. split; [exact Hlt|].
  exact (proj2 (plot_unit_waveform_few_frames 64 tt spikes 8 1 false 10 0
                  [500; 600] _ w0 demo_unit8_frames Hlt demo_unit8_lines)).
Defined.

Lemma plot_unit_waveform_all_waveforms_witness :
  get_unit_frames spikes 8 = Ok [500; 600] /\
  plot_unit_waveform 64 tt spikes 8 1 true 1 0 w0
  = ({| np_random := np_random w0;
        pyplot := pyplot w0 ++ Figure None ::
                  map Plot [[5001; 5011; 5021]; [6001; 6011; 6021]] ++
                  [Xlabel "time (frames)"; Ylabel "action potential (mV)";
                   Title 8 1; Show] |}, Ok tt).
Proof.
  split; [exact demo_unit8_frames|].
  exact (proj1 (plot_unit_waveform_all_waveforms 64 tt spikes 8 1 1 0
                  [500; 600] _ w0 demo_unit8_frames demo_unit8_lines)).
Defined.

Lemma plot_unit_waveform_reseeds_witness :
  get_unit_frames spikes 7 = Ok unit7_frames /\
  np_random (fst (plot_unit_waveform 64 tt spikes 7 1 false 10 0 w0))
  = fst (RandomState.choice 64 unit7_frames 10 (MT19937.mt19937_seed 0)).
Proof.
  split; [exact demo_unit7_frames|].
  apply (proj1 (plot_unit_waveform_reseeds 64 tt spikes 7 1 false 10 0
                  unit7_frames w0 demo_unit7_frames)).
  - reflexivity.
  - cbn [length unit7_frames]. lia.
  - lia.
Defined.

Lemma demo_peaks_complete_run : snd (plot_peak_waveform tt peaks 2 4 w0) = Ok tt.
Proof. vm_compute. reflexivity. Defined.

Lemma plot_peak_waveform_needs_channel_lists_witness :
  snd (plot_peak_waveform tt peaks 2 4 w0) = Ok tt /\
  exists row l, peaks !! 3 = Some row /\ peak_channel row = PyList l.
Proof.
  split; [exact demo_peaks_complete_run|].
  apply (proj2 (plot_peak_waveform_needs_channel_lists (Recording := unit)
                  (Spikes := spike_table)) tt peaks 2 4 w0 demo_peaks_complete_run 3).
  lia.
Defined.

Lemma demo_trace_waveform_run :
  snd (plot_trace_waveform tt 5 (PyList [0; 3; 2]) w0) = Ok tt.
Proof. vm_compute. reflexivity. Defined.

Lemma plot_trace_waveform_empty_channels_witness :
  snd (plot_trace_waveform tt 5 (PyList [0; 3; 2]) w0) = Ok tt /\
  exists l, PyList [0; 3; 2] = PyList l /\ l <> [].
Proof.
  split; [exact demo_trace_waveform_run|].
  exact (proj2 (proj2 (proj2 (plot_trace_waveform_empty_channels (Recording := unit)
                                 (Spikes := spike_table)))) tt 5 (PyList [0; 3; 2]) w0
           demo_trace_waveform_run).
Defined.

(** The scalar cell of row 5 stops the run at that row. *)
Lemma demo_peaks_scalar_row :
  snd (plot_peak_waveform tt peaks 4 5 w0) = Raise TypeError.
Proof. vm_compute. reflexivity. Qed.

(** The call that samples leaves another generator state than it found,
    and plots frame 103 three times. *)
Lemma demo_unit7_sampled :
  np_random (fst (plot_unit_waveform 64 tt spikes 7 1 false 10 0 w0)) <> np_random w0 /\
  snd (frames_to_plot 64 unit7_frames false 10 0 w0)
  = Ok [105; 100; 103; 103; 107; 109; 103; 105; 102; 104].
Proof.
  split.
  - intros Heq. apply (f_equal MT19937.pos) in Heq. vm_compute in Heq. discriminate.
  - vm_compute. reflexivity.
Qed.

End Runs.

(* ================================================================== *)
(** * Complete runs, failures part-way and the state *)

Section TraceWaveformRuns.

Context {Recording Spikes : Type} `{Preprocessing Recording Spikes}.

Lemma channel_body_logs (trace_snippet : ndarray2) (axs : Z) (i : nat) channel y :
  Z.of_nat i < axs -> column trace_snippet channel = Ok y ->
  logs (let* ax := lift (axs_item axs (Z.of_nat i)) in
        let* y := lift (column trace_snippet channel) in
        plt (AxPlot ax y) ;;
        plt (AxSetTitle ax channel) ;;
        plt (AxSetXlabel ax "Time") ;;
        plt (AxSetYlabel ax "Amplitude") ;;
        plt (AxLabelOuter ax))
       (channel_calls (Z.of_nat i) channel y) (Ok tt).
Proof.
  intros Hi Hy.
  apply (logs_bind _ _ [] (Z.of_nat i)).
  { rewrite <- (axs_item_ok axs (Z.of_nat i)) by lia. apply logs_lift. }
  apply (logs_bind _ _ [] y); [rewrite <- Hy; apply logs_lift|].
  apply (logs_bind _ _ [_] tt); [apply logs_plt|].
  apply (logs_bind _ _ [_] tt); [apply logs_plt|].
  apply (logs_bind _ _ [_] tt); [apply logs_plt|].
  apply (logs_bind _ _ [_] tt); [apply logs_plt|]. apply logs_plt.
Qed.

Lemma channels_loop_cons trace_snippet axs first channel channels :
  channels_loop trace_snippet axs first (channel :: channels)
  = ((let* ax := lift (axs_item axs (Z.of_nat first)) in
      let* y := lift (column trace_snippet channel) in
      plt (AxPlot ax y) ;;
      plt (AxSetTitle ax channel) ;;
      plt (AxSetXlabel ax "Time") ;;
      plt (AxSetYlabel ax "Amplitude") ;;
      plt (AxLabelOuter ax)) ;;
     channels_loop trace_snippet axs (S first) channels).
Proof.
  unfold channels_loop. cbn [imap for_]. rewrite Nat.add_0_r.
  by rewrite (imap_ext _ (fun i x => ((S first + i)%nat, x)) channels)
    by (intros i x _; cbn; f_equal; lia).
Qed.

Lemma channels_calls_cons first channel channels y ys :
  channels_calls first (channel :: channels) (y :: ys)
  = channel_calls (Z.of_nat first) channel y ++ channels_calls (S first) channels ys.
Proof.
  unfold channels_calls. cbn [zip zip_with imap concat]. rewrite Nat.add_0_r.
  by rewrite (imap_ext _ (fun i '(c, z) => channel_calls (Z.of_nat (S first + i)) c z)
                (zip channels ys))
    by (intros i [c z] _; cbn; do 2 f_equal; lia).
Qed.

Lemma channels_loop_logs trace_snippet axs first channels ys :
  Z.of_nat (first + length channels) <= axs ->
  Forall2 (fun channel y => column trace_snippet channel = Ok y) channels ys ->
  logs (channels_loop trace_snippet axs first channels)
       (channels_calls first channels ys) (Ok tt).
Proof.
  intros Hn Hys. revert first Hn.
  induction Hys as [|channel y channels ys Hy _ IH]; intros first Hn.
  - apply logs_ret.
  - rewrite channels_loop_cons, channels_calls_cons. cbn [length] in Hn.
    apply (logs_bind _ _ _ tt).
    + apply channel_body_logs; [lia|done].
    + apply IH. lia.
Qed.

Lemma channels_loop_stops trace_snippet axs first pre bad post ys e :
  Z.of_nat (first + length pre) < axs ->
  Forall2 (fun channel y => column trace_snippet channel = Ok y) pre ys ->
  column trace_snippet bad = Raise e ->
  logs (channels_loop trace_snippet axs first (pre ++ bad :: post))
       (channels_calls first pre ys) (Raise e).
Proof.
  intros Hn Hys Hbad. revert first Hn.
  induction Hys as [|channel y channels ys Hy _ IH]; intros first Hn.
  - cbn [app]. rewrite channels_loop_cons. apply logs_bind_raise.
    apply (logs_bind _ _ [] (Z.of_nat first)).
    { rewrite <- (axs_item_ok axs (Z.of_nat first)) by (cbn in Hn; lia). apply logs_lift. }
    apply logs_bind_raise. rewrite <- Hbad. apply logs_lift.
  - cbn [app]. rewrite channels_loop_cons, channels_calls_cons. cbn [length] in Hn.
    apply (logs_bind _ _ _ tt).
    + apply channel_body_logs; [lia|done].
    + apply IH. lia.
Qed.

Lemma hidden_loop_logs (axs : Z) (l : list Z) :
  Forall (fun i => 0 <= i < axs) l ->
  logs (for_ l (fun i => let* ax := lift (axs_item axs i) in plt (AxAxis ax "off")))
       (map (fun i => AxAxis i "off") l) (Ok tt).
Proof.
  induction 1 as [|i l Hi _ IH]; cbn [for_ map].
  - apply logs_ret.
  - apply (logs_bind _ _ [_] tt); [|done].
    apply (logs_bind _ _ [] i); [|apply logs_plt].
    rewrite <- (axs_item_ok axs i) by lia. apply logs_lift.
Qed.

Lemma py_range_bounds (start stop : Z) :
  Forall (fun i => start <= i < stop) (py_range start stop).
Proof. apply Forall_forall. intros i Hi. by apply list_elem_of_In, elem_of_py_range in Hi. Qed.

(** The subplots of a grid with room for the channels. *)
Lemma fill_grid_logs (trace_snippet : ndarray2) (l : list Z) ys (rows cols : Z) :
  Z.of_nat (length l) <= rows * cols ->
  Forall2 (fun channel y => column trace_snippet channel = Ok y) l ys ->
  logs (fill_grid trace_snippet (PyList l) (Z.of_nat (length l)) rows cols (rows * cols))
       (channels_calls 0 l ys ++
        map (fun i => AxAxis i "off") (py_range (Z.of_nat (length l)) (rows * cols)) ++
        [TightLayout; Show]) (Ok tt).
Proof.
  intros Hn Hys. unfold fill_grid.
  apply (logs_bind _ _ [] l); [apply (logs_lift (Ok l))|].
  apply (logs_bind _ _ _ tt); [by apply (channels_loop_logs trace_snippet _ 0%nat)|].
  apply (logs_bind _ _ _ tt).
  { apply hidden_loop_logs. eapply Forall_impl; [apply py_range_bounds|].
    cbn. intros i Hi. lia. }
  apply (logs_bind _ _ [_] tt); [apply logs_plt|]. apply logs_plt.
Qed.

Lemma fill_grid_stops (trace_snippet : ndarray2) pre bad post ys (rows cols : Z) e :
  Z.of_nat (length (pre ++ bad :: post)) <= rows * cols ->
  Forall2 (fun channel y => column trace_snippet channel = Ok y) pre ys ->
  column trace_snippet bad = Raise e ->
  logs (fill_grid trace_snippet (PyList (pre ++ bad :: post))
          (Z.of_nat (length (pre ++ bad :: post))) rows cols (rows * cols))
       (channels_calls 0 pre ys) (Raise e).
Proof.
  intros Hn Hys Hbad. unfold fill_grid.
  apply (logs_bind _ _ [] (pre ++ bad :: post)); [apply (logs_lift (Ok _))|].
  apply logs_bind_raise.
  apply (channels_loop_stops trace_snippet _ 0%nat); [|done|done].
  rewrite length_app in Hn. cbn [length] in Hn. lia.
Qed.

(** The grid of a call with [n] channels, [1 <= n <= 2^52]. *)
Lemma grid_facts (n : Z) :
  1 <= n <= 2 ^ 52 ->
  subplot_grid n = Ok (grid_rows n, grid_cols n) /\
  1 <= grid_rows n /\ 1 <= grid_cols n /\
  (grid_rows n - 1) * grid_cols n < n <= grid_rows n * grid_cols n /\
  grid_cols n - 1 <= grid_rows n <= grid_cols n.
Proof.
  intros Hn. unfold grid_rows, grid_cols.
  pose proof (ceil_sqrt_spec n ltac:(lia)) as [Hc Hc1].
  pose proof (Float64Facts.cdiv_spec n (ceil_sqrt n) ltac:(lia)) as Hr.
  split; [by apply subplot_grid_exact|].
  set (c := ceil_sqrt n) in *. set (r := cdiv n c) in *. clearbody r c.
  assert (1 <= r) by nia.
  split; [done|]. split; [lia|]. split; [nia|]. nia.
Qed.

Lemma plot_trace_waveform_logs (recording : Recording) sample_time
    (trace_snippet : ndarray2) (channels : list Z) (ys : list (list Z)) :
  get_trace_snippet recording sample_time = Ok trace_snippet ->
  1 <= Z.of_nat (length channels) <= 2 ^ 52 ->
  Forall2 (fun channel y => column trace_snippet channel = Ok y) channels ys ->
  logs (plot_trace_waveform recording sample_time (PyList channels))
       (trace_figure (grid_rows (Z.of_nat (length channels)))
          (grid_cols (Z.of_nat (length channels))) channels ys) (Ok tt).
Proof.
  intros Hfetch Hn Hys w.
  destruct (grid_facts _ Hn) as (Hgrid & Hr & Hc & Hrc & _).
  rewrite (plot_trace_waveform_run _ _ trace_snippet channels _ _ w Hfetch Hgrid)
    by lia.
  rewrite (fill_grid_logs trace_snippet channels ys) by (done || lia).
  cbn [np_random pyplot]. unfold trace_figure. by rewrite <- app_assoc.
Qed.

(** X1.  A call of [plot_trace_waveform] on a list of [n] valid channels,
    [1 <= n <= 2^52], succeeds, leaves the generator alone and makes
    exactly these calls: the grid of [rows x cols] axes of size
    [(4 * cols, 3 * rows)]; for the channel at position [i], on axes [i],
    its waveform, its title and the two axis labels; the axes from [n] on
    switched off; the layout; and the figure shown. *)
Theorem plot_trace_waveform_figure (recording : Recording) sample_time
    (trace_snippet : ndarray2) (channels : list Z) (ys : list (list Z)) w :
  get_trace_snippet recording sample_time = Ok trace_snippet ->
  1 <= Z.of_nat (length channels) <= 2 ^ 52 ->
  Forall2 (fun channel y => column trace_snippet channel = Ok y) channels ys ->
  let n := Z.of_nat (length channels) in
  plot_trace_waveform recording sample_time (PyList channels) w
  = ({| np_random := np_random w;
        pyplot := pyplot w ++ trace_figure (grid_rows n) (grid_cols n) channels ys |},
     Ok tt).
Proof.
  intros Hfetch Hn Hys n.
  by apply (plot_trace_waveform_logs _ _ trace_snippet).
Qed.

(** X2.  For [1 <= n <= 2^52] channels the grid has as many rows as
    columns or one row less, never more rows than columns; it is square
    exactly when [n] exceeds [cols * (cols - 1)]. *)
Theorem subplot_grid_square_ish (n : Z) :
  1 <= n <= 2 ^ 52 ->
  exists rows cols,
    subplot_grid n = Ok (rows, cols) /\
    1 <= rows /\ cols - 1 <= rows <= cols /\
    (rows = cols <-> cols * (cols - 1) < n).
Proof.
  intros Hn. destruct (grid_facts n Hn) as (Hgrid & Hr & Hc & Hrc & Hsq).
  exists (grid_rows n), (grid_cols n).
  split; [done|]. split; [done|]. split; [done|].
  split; [intros Heq; rewrite Heq in Hrc; lia|].
  intros Hlt. destruct (Z.eq_dec (grid_rows n) (grid_cols n)) as [|Hne]; [done|].
  assert (grid_rows n = grid_cols n - 1) as Heq by lia. rewrite Heq in Hrc. lia.
Qed.

Lemma in_channels_calls first channels ys c :
  In c (channels_calls first channels ys) ->
  exists i channel y, (first <= i < first + length channels)%nat /\
    In c (channel_calls (Z.of_nat i) channel y).
Proof.
  revert first ys. induction channels as [|channel channels IH]; intros first ys Hin.
  - by destruct ys.
  - destruct ys as [|y ys]; [done|]. rewrite channels_calls_cons in Hin.
    apply in_app_or in Hin as [Hin|Hin].
    + exists first, channel, y. split; [cbn; lia|done].
    + apply IH in Hin as (i & ch & z & Hi & Hin). exists i, ch, z. split; [cbn; lia|done].
Qed.

Lemma in_channels_calls_plot first channels ys ax y :
  length channels = length ys ->
  In (AxPlot ax y) (channels_calls first channels ys) <->
  exists i, (i < length channels)%nat /\ ax = Z.of_nat (first + i) /\ ys !! i = Some y.
Proof.
  revert first ys. induction channels as [|channel channels IH]; intros first ys Hlen.
  - destruct ys; [|done]. split; [done|]. intros (i & Hi & _). cbn in Hi. lia.
  - destruct ys as [|z ys]; [done|]. rewrite channels_calls_cons. cbn [length] in *.
    rewrite in_app_iff, IH by lia. split.
    + intros [Hin|(i & Hi & -> & Hy)].
      * destruct Hin as [[= <- <-]|Hin]; [|by repeat destruct Hin as [?|Hin]].
        exists 0%nat. split; [lia|]. split; [f_equal; lia|done].
      * exists (S i). split; [lia|]. split; [f_equal; lia|done].
    + intros ([|i] & Hi & -> & Hy).
      * left. left. injection Hy as <-. do 2 f_equal. lia.
      * right. exists i. split; [lia|]. split; [f_equal; lia|done].
Qed.

(** X3.  In a complete run of [plot_trace_waveform] the axes that get a
    waveform are the positions [0 .. n-1], axes [i] showing the waveform of
    the [i]-th channel; the axes switched off are exactly [n .. rows*cols-1];
    they all lie in the last row of the grid and are fewer than [cols]. *)
Theorem plot_trace_waveform_axes (recording : Recording) sample_time
    (trace_snippet : ndarray2) (channels : list Z) (ys : list (list Z)) w :
  get_trace_snippet recording sample_time = Ok trace_snippet ->
  1 <= Z.of_nat (length channels) <= 2 ^ 52 ->
  Forall2 (fun channel y => column trace_snippet channel = Ok y) channels ys ->
  let n := Z.of_nat (length channels) in
  exists d,
    pyplot (fst (plot_trace_waveform recording sample_time (PyList channels) w))
    = pyplot w ++ d /\
    (forall ax y, In (AxPlot ax y) d <->
       exists i, (i < length channels)%nat /\ ax = Z.of_nat i /\ ys !! i = Some y) /\
    (forall ax arg, In (AxAxis ax arg) d <->
       arg = "off" /\ n <= ax < grid_rows n * grid_cols n) /\
    (forall ax arg, In (AxAxis ax arg) d -> ax / grid_cols n = grid_rows n - 1) /\
    grid_rows n * grid_cols n - n < grid_cols n.
Proof.
  intros Hfetch Hn Hys n.
  destruct (grid_facts n Hn) as (Hgrid & Hr & Hc & Hrc & _).
  exists (trace_figure (grid_rows n) (grid_cols n) channels ys).
  rewrite (plot_trace_waveform_logs _ _ trace_snippet channels ys) by done.
  split; [done|].
  assert (Hlen : length channels = length ys) by (by eapply Forall2_length).
  assert (Haxis : forall ax arg,
            In (AxAxis ax arg) (trace_figure (grid_rows n) (grid_cols n) channels ys) <->
            arg = "off" /\ n <= ax < grid_rows n * grid_cols n).
  { intros ax arg. unfold trace_figure. cbn [In]. rewrite !in_app_iff, in_map_iff. split.
    - intros [Hin|[Hin|[(i & [= <- <-] & Hi)|Hin]]]; try done.
      + apply in_channels_calls in Hin as (i & ch & y & _ & Hin).
        by repeat destruct Hin as [?|Hin].
      + by apply elem_of_py_range in Hi.
      + by repeat destruct Hin as [?|Hin].
    - intros [-> Hax]. right. right. left. exists ax.
      split; [done|]. by apply elem_of_py_range. }
  split; [|split; [done|split]].
  - intros ax y. unfold trace_figure. cbn [In].
    rewrite !in_app_iff, in_map_iff, (in_channels_calls_plot 0) by done. split.
    + intros [Hin|[Hin|[(i & Hi & _)|Hin]]]; try done.
      by repeat destruct Hin as [?|Hin].
    + intros Hi. right. by left.
  - intros ax arg Hin. apply Haxis in Hin as [_ Hax].
    symmetry. apply (Z.div_unique ax (grid_cols n) (grid_rows n - 1)
                       (ax - (grid_rows n - 1) * grid_cols n)); lia.
  - lia.
Qed.

Lemma column_bad (a : ndarray2) (channel : Z) :
  ~ (- Z.of_nat (ncols a) <= channel < Z.of_nat (ncols a)) ->
  column a channel = Raise IndexError.
Proof.
  intros Hc. unfold column.
  destruct (Z.leb_spec 0 channel), (Z.ltb_spec channel (Z.of_nat (ncols a)));
    cbn [andb]; try lia;
  destruct (Z.leb_spec (- Z.of_nat (ncols a)) channel), (Z.ltb_spec channel 0);
    cbn [andb]; done || lia.
Qed.

(** X4.  When a channel of the list is not a column of the snippet, the
    call raises [IndexError] at that channel: the grid is open and the
    channels before it are drawn, nothing after it is, and the figure is
    never shown. *)
Theorem plot_trace_waveform_bad_channel (recording : Recording) sample_time
    (trace_snippet : ndarray2) (pre : list Z) (bad : Z) (post : list Z)
    (ys : list (list Z)) w :
  get_trace_snippet recording sample_time = Ok trace_snippet ->
  Z.of_nat (length (pre ++ bad :: post)) <= 2 ^ 52 ->
  Forall2 (fun channel y => column trace_snippet channel = Ok y) pre ys ->
  ~ (- Z.of_nat (ncols trace_snippet) <= bad < Z.of_nat (ncols trace_snippet)) ->
  let n := Z.of_nat (length (pre ++ bad :: post)) in
  plot_trace_waveform recording sample_time (PyList (pre ++ bad :: post)) w
  = ({| np_random := np_random w;
        pyplot := pyplot w ++
          Subplots (grid_rows n) (grid_cols n) (4 * grid_cols n, 3 * grid_rows n) ::
          channels_calls 0 pre ys |},
     Raise IndexError) /\
  ~ In Show (Subplots (grid_rows n) (grid_cols n) (4 * grid_cols n, 3 * grid_rows n) ::
             channels_calls 0 pre ys).
Proof.
  intros Hfetch Hn Hys Hbad n.
  assert (Hn1 : 1 <= n <= 2 ^ 52).
  { unfold n in *. rewrite length_app in *. cbn [length] in *. lia. }
  destruct (grid_facts n Hn1) as (Hgrid & Hr & Hc & Hrc & _).
  split.
  - rewrite (plot_trace_waveform_run _ _ trace_snippet _ _ _ w Hfetch Hgrid) by lia.
    rewrite (fill_grid_stops trace_snippet pre bad post ys _ _ IndexError);
      [|fold n; lia|done|by apply column_bad].
    cbn [np_random pyplot]. by rewrite <- app_assoc.
  - intros [Hin|Hin]; [done|].
    apply in_channels_calls in Hin as (i & ch & y & _ & Hin).
    by repeat destruct Hin as [?|Hin].
Qed.

End TraceWaveformRuns.

Section TraceImageRuns.

Context {Recording Spikes : Type} `{Preprocessing Recording Spikes}.

Lemma elements3_nil (a : ndarray3) :
  elements3 a = [] <-> (shape0 a = 0 \/ shape1 a = 0 \/ shape2 a = 0)%nat.
Proof.
  split.
  - intros Hnil.
    destruct (shape0 a) as [|n0] eqn:H0; [by left|].
    destruct (shape1 a) as [|n1] eqn:H1; [by right; left|].
    destruct (shape2 a) as [|n2] eqn:H2; [by right; right|].
    assert (Hin : In (item3 a 0 0 0) (elements3 a)).
    { apply elements3_spec. exists 0%nat, 0%nat, 0%nat. repeat split; lia. }
    by rewrite Hnil in Hin.
  - intros Hdim. destruct (elements3 a) as [|x l] eqn:El; [done|].
    assert (Hin : In x (elements3 a)) by (rewrite El; by left).
    apply elements3_spec in Hin as (i & j & k & Hi & Hj & Hk & _). lia.
Qed.

Lemma elements3_transpose_nil (a : ndarray3) :
  elements3 (transpose_102 a) = [] <-> elements3 a = [].
Proof. rewrite !elements3_nil. cbn. tauto. Qed.

(** X5.  On a reshaped trace without entries (no frame, no channel or no
    variant) [plot_trace_image] raises [ValueError] in its colour bounds,
    before any call to the plotting backend: the state is unchanged. *)
Theorem plot_trace_image_empty_trace (recording : Recording) sample_frame
    (trace_reshaped : ndarray3) w :
  get_trace_reshaped recording sample_frame = Ok trace_reshaped ->
  (shape0 trace_reshaped = 0 \/ shape1 trace_reshaped = 0 \/
   shape2 trace_reshaped = 0)%nat ->
  plot_trace_image recording sample_frame w = (w, Raise ValueError).
Proof.
  intros Hfetch Hdim. rewrite (plot_trace_image_run _ _ trace_reshaped) by done.
  apply elements3_nil, elements3_transpose_nil in Hdim.
  unfold ndarray_min. by rewrite Hdim.
Qed.

Lemma ndarray_bounds_ok (a : ndarray3) :
  (0 < shape0 a)%nat -> (0 < shape1 a)%nat -> (0 < shape2 a)%nat ->
  exists vmin vmax,
    ndarray_min (transpose_102 a) = Ok vmin /\ ndarray_max (transpose_102 a) = Ok vmax /\
    is_min a vmin /\ is_max a vmax.
Proof.
  intros H0 H1 H2.
  assert (Hne : elements3 (transpose_102 a) <> []).
  { rewrite elements3_transpose_nil, elements3_nil. lia. }
  destruct (ndarray_min (transpose_102 a)) as [vmin|e|] eqn:Hmin;
    [|unfold ndarray_min in Hmin; by destruct (elements3 (transpose_102 a))..].
  destruct (ndarray_max (transpose_102 a)) as [vmax|e|] eqn:Hmax;
    [|unfold ndarray_max in Hmax; by destruct (elements3 (transpose_102 a))..].
  exists vmin, vmax. split; [done|]. split; [done|].
  split; [by apply ndarray_min_transposed|by apply ndarray_max_transposed].
Qed.

Lemma panel_logs (index : Z) img vmin vmax :
  1 <= index <= 2 ->
  logs (plt_subplot 1 2 index ;; plt (Imshow img "viridis" vmin vmax))
       [Subplot 1 2 index; Imshow img "viridis" vmin vmax] (Ok tt).
Proof.
  intros Hi. apply (logs_bind _ _ [_] tt); [|apply logs_plt].
  unfold plt_subplot.
  destruct (Z.leb_spec 1 index); [|lia].
  destruct (Z.leb_spec index (1 * 2)); [|lia]. apply logs_plt.
Qed.

Lemma panel_refused (index : Z) img vmin vmax :
  2 < index ->
  logs (plt_subplot 1 2 index ;; plt (Imshow img "viridis" vmin vmax))
       [] (Raise ValueError).
Proof.
  intros Hi. apply logs_bind_raise. unfold plt_subplot.
  destruct (Z.leb_spec 1 index); [|lia].
  destruct (Z.leb_spec index (1 * 2)); [lia|]. apply logs_lift.
Qed.

(** X6.  A reshaped trace with three variants or more does not fit the
    layout of two panels: the first two variants are drawn with the shared
    bounds, then [plt.subplot(1, 2, 3)] raises [ValueError]; no label, no
    colour bar, and the figure is not shown. *)
Theorem plot_trace_image_third_variant (recording : Recording) sample_frame
    (trace_reshaped : ndarray3) w :
  get_trace_reshaped recording sample_frame = Ok trace_reshaped ->
  (0 < shape0 trace_reshaped)%nat -> (0 < shape1 trace_reshaped)%nat ->
  (3 <= shape2 trace_reshaped)%nat ->
  exists vmin vmax,
    is_min trace_reshaped vmin /\ is_max trace_reshaped vmax /\
    plot_trace_image recording sample_frame w
    = ({| np_random := np_random w;
          pyplot := pyplot w ++
            [Figure (Some (8, 10));
             Subplot 1 2 1;
             Imshow (slice_last (transpose_102 trace_reshaped) 0) "viridis" vmin vmax;
             Subplot 1 2 2;
             Imshow (slice_last (transpose_102 trace_reshaped) 1) "viridis" vmin vmax] |},
       Raise ValueError).
Proof.
  intros Hfetch H0 H1 H2.
  destruct (ndarray_bounds_ok trace_reshaped) as (vmin & vmax & Hmin & Hmax & Hlo & Hhi);
    [done|done|lia|].
  exists vmin, vmax. split; [done|]. split; [done|].
  rewrite (plot_trace_image_run _ _ trace_reshaped), Hmin, Hmax by done.
  unfold show_image.
  destruct (shape2 trace_reshaped) as [|[|[|v]]]; [lia..|].
  cbn [seq for_].
  apply (logs_bind _ _ [_] tt); [apply logs_plt|].
  apply logs_bind_raise.
  apply (logs_bind _ _ [_; _] tt); [by apply panel_logs|].
  apply (logs_bind _ _ [_; _] tt); [by apply panel_logs|].
  apply logs_bind_raise. by apply panel_refused.
Qed.

(** X8.  With a single variant [plot_trace_image] succeeds and draws one
    panel only, in the left half of the figure, followed by the labels, the
    colour bar and the show. *)
Theorem plot_trace_image_single_variant (recording : Recording) sample_frame
    (trace_reshaped : ndarray3) w :
  get_trace_reshaped recording sample_frame = Ok trace_reshaped ->
  (0 < shape0 trace_reshaped)%nat -> (0 < shape1 trace_reshaped)%nat ->
  shape2 trace_reshaped = 1%nat ->
  exists vmin vmax,
    is_min trace_reshaped vmin /\ is_max trace_reshaped vmax /\
    plot_trace_image recording sample_frame w
    = ({| np_random := np_random w;
          pyplot := pyplot w ++
            [Figure (Some (8, 10));
             Subplot 1 2 1;
             Imshow (slice_last (transpose_102 trace_reshaped) 0) "viridis" vmin vmax;
             Text "time (frames)"; Text "channel"; Axes; Colorbar; Show] |},
       Ok tt).
Proof.
  intros Hfetch H0 H1 H2.
  destruct (ndarray_bounds_ok trace_reshaped) as (vmin & vmax & Hmin & Hmax & Hlo & Hhi);
    [done|done|lia|].
  exists vmin, vmax. split; [done|]. split; [done|].
  rewrite (plot_trace_image_run _ _ trace_reshaped), Hmin, Hmax by done.
  unfold show_image. rewrite H2. cbn [seq for_].
  apply (logs_bind _ _ [_] tt); [apply logs_plt|].
  apply (logs_bind _ _ [_; _] tt).
  { apply (logs_bind _ _ [_; _] tt); [by apply panel_logs|apply logs_ret]. }
  apply (logs_bind _ _ [_] tt); [apply logs_plt|].
  apply (logs_bind _ _ [_] tt); [apply logs_plt|].
  apply (logs_bind _ _ [_] tt); [apply logs_plt|].
  apply (logs_bind _ _ [_] tt); [apply logs_plt|]. apply logs_plt.
Qed.

Lemma emits_for_in {A} P (l : list A) (body : A -> Py World unit) :
  (forall x, In x l -> emits P (body x)) -> emits P (for_ l body).
Proof.
  induction l as [|x l IH]; intros Hbody; cbn [for_].
  - apply emits_ret.
  - apply emits_bind; [apply Hbody; by left|].
    intros _. apply IH. intros y Hy. apply Hbody. by right.
Qed.

Lemma show_image_panels (a : ndarray3) (vmin vmax : Z) :
  emits (panel_of a vmin vmax) (show_image a vmin vmax).
Proof.
  unfold show_image.
  apply emits_bind; [by apply emits_plt|intros _].
  apply emits_bind; [|intros _; emits_steps].
  apply emits_for_in. intros i Hi. apply in_seq in Hi.
  destruct (decide (i < 2)%nat) as [Hlt|Hge].
  - exists [Subplot 1 2 (Z.of_nat i + 1);
            Imshow (slice_last (transpose_102 a) i) "viridis" vmin vmax], (Ok tt).
    split; [apply panel_logs; lia|].
    repeat constructor. exists i. repeat split; lia || done.
  - exists [], (Raise ValueError). split; [apply panel_refused; lia|constructor].
Qed.

Lemma slice_last_pixel (b : ndarray3) (i r c : nat) (row : list Z) (x : Z) :
  slice_last b i !! r = Some row -> row !! c = Some x ->
  (r < shape0 b)%nat /\ (c < shape1 b)%nat /\ length row = shape1 b /\
  x = item3 b r c i.
Proof.
  unfold slice_last. intros Hrow Hx.
  rewrite list_lookup_fmap in Hrow.
  destruct (seq 0 (shape0 b) !! r) as [r'|] eqn:Hr; [|done].
  apply lookup_seq in Hr as [-> Hr]. injection Hrow as <-.
  rewrite list_lookup_fmap in Hx.
  destruct (seq 0 (shape1 b) !! c) as [c'|] eqn:Hc; [|done].
  apply lookup_seq in Hc as [-> Hc]. injection Hx as <-.
  by rewrite length_map, length_seq.
Qed.

(** X7.  Each panel that [plot_trace_image] draws is one of the first two
    variants of the trace, transposed: it has one row per channel, each as
    long as the window, the pixel of channel [c] at frame [t] is the entry
    [trace[t, c, i]], and every pixel lies within the colour bounds the
    panel is drawn with. *)
Theorem plot_trace_image_pixels (recording : Recording) sample_frame
    (trace_reshaped : ndarray3) w :
  get_trace_reshaped recording sample_frame = Ok trace_reshaped ->
  exists d,
    pyplot (fst (plot_trace_image recording sample_frame w)) = pyplot w ++ d /\
    forall img cmap vmin vmax, In (Imshow img cmap vmin vmax) d ->
      length img = shape1 trace_reshaped /\
      exists i, (i < shape2 trace_reshaped)%nat /\ (i < 2)%nat /\
        forall c t row x, img !! c = Some row -> row !! t = Some x ->
          length row = shape0 trace_reshaped /\
          x = item3 trace_reshaped t c i /\ vmin <= x <= vmax.
Proof.
  intros Hfetch. rewrite (plot_trace_image_run _ _ trace_reshaped) by done.
  destruct (ndarray_min (transpose_102 trace_reshaped)) as [lo|e|] eqn:Hmin;
    [|exists []; cbn; by rewrite app_nil_r..].
  destruct (ndarray_max (transpose_102 trace_reshaped)) as [hi|e|] eqn:Hmax;
    [|exists []; cbn; by rewrite app_nil_r..].
  apply ndarray_min_transposed in Hmin as [_ Hlo].
  apply ndarray_max_transposed in Hmax as [_ Hhi].
  destruct (show_image_panels trace_reshaped lo hi) as (d & r & Hrun & Hd).
  exists d. rewrite (Hrun w). split; [done|].
  intros img cmap vmin vmax Hin.
  rewrite Forall_forall in Hd. apply list_elem_of_In, Hd in Hin.
  destruct Hin as (i & Hi & Hi2 & -> & _ & -> & ->).
  split; [unfold slice_last; by rewrite length_map, length_seq|].
  exists i. split; [done|]. split; [done|].
  intros c t row x Hrow Hx.
  destruct (slice_last_pixel _ _ _ _ _ _ Hrow Hx) as (Hc & Ht & Hlen & ->).
  cbn in Hc, Ht, Hlen |- *. split; [done|]. split; [done|].
  assert (Hel : In (item3 trace_reshaped t c i) (elements3 trace_reshaped)).
  { apply elements3_spec. by exists t, c, i. }
  split; [by apply Hlo|by apply Hhi].
Qed.

End TraceImageRuns.

Section UnitWaveformRuns.

Context {Recording Spikes : Type} `{Preprocessing Recording Spikes}.

Lemma plot_unit_waveform_run fuel (recording : Recording) (spikes : Spikes)
    unit_id channel_id all_waveforms num_waveforms seed sample_frames w :
  get_unit_frames spikes unit_id = Ok sample_frames ->
  plot_unit_waveform fuel recording spikes unit_id channel_id all_waveforms
    num_waveforms seed w
  = match frames_to_plot fuel sample_frames all_waveforms num_waveforms seed w with
    | (w', Ok frames) => show_frames recording unit_id channel_id frames w'
    | (w', Raise e) => (w', Raise e)
    | (w', OutOfFuel) => (w', OutOfFuel)
    end.
Proof.
  intros Hfetch. rewrite plot_unit_waveform_unfold.
  unfold bind at 1. unfold lift. rewrite Hfetch. unfold bind at 1.
  by destruct (frames_to_plot _ _ _ _ _ w) as [w' [frames|e|]].
Qed.

(** ** The draws *)

Lemma lor_shiftr_nonneg (m k : Z) : 0 <= m -> 0 <= Z.lor m (Z.shiftr m k).
Proof. intros Hm. apply Z.lor_nonneg. split; [done|]. by apply Z.shiftr_nonneg. Qed.

Lemma gen_mask_nonneg (rng : Z) : 0 <= rng -> 0 <= MT19937.gen_mask rng.
Proof.
  intros Hr. unfold MT19937.gen_mask. cbv zeta.
  repeat apply lor_shiftr_nonneg. done.
Qed.

Lemma bounded_masked_range next fuel rng mask s s' r :
  0 <= mask ->
  MT19937.bounded_masked next fuel rng mask s = (s', r) ->
  r = OutOfFuel \/ exists v, r = Ok v /\ 0 <= v <= rng.
Proof.
  intros Hmask. revert s. induction fuel as [|fuel IH]; intros s Hrun; cbn in Hrun.
  - injection Hrun as _ <-. by left.
  - destruct (next s) as [v s1].
    destruct (Z.ltb_spec rng (Z.land v mask)) as [Hgt|Hle]; [by eapply IH|].
    injection Hrun as _ <-. right. eexists. split; [done|].
    split; [|done]. apply Z.land_nonneg. by right.
Qed.

Lemma bounded_uint64_range fuel off rng s s' r :
  0 < rng < 0xFFFFFFFF ->
  MT19937.bounded_uint64 fuel off rng s = (s', r) ->
  r = OutOfFuel \/ exists v, r = Ok v /\ off <= v <= off + rng.
Proof.
  intros Hr. unfold MT19937.bounded_uint64.
  destruct (Z.leb_spec rng 0xFFFFFFFF); [|lia].
  destruct (Z.eqb_spec rng 0xFFFFFFFF); [lia|].
  unfold bind.
  destruct (MT19937.bounded_masked _ _ _ _ s) as [s1 r1] eqn:Hm.
  apply bounded_masked_range in Hm as [->|(v & -> & Hv)];
    [| |apply gen_mask_nonneg; lia].
  - intros [= _ <-]. by left.
  - intros [= _ <-]. right. eexists. split; [done|lia].
Qed.

Lemma fill_range fuel off rng cnt s s' r :
  0 <= rng < 0xFFFFFFFF ->
  MT19937.random_bounded_uint64_fill fuel off rng cnt s = (s', r) ->
  r = OutOfFuel \/
  exists l, r = Ok l /\ length l = cnt /\ Forall (fun v => off <= v <= off + rng) l.
Proof.
  intros Hr. revert s s' r. induction cnt as [|cnt IH]; intros s s' r; cbn.
  - intros [= _ <-]. right. by exists [].
  - unfold bind at 1.
    destruct ((if rng =? 0 then ret off else MT19937.bounded_uint64 fuel off rng) s)
      as [s1 r1] eqn:H1.
    assert (Hx : r1 = OutOfFuel \/ exists v, r1 = Ok v /\ off <= v <= off + rng).
    { destruct (Z.eqb_spec rng 0) as [->|Hne].
      - injection H1 as _ <-. right. exists off. split; [done|lia].
      - eapply bounded_uint64_range; [|done]. lia. }
    destruct Hx as [->|(v & -> & Hv)]; [intros [= _ <-]; by left|].
    unfold bind.
    destruct (MT19937.random_bounded_uint64_fill fuel off rng cnt s1) as [s2 r2] eqn:H2.
    apply IH in H2 as [->|(l & -> & Hlen & Hl)]; intros [= _ <-]; [by left|].
    right. exists (v :: l). split; [done|]. split; [by cbn; f_equal|].
    by constructor.
Qed.

Lemma take_items_total (a idx : list Z) :
  Forall (fun i => 0 <= i < Z.of_nat (length a)) idx ->
  RandomState.take_items a idx = Ok (map (fun i => a !!! Z.to_nat i) idx).
Proof.
  induction 1 as [|i idx Hi _ IH]; [done|]. cbn.
  destruct (Z.leb_spec 0 i); [|lia].
  destruct (a !! Z.to_nat i) as [x|] eqn:Hx.
  - rewrite IH. by rewrite (list_lookup_total_correct _ _ _ Hx).
  - apply lookup_ge_None in Hx. lia.
Qed.

Lemma choice_safe fuel (a : list Z) (size : Z) s s' r :
  0 <= size <= Z.of_nat (length a) -> Z.of_nat (length a) < 2 ^ 32 ->
  RandomState.choice fuel a size s = (s', r) ->
  r = OutOfFuel \/
  exists sel, r = Ok sel /\ length sel = Z.to_nat size /\
              Forall (fun x => In x a) sel.
Proof.
  intros Hsize Hlen. unfold RandomState.choice, RandomState.randint.
  destruct (Z.eqb_spec size 0) as [->|Hne].
  - rewrite andb_false_r. unfold bind, ret, lift. cbn.
    intros [= _ <-]. right. by exists [].
  - destruct (Z.eqb_spec (Z.of_nat (length a)) 0) as [H0|H0]; [lia|]. cbn [andb].
    destruct (Z.ltb_spec size 0); [lia|].
    destruct (Z.ltb_spec (Z.of_nat (length a) - 1) 0); [lia|].
    unfold bind.
    destruct (MT19937.random_bounded_uint64_fill _ _ _ _ s) as [s1 r1] eqn:Hfill.
    apply fill_range in Hfill as [->|(idx & -> & Hidx & Hrange)];
      [| |change 0xFFFFFFFF with (2 ^ 32 - 1); lia].
    + intros [= _ <-]. by left.
    + unfold lift. rewrite take_items_total
        by (eapply Forall_impl; [done|]; cbn; intros; lia).
      intros [= _ <-]. right. eexists. split; [done|].
      split; [by rewrite length_map|].
      apply Forall_forall. intros x Hx. apply list_elem_of_In in Hx.
      apply in_map_iff in Hx as (i & <- & Hi).
      apply list_elem_of_In, (proj1 (Forall_forall _ _) Hrange) in Hi.
      apply list_elem_of_In, list_elem_of_lookup_total_2. lia.
Qed.

Lemma Forall_waveforms (recording : Recording) channel_id (frames sel : list Z) :
  (forall frame, In frame frames ->
     exists line, is_waveform recording channel_id frame line) ->
  Forall (fun x => In x frames) sel ->
  exists lines, Forall2 (is_waveform recording channel_id) sel lines.
Proof.
  intros Hall. induction 1 as [|f sel Hf _ [lines IH]]; [by exists []|].
  destruct (Hall f Hf) as [line Hline]. exists (line :: lines). by constructor.
Qed.

(** X9.  Sampling cannot raise.  With a valid seed, a unit of fewer than
    [2^32] frames, all of them plottable on the channel, and
    [0 <= num_waveforms <= len(sample_frames)], a call of
    [plot_unit_waveform] either runs out of fuel while drawing positions,
    before any call to the backend, or succeeds with a figure of exactly
    [num_waveforms] lines, each the waveform of a frame of the unit. *)
Theorem plot_unit_waveform_sample_safe
    fuel (recording : Recording) (spikes : Spikes) unit_id channel_id
    num_waveforms seed sample_frames w :
  get_unit_frames spikes unit_id = Ok sample_frames ->
  0 <= num_waveforms <= Z.of_nat (length sample_frames) ->
  Z.of_nat (length sample_frames) < 2 ^ 32 ->
  0 <= seed <= 0xFFFFFFFF ->
  (forall frame, In frame sample_frames ->
     exists line, is_waveform recording channel_id frame line) ->
  let run := plot_unit_waveform fuel recording spikes unit_id channel_id false
               num_waveforms seed w in
  (snd run = OutOfFuel /\ pyplot (fst run) = pyplot w) \/
  exists sel lines,
    snd run = Ok tt /\
    length sel = Z.to_nat num_waveforms /\
    Forall (fun frame => In frame sample_frames) sel /\
    Forall2 (is_waveform recording channel_id) sel lines /\
    pyplot (fst run) = pyplot w ++ unit_figure unit_id channel_id lines.
Proof.
  intros Hfetch Hnum Hlen Hseed Hall run. unfold run.
  rewrite (plot_unit_waveform_run _ _ _ _ _ _ _ _ sample_frames) by done.
  rewrite frames_to_plot_sample by lia.
  destruct (Z.leb_spec 0 seed); [|lia].
  destruct (Z.leb_spec seed 0xFFFFFFFF); [|lia]. cbn [andb].
  destruct (RandomState.choice fuel sample_frames num_waveforms
              (MT19937.mt19937_seed seed)) as [s r] eqn:Hch.
  apply choice_safe in Hch as [->|(sel & -> & Hsel & Hin)]; [by left|..|done|done].
  right. destruct (Forall_waveforms recording channel_id _ _ Hall Hin) as [lines Hlines].
  exists sel, lines.
  rewrite (show_frames_logs recording unit_id channel_id sel lines Hlines).
  by cbn.
Qed.

(** ** A number of frames that is a power of two *)

Lemma gen_mask_ones (b : nat) :
  (b <= 32)%nat -> MT19937.gen_mask (Z.ones (Z.of_nat b)) = Z.ones (Z.of_nat b).
Proof.
  intros Hb. do 33 (destruct b as [|b]; [by vm_compute|]). lia.
Qed.

Lemma bounded_uint64_pow2 fuel off (b : Z) s :
  1 <= b <= 31 ->
  MT19937.bounded_uint64 (S fuel) off (2 ^ b - 1) s
  = (snd (MT19937.mt19937_next s), Ok (off + fst (MT19937.mt19937_next s) mod 2 ^ b)).
Proof.
  intros Hb.
  assert (2 ^ b <= 2 ^ 31) by (apply Z.pow_le_mono_r; lia).
  assert (0 < 2 ^ b) by (apply Z.pow_pos_nonneg; lia).
  unfold MT19937.bounded_uint64.
  destruct (Z.leb_spec (2 ^ b - 1) 0xFFFFFFFF); [|lia].
  destruct (Z.eqb_spec (2 ^ b - 1) 0xFFFFFFFF); [lia|].
  unfold bind. cbn [MT19937.bounded_masked].
  destruct (MT19937.mt19937_next s) as [v s1]. cbn [fst snd].
  replace (2 ^ b - 1) with (Z.ones (Z.of_nat (Z.to_nat b)))
    by (rewrite Z.ones_equiv, Z2Nat.id; lia).
  rewrite gen_mask_ones by lia. rewrite Z.land_ones by lia.
  rewrite Z.ones_equiv, Z2Nat.id by lia.
  pose proof (Z.mod_pos_bound v (2 ^ b) ltac:(lia)).
  destruct (Z.ltb_spec (Z.pred (2 ^ b)) (v mod 2 ^ b)); [lia|]. done.
Qed.

Lemma fill_pow2 fuel off (b : Z) cnt s :
  1 <= b <= 31 ->
  MT19937.random_bounded_uint64_fill (S fuel) off (2 ^ b - 1) cnt s
  = (snd (mt19937_outputs cnt s),
     Ok (map (fun v => off + v mod 2 ^ b) (fst (mt19937_outputs cnt s)))).
Proof.
  intros Hb.
  assert (1 < 2 ^ b) by (apply (Z.pow_gt_1 2 b); lia).
  revert s. induction cnt as [|cnt IH]; intros s; [done|].
  cbn [MT19937.random_bounded_uint64_fill mt19937_outputs].
  destruct (Z.eqb_spec (2 ^ b - 1) 0); [lia|].
  unfold bind at 1. rewrite bounded_uint64_pow2 by done.
  destruct (MT19937.mt19937_next s) as [v s1]. cbn [fst snd].
  unfold bind. rewrite IH.
  by destruct (mt19937_outputs cnt s1) as [vs s2].
Qed.

(** X10.  When the number of frames of the unit is a power of two,
    [2^b] with [1 <= b <= 31], no draw is rejected: with a valid seed the
    sampling returns for any positive fuel, it consumes exactly
    [num_waveforms] outputs of the freshly seeded generator, and output [v]
    selects the frame at position [v mod 2^b]. *)
Theorem plot_unit_waveform_pow2_frames
    (fuel : nat) (sample_frames : list Z) (b num_waveforms seed : Z) (w : World) :
  Z.of_nat (length sample_frames) = 2 ^ b ->
  1 <= b <= 31 ->
  0 < num_waveforms <= 2 ^ b ->
  0 <= seed <= 0xFFFFFFFF ->
  (1 <= fuel)%nat ->
  let draws := mt19937_outputs (Z.to_nat num_waveforms) (MT19937.mt19937_seed seed) in
  frames_to_plot fuel sample_frames false num_waveforms seed w
  = ({| np_random := snd draws; pyplot := pyplot w |},
     Ok (map (fun v => sample_frames !!! Z.to_nat (v mod 2 ^ b)) (fst draws))).
Proof.
  intros Hlen Hb Hnum Hseed Hfuel draws.
  assert (0 < 2 ^ b) by (apply Z.pow_pos_nonneg; lia).
  rewrite frames_to_plot_sample by lia.
  destruct (Z.leb_spec 0 seed); [|lia].
  destruct (Z.leb_spec seed 0xFFFFFFFF); [|lia]. cbn [andb].
  unfold RandomState.choice, RandomState.randint. rewrite Hlen.
  destruct (Z.eqb_spec (2 ^ b) 0); [lia|]. cbn [andb].
  destruct (Z.eqb_spec num_waveforms 0); [lia|].
  destruct (Z.ltb_spec num_waveforms 0); [lia|].
  destruct (Z.ltb_spec (2 ^ b - 1) 0); [lia|].
  destruct fuel as [|fuel]; [lia|].
  unfold bind. rewrite Z.sub_0_r, fill_pow2 by done. fold draws.
  unfold lift. rewrite take_items_total.
  - rewrite map_map. done.
  - apply Forall_forall. intros i Hi. apply list_elem_of_In, in_map_iff in Hi as (v & <- & _).
    pose proof (Z.mod_pos_bound v (2 ^ b) ltac:(lia)). lia.
Qed.

(** ** Degenerate numbers of waveforms *)

(** X11.  A negative [num_waveforms] makes the call raise [ValueError]
    without any call to the backend; the failure comes after
    [np.random.seed], so with a valid seed the global generator is left
    re-seeded. *)
Theorem plot_unit_waveform_negative_count
    fuel (recording : Recording) (spikes : Spikes) unit_id channel_id
    num_waveforms seed sample_frames w :
  get_unit_frames spikes unit_id = Ok sample_frames ->
  num_waveforms < 0 ->
  plot_unit_waveform fuel recording spikes unit_id channel_id false
    num_waveforms seed w
  = ({| np_random := if (0 <=? seed) && (seed <=? 0xFFFFFFFF)
                     then MT19937.mt19937_seed seed else np_random w;
        pyplot := pyplot w |}, Raise ValueError).
Proof.
  intros Hfetch Hnum.
  rewrite (plot_unit_waveform_run _ _ _ _ _ _ _ _ sample_frames) by done.
  rewrite frames_to_plot_sample by lia.
  destruct ((0 <=? seed) && (seed <=? 0xFFFFFFFF)); [|by destruct w].
  unfold RandomState.choice, RandomState.randint.
  destruct (Z.eqb_spec num_waveforms 0); [lia|].
  destruct (Z.ltb_spec num_waveforms 0); [|lia].
  by destruct (Z.of_nat (length sample_frames) =? 0).
Qed.

(** X12.  With [num_waveforms = 0] and a valid seed the call succeeds
    whatever the frames of the unit: it shows a figure without lines, and
    leaves the generator in its freshly seeded state, no value drawn. *)
Theorem plot_unit_waveform_zero_count
    fuel (recording : Recording) (spikes : Spikes) unit_id channel_id
    seed sample_frames w :
  get_unit_frames spikes unit_id = Ok sample_frames ->
  0 <= seed <= 0xFFFFFFFF ->
  plot_unit_waveform fuel recording spikes unit_id channel_id false 0 seed w
  = ({| np_random := MT19937.mt19937_seed seed;
        pyplot := pyplot w ++
          [Figure None; Xlabel "time (frames)"; Ylabel "action potential (mV)";
           Title unit_id channel_id; Show] |}, Ok tt).
Proof.
  intros Hfetch Hseed.
  rewrite (plot_unit_waveform_run _ _ _ _ _ _ _ _ sample_frames) by done.
  rewrite frames_to_plot_sample by lia.
  destruct (Z.leb_spec 0 seed); [|lia].
  destruct (Z.leb_spec seed 0xFFFFFFFF); [|lia]. cbn [andb].
  unfold RandomState.choice, RandomState.randint.
  rewrite andb_false_r. cbn [Z.eqb]. unfold bind, ret, lift.
  cbn [RandomState.take_items].
  by rewrite (show_frames_logs recording unit_id channel_id [] [] ltac:(constructor)).
Qed.

(** ** The seed *)

(** X13.  The seed matters only when the call samples.  With
    [all_waveforms], or with fewer frames than [num_waveforms], the run is
    the same for every seed, valid or not (and every fuel); when the call
    samples, a seed outside [[0, 2^32 - 1]] raises [ValueError] and leaves
    the state as it was. *)
Theorem plot_unit_waveform_seed
    (recording : Recording) (spikes : Spikes) unit_id channel_id
    all_waveforms num_waveforms sample_frames :
  get_unit_frames spikes unit_id = Ok sample_frames ->
  (all_waveforms = true \/ Z.of_nat (length sample_frames) < num_waveforms ->
   forall fuel fuel' seed seed' w,
     plot_unit_waveform fuel recording spikes unit_id channel_id all_waveforms
       num_waveforms seed w
     = plot_unit_waveform fuel' recording spikes unit_id channel_id all_waveforms
         num_waveforms seed' w) /\
  (all_waveforms = false -> num_waveforms <= Z.of_nat (length sample_frames) ->
   forall fuel seed w, ~ 0 <= seed <= 0xFFFFFFFF ->
     plot_unit_waveform fuel recording spikes unit_id channel_id all_waveforms
       num_waveforms seed w
     = (w, Raise ValueError)).
Proof.
  intros Hfetch. split.
  - intros Hkeep fuel fuel' seed seed' w.
    rewrite !(plot_unit_waveform_run _ _ _ _ _ _ _ _ sample_frames) by done.
    by rewrite !frames_to_plot_keep.
  - intros -> Hnum fuel seed w Hseed.
    rewrite (plot_unit_waveform_run _ _ _ _ _ _ _ _ sample_frames) by done.
    rewrite frames_to_plot_sample by lia.
    destruct (Z.leb_spec 0 seed), (Z.leb_spec seed 0xFFFFFFFF); cbn [andb]; done || lia.
Qed.

(** ** A frame that cannot be plotted *)

Lemma plot_frame_fails recording channel_id frame e :
  frame_fails recording channel_id frame e ->
  logs (plot_frame recording channel_id frame) [] (Raise e).
Proof.
  intros [Hf|(snip & Hf & Hc)]; unfold plot_frame.
  - apply logs_bind_raise. rewrite Hf. apply logs_lift.
  - apply (logs_bind _ _ [] snip); [rewrite Hf; apply logs_lift|].
    apply logs_bind_raise. rewrite Hc. apply logs_lift.
Qed.

Lemma plot_frames_stop recording channel_id pre frame post lines e :
  Forall2 (is_waveform recording channel_id) pre lines ->
  frame_fails recording channel_id frame e ->
  logs (for_ (pre ++ frame :: post) (plot_frame recording channel_id))
       (map Plot lines) (Raise e).
Proof.
  intros Hpre Hfail. induction Hpre as [|f line pre lines Hline _ IH]; cbn [app for_ map].
  - apply logs_bind_raise. by apply plot_frame_fails.
  - apply (logs_bind _ _ [_] tt); [by apply plot_frame_logs|done].
Qed.

(** X14.  When the frames are plotted as they are and the waveform of one
    of them cannot be taken (its snippet cannot be fetched, or the channel
    is not a column of it), the call stops there with that exception: the
    figure is open with the lines of the frames before it, and it is never
    labelled nor shown. *)
Theorem plot_unit_waveform_bad_frame
    fuel (recording : Recording) (spikes : Spikes) unit_id channel_id
    all_waveforms num_waveforms seed (pre : list Z) (frame : Z) (post : list Z)
    (lines : list (list Z)) (e : exn) w :
  get_unit_frames spikes unit_id = Ok (pre ++ frame :: post) ->
  all_waveforms = true \/ Z.of_nat (length (pre ++ frame :: post)) < num_waveforms ->
  Forall2 (is_waveform recording channel_id) pre lines ->
  frame_fails recording channel_id frame e ->
  plot_unit_waveform fuel recording spikes unit_id channel_id all_waveforms
    num_waveforms seed w
  = ({| np_random := np_random w;
        pyplot := pyplot w ++ Figure None :: map Plot lines |}, Raise e) /\
  ~ In Show (Figure None :: map Plot lines).
Proof.
  intros Hfetch Hkeep Hpre Hfail. split.
  - rewrite (plot_unit_waveform_run _ _ _ _ _ _ _ _ (pre ++ frame :: post)) by done.
    rewrite frames_to_plot_keep by done.
    unfold show_frames.
    apply (logs_bind _ _ [_] tt); [apply logs_plt|].
    apply logs_bind_raise. by apply plot_frames_stop.
  - intros [Hin|Hin]; [done|]. by apply in_map_iff in Hin as (l & ? & _).
Qed.

End UnitWaveformRuns.

Section PeakWaveformRuns.

Context {Recording Spikes : Type} `{Preprocessing Recording Spikes}.

Lemma for_app {Σ A} (l1 l2 : list A) (body : A -> Py Σ unit) σ :
  for_ (l1 ++ l2) body σ = (for_ l1 body ;; for_ l2 body) σ.
Proof.
  revert σ. induction l1 as [|x l1 IH]; intros σ; cbn [app for_]; [done|].
  unfold bind in *. by destruct (body x σ) as [σ1 [[]|e|]].
Qed.

Lemma py_range_split (start mid stop : Z) :
  start <= mid <= stop ->
  py_range start stop = py_range start mid ++ py_range mid stop.
Proof.
  intros Hm. unfold py_range.
  replace (stop - start) with ((mid - start) + (stop - mid)) by lia.
  rewrite seqZ_app by lia. do 2 f_equal; lia.
Qed.

Lemma peak_split {Σ} (grid_plot : Recording -> Z -> pyval -> Py Σ unit)
    (recording : Recording) (table : gmap Z PeakRow) start_idx mid_idx end_idx σ :
  start_idx - 1 <= mid_idx <= end_idx ->
  plot_peak_waveform_with grid_plot recording table start_idx end_idx σ
  = (plot_peak_waveform_with grid_plot recording table start_idx mid_idx ;;
     plot_peak_waveform_with grid_plot recording table (mid_idx + 1) end_idx) σ.
Proof.
  intros Hm. unfold plot_peak_waveform_with.
  rewrite (py_range_split start_idx (mid_idx + 1) (end_idx + 1)) by lia.
  apply for_app.
Qed.

(** X15.  A range of [plot_peak_waveform] can be cut anywhere: the call on
    [[start_idx, end_idx]] is the call on [[start_idx, mid_idx]] followed,
    if that one succeeds, by the call on [[mid_idx + 1, end_idx]]; for any
    callee, and so for [plot_trace_waveform]. *)
Theorem plot_peak_waveform_split (recording : Recording) (table : gmap Z PeakRow)
    start_idx mid_idx end_idx :
  start_idx - 1 <= mid_idx <= end_idx ->
  (forall Σ (grid_plot : Recording -> Z -> pyval -> Py Σ unit) σ,
     plot_peak_waveform_with grid_plot recording table start_idx end_idx σ
     = (plot_peak_waveform_with grid_plot recording table start_idx mid_idx ;;
        plot_peak_waveform_with grid_plot recording table (mid_idx + 1) end_idx) σ) /\
  (forall w,
     plot_peak_waveform recording table start_idx end_idx w
     = (plot_peak_waveform recording table start_idx mid_idx ;;
        plot_peak_waveform recording table (mid_idx + 1) end_idx) w).
Proof.
  intros Hm. split.
  - intros Σ grid_plot σ. by apply peak_split.
  - intros w. by apply peak_split.
Qed.



Lemma row_figure_logs (recording : Recording) (row : PeakRow) fig :
  row_figure recording row fig ->
  logs (plot_trace_waveform recording (peak_frame row) (peak_channel row)) fig (Ok tt).
Proof.
  intros (snip & l & ys & Hfetch & -> & Hn & Hys & ->).
  by apply (plot_trace_waveform_logs _ _ snip).
Qed.

Lemma row_figures_logs (recording : Recording) (rows : list PeakRow) figs :
  Forall2 (row_figure recording) rows figs ->
  logs (for_ rows (fun row =>
          plot_trace_waveform recording (peak_frame row) (peak_channel row)))
       (concat figs) (Ok tt).
Proof.
  induction 1 as [|row fig rows figs Hrow _ IH]; cbn [for_ concat].
  - apply logs_ret.
  - apply (logs_bind _ _ fig tt); [by apply row_figure_logs|done].
Qed.

(** X17.  When every row of the range has a figure ([row_figure]: its
    snippet can be fetched and its channels are a list of valid channels),
    [plot_peak_waveform] succeeds and its calls are these figures one after
    the other, in the order of the index: one figure per index of the
    range, each ending with its layout and its show before the next one is
    opened. *)
Theorem plot_peak_waveform_figures (recording : Recording)
    (table : gmap Z PeakRow) start_idx end_idx (rows : list PeakRow)
    (figs : list (list PltCall)) w :
  Forall2 (fun idx row => table !! idx = Some row)
          (py_range start_idx (end_idx + 1)) rows ->
  Forall2 (row_figure recording) rows figs ->
  plot_peak_waveform recording table start_idx end_idx w
  = ({| np_random := np_random w; pyplot := pyplot w ++ concat figs |}, Ok tt) /\
  length figs = Z.to_nat (end_idx + 1 - start_idx) /\
  Forall (fun fig => exists d, fig = d ++ [TightLayout; Show]) figs.
Proof.
  intros Hrows Hfigs. split; [|split].
  - unfold plot_peak_waveform, plot_peak_waveform_with.
    rewrite (peak_loop_rows _ _ _ _ rows) by done.
    by apply row_figures_logs.
  - rewrite <- (Forall2_length _ _ _ Hfigs), <- (Forall2_length _ _ _ Hrows).
    unfold py_range. by rewrite length_seqZ.
  - clear Hrows. induction Hfigs as [|row fig rows figs Hrow _ IH]; constructor; [|done].
    destruct Hrow as (snip & l & ys & _ & _ & _ & _ & ->).
    unfold trace_figure. eexists (_ :: _ ++ _). cbn. by rewrite <- app_assoc.
Qed.

Lemma log_only_plot_trace_waveform (recording : Recording) sample_time channels :
  log_only (plot_trace_waveform recording sample_time channels).
Proof.
  unfold log_only, plot_trace_waveform.
  apply emits_bind; [apply emits_lift|intros trace_snippet].
  apply emits_bind; [apply emits_lift|intros num_channels].
  apply emits_bind; [apply emits_lift|intros [rows cols]].
  apply emits_bind; [unfold plt_subplots; emits_steps|intros axs].
  apply log_only_fill_grid.
Qed.

Lemma log_only_plot_trace_image (recording : Recording) sample_frame :
  log_only (plot_trace_image recording sample_frame).
Proof.
  unfold log_only, plot_trace_image, show_image, plt_subplot. emits_steps.
Qed.

Lemma log_only_plot_peak_waveform (recording : Recording) table start_idx end_idx :
  log_only (plot_peak_waveform recording table start_idx end_idx).
Proof.
  unfold log_only, plot_peak_waveform, plot_peak_waveform_with.
  apply emits_for. intros idx.
  apply emits_bind; [apply emits_lift|intros frame].
  apply emits_bind; [apply emits_lift|intros channel].
  apply log_only_plot_trace_waveform.
Qed.

Lemma log_only_run {A} (m : Py World A) :
  log_only m ->
  exists d r, forall w,
    m w = ({| np_random := np_random w; pyplot := pyplot w ++ d |}, r).
Proof. intros (d & r & Hm & _). by exists d, r. Qed.

(** X18.  [plot_trace_waveform], [plot_trace_image], [plot_peak_waveform]
    and [plot_unit_waveform] with [all_waveforms] never touch the global
    generator, only append to what the backend was sent, and the calls they
    make and their outcome do not depend on the state they start from. *)
Theorem plots_independent_of_state (recording : Recording) :
  (forall sample_time channels, exists d r, forall w,
     plot_trace_waveform recording sample_time channels w
     = ({| np_random := np_random w; pyplot := pyplot w ++ d |}, r)) /\
  (forall sample_frame, exists d r, forall w,
     plot_trace_image recording sample_frame w
     = ({| np_random := np_random w; pyplot := pyplot w ++ d |}, r)) /\
  (forall table start_idx end_idx, exists d r, forall w,
     plot_peak_waveform recording table start_idx end_idx w
     = ({| np_random := np_random w; pyplot := pyplot w ++ d |}, r)) /\
  (forall fuel (spikes : Spikes) unit_id channel_id num_waveforms seed,
     exists d r, forall w,
       plot_unit_waveform fuel recording spikes unit_id channel_id true
         num_waveforms seed w
       = ({| np_random := np_random w; pyplot := pyplot w ++ d |}, r)).
Proof.
  split; [|split; [|split]].
  - intros. apply log_only_run, log_only_plot_trace_waveform.
  - intros. apply log_only_run, log_only_plot_trace_image.
  - intros. apply log_only_run, log_only_plot_peak_waveform.
  - intros. apply log_only_run. unfold log_only.
    rewrite plot_unit_waveform_unfold. unfold frames_to_plot.
    apply emits_bind; [apply emits_lift|intros frames].
    apply emits_bind; [apply emits_ret|intros sel].
    apply log_only_show_frames.
Qed.

End PeakWaveformRuns.

(* ================================================================== *)
(** * More runs on the small recordings *)

Section MoreRuns.

Import Demo DemoTraces.

Lemma demo_snippet (t : Z) : get_trace_snippet tt t = Ok (snippet t).
Proof. reflexivity. Defined.

Lemma demo_reshaped (t : Z) : get_trace_reshaped tt t = Ok (reshaped t).
Proof. reflexivity. Defined.

Lemma demo_reshaping (a : ndarray3) (t : Z) :
  get_trace_reshaped (Preprocessing := reshaping a) tt t = Ok a.
Proof. reflexivity. Defined.

Lemma demo_waveforms (t : Z) (l : list Z) :
  Forall (fun channel => 0 <= channel < 4) l ->
  Forall2 (fun channel y => column (snippet t) channel = Ok y) l (waveforms t l).
Proof.
  induction 1 as [|channel l Hc _ IH]; constructor; [|exact IH].
  unfold column. cbn [ncols snippet].
  destruct (Z.leb_spec 0 channel); [|lia].
  destruct (Z.ltb_spec channel (Z.of_nat 4)); [reflexivity|lia].
Defined.

Lemma demo_channels_013 : Forall (fun channel => 0 <= channel < 4) [0; 3; 2].
Proof. repeat constructor; lia. Defined.

Lemma demo_plottable (channel_id : Z) (frames : list Z) :
  0 <= channel_id < 4 ->
  forall frame, In frame frames ->
    exists line, is_waveform tt channel_id frame line.
Proof.
  intros Hc frame _. exists (col (snippet frame) (Z.to_nat channel_id)), (snippet frame).
  split; [reflexivity|]. unfold column. cbn [ncols snippet].
  destruct (Z.leb_spec 0 channel_id); [|lia].
  destruct (Z.ltb_spec channel_id (Z.of_nat 4)); [reflexivity|lia].
Defined.

Lemma plot_trace_waveform_figure_witness :
  get_trace_snippet tt 5 = Ok (snippet 5) /\
  1 <= Z.of_nat (length [0; 3; 2]) <= 2 ^ 52 /\
  plot_trace_waveform tt 5 (PyList [0; 3; 2]) w0
  = ({| np_random := np_random w0;
        pyplot := pyplot w0 ++
          trace_figure (grid_rows (Z.of_nat (length [0; 3; 2])))
            (grid_cols (Z.of_nat (length [0; 3; 2]))) [0; 3; 2]
            (waveforms 5 [0; 3; 2]) |}, Ok tt).
Proof.
  assert (Hn : 1 <= Z.of_nat (length [0; 3; 2]) <= 2 ^ 52) by (cbn; lia).
  split; [reflexivity|]. split; [exact Hn|].
  exact (plot_trace_waveform_figure tt 5 (snippet 5) [0; 3; 2] (waveforms 5 [0; 3; 2])
           w0 (demo_snippet 5) Hn (demo_waveforms 5 [0; 3; 2] demo_channels_013)).
Defined.

Lemma subplot_grid_square_ish_witness :
  1 <= 7 <= 2 ^ 52 /\
  exists rows cols,
    subplot_grid 7 = Ok (rows, cols) /\
    1 <= rows /\ cols - 1 <= rows <= cols /\
    (rows = cols <-> cols * (cols - 1) < 7).
Proof.
  assert (Hn : 1 <= 7 <= 2 ^ 52) by lia.
  split; [exact Hn|]. exact (subplot_grid_square_ish 7 Hn).
Defined.

Lemma plot_trace_waveform_axes_witness :
  get_trace_snippet tt 5 = Ok (snippet 5) /\
  1 <= Z.of_nat (length [0; 3; 2]) <= 2 ^ 52 /\
  exists d,
    pyplot (fst (plot_trace_waveform tt 5 (PyList [0; 3; 2]) w0)) = pyplot w0 ++ d /\
    forall ax arg, In (AxAxis ax arg) d <->
      arg = "off" /\
      Z.of_nat (length [0; 3; 2]) <= ax
      < grid_rows (Z.of_nat (length [0; 3; 2])) * grid_cols (Z.of_nat (length [0; 3; 2])).
Proof.
  assert (Hn : 1 <= Z.of_nat (length [0; 3; 2]) <= 2 ^ 52) by (cbn; lia).
  split; [reflexivity|]. split; [exact Hn|].
  destruct (plot_trace_waveform_axes tt 5 (snippet 5) [0; 3; 2] (waveforms 5 [0; 3; 2])
              w0 (demo_snippet 5) Hn (demo_waveforms 5 [0; 3; 2] demo_channels_013))
    as (d & Hd & _ & Hoff & _).
  exists d. split; [exact Hd|exact Hoff].
Defined.

Lemma plot_trace_waveform_bad_channel_witness :
  get_trace_snippet tt 5 = Ok (snippet 5) /\
  ~ (- Z.of_nat (ncols (snippet 5)) <= 7 < Z.of_nat (ncols (snippet 5))) /\
  plot_trace_waveform tt 5 (PyList ([0; 3] ++ 7 :: [2])) w0
  = ({| np_random := np_random w0;
        pyplot := pyplot w0 ++
          Subplots (grid_rows (Z.of_nat (length ([0; 3] ++ 7 :: [2]))))
                   (grid_cols (Z.of_nat (length ([0; 3] ++ 7 :: [2]))))
                   (4 * grid_cols (Z.of_nat (length ([0; 3] ++ 7 :: [2]))),
                    3 * grid_rows (Z.of_nat (length ([0; 3] ++ 7 :: [2])))) ::
          channels_calls 0 [0; 3] (waveforms 5 [0; 3]) |},
     Raise IndexError).
Proof.
  assert (Hn : Z.of_nat (length ([0; 3] ++ 7 :: [2])) <= 2 ^ 52) by (cbn; lia).
  assert (Hbad : ~ (- Z.of_nat (ncols (snippet 5)) <= 7 < Z.of_nat (ncols (snippet 5))))
    by (cbn; lia).
  assert (Hpre : Forall (fun channel => 0 <= channel < 4) [0; 3])
    by (repeat constructor; lia).
  split; [reflexivity|]. split; [exact Hbad|].
  exact (proj1 (plot_trace_waveform_bad_channel tt 5 (snippet 5) [0; 3] 7 [2]
                  (waveforms 5 [0; 3]) w0 (demo_snippet 5) Hn (demo_waveforms 5 [0; 3] Hpre) Hbad)).
Defined.

Lemma plot_trace_image_empty_trace_witness :
  shape0 no_frames = 0%nat /\
  plot_trace_image (H := reshaping no_frames) tt 5 w0 = (w0, Raise ValueError).
Proof.
  split; [reflexivity|].
  exact (plot_trace_image_empty_trace (H := reshaping no_frames) tt 5 no_frames w0
           (demo_reshaping no_frames 5) (or_introl eq_refl)).
Defined.

Lemma plot_trace_image_third_variant_witness :
  (3 <= shape2 (variants 4))%nat /\
  exists vmin vmax,
    is_min (variants 4) vmin /\ is_max (variants 4) vmax /\
    plot_trace_image (H := reshaping (variants 4)) tt 5 w0
    = ({| np_random := np_random w0;
          pyplot := pyplot w0 ++
            [Figure (Some (8, 10));
             Subplot 1 2 1;
             Imshow (slice_last (transpose_102 (variants 4)) 0) "viridis" vmin vmax;
             Subplot 1 2 2;
             Imshow (slice_last (transpose_102 (variants 4)) 1) "viridis" vmin vmax] |},
       Raise ValueError).
Proof.
  assert (H0 : (0 < shape0 (variants 4))%nat) by (cbn; lia).
  assert (H1 : (0 < shape1 (variants 4))%nat) by (cbn; lia).
  assert (H2 : (3 <= shape2 (variants 4))%nat) by (cbn; lia).
  split; [exact H2|].
  exact (plot_trace_image_third_variant (H := reshaping (variants 4)) tt 5 (variants 4)
           w0 (demo_reshaping (variants 4) 5) H0 H1 H2).
Defined.

Lemma plot_trace_image_pixels_witness :
  get_trace_reshaped tt 5 = Ok (reshaped 5) /\
  exists d,
    pyplot (fst (plot_trace_image tt 5 w0)) = pyplot w0 ++ d /\
    forall img cmap vmin vmax, In (Imshow img cmap vmin vmax) d ->
      length img = shape1 (reshaped 5) /\
      exists i, (i < shape2 (reshaped 5))%nat /\ (i < 2)%nat /\
        forall c t row x, img !! c = Some row -> row !! t = Some x ->
          length row = shape0 (reshaped 5) /\
          x = item3 (reshaped 5) t c i /\ vmin <= x <= vmax.
Proof.
  split; [reflexivity|].
  exact (plot_trace_image_pixels tt 5 (reshaped 5) w0 (demo_reshaped 5)).
Defined.

Lemma plot_trace_image_single_variant_witness :
  shape2 (variants 1) = 1%nat /\
  exists vmin vmax,
    is_min (variants 1) vmin /\ is_max (variants 1) vmax /\
    plot_trace_image (H := reshaping (variants 1)) tt 5 w0
    = ({| np_random := np_random w0;
          pyplot := pyplot w0 ++
            [Figure (Some (8, 10));
             Subplot 1 2 1;
             Imshow (slice_last (transpose_102 (variants 1)) 0) "viridis" vmin vmax;
             Text "time (frames)"; Text "channel"; Axes; Colorbar; Show] |},
       Ok tt).
Proof.
  assert (H0 : (0 < shape0 (variants 1))%nat) by (cbn; lia).
  assert (H1 : (0 < shape1 (variants 1))%nat) by (cbn; lia).
  split; [reflexivity|].
  exact (plot_trace_image_single_variant (H := reshaping (variants 1)) tt 5 (variants 1)
           w0 (demo_reshaping (variants 1) 5) H0 H1 eq_refl).
Defined.

Lemma plot_unit_waveform_sample_safe_witness :
  get_unit_frames spikes 7 = Ok unit7_frames /\
  0 <= 10 <= Z.of_nat (length unit7_frames) /\
  Z.of_nat (length unit7_frames) < 2 ^ 32 /\
  0 <= 0 <= 0xFFFFFFFF /\
  let run := plot_unit_waveform 64 tt spikes 7 1 false 10 0 w0 in
  (snd run = OutOfFuel /\ pyplot (fst run) = pyplot w0) \/
  exists sel lines,
    snd run = Ok tt /\
    length sel = Z.to_nat 10 /\
    Forall (fun frame => In frame unit7_frames) sel /\
    Forall2 (is_waveform tt 1) sel lines /\
    pyplot (fst run) = pyplot w0 ++ unit_figure 7 1 lines.
Proof.
  assert (Hnum : 0 <= 10 <= Z.of_nat (length unit7_frames))
    by (cbn [length unit7_frames]; lia).
  assert (Hlen : Z.of_nat (length unit7_frames) < 2 ^ 32)
    by (cbn [length unit7_frames]; lia).
  assert (Hseed : 0 <= 0 <= 0xFFFFFFFF) by lia.
  assert (Hc : 0 <= 1 < 4) by lia.
  split; [exact demo_unit7_frames|]. split; [exact Hnum|]. split; [exact Hlen|].
  split; [exact Hseed|].
  exact (plot_unit_waveform_sample_safe 64 tt spikes 7 1 10 0 unit7_frames w0
           demo_unit7_frames Hnum Hlen Hseed (demo_plottable 1 unit7_frames Hc)).
Defined.

Lemma plot_unit_waveform_pow2_frames_witness :
  Z.of_nat (length [500; 600]) = 2 ^ 1 /\
  frames_to_plot 1 [500; 600] false 2 0 w0
  = ({| np_random := snd (mt19937_outputs (Z.to_nat 2) (MT19937.mt19937_seed 0));
        pyplot := pyplot w0 |},
     Ok (map (fun v => [500; 600] !!! Z.to_nat (v mod 2 ^ 1))
           (fst (mt19937_outputs (Z.to_nat 2) (MT19937.mt19937_seed 0))))).
Proof.
  assert (Hb : 1 <= 1 <= 31) by lia.
  assert (Hnum : 0 < 2 <= 2 ^ 1) by lia.
  assert (Hseed : 0 <= 0 <= 0xFFFFFFFF) by lia.
  assert (Hfuel : (1 <= 1)%nat) by lia.
  split; [reflexivity|].
  exact (plot_unit_waveform_pow2_frames 1 [500; 600] 1 2 0 w0 eq_refl Hb Hnum Hseed
           Hfuel).
Defined.

Lemma plot_unit_waveform_negative_count_witness :
  get_unit_frames spikes 8 = Ok [500; 600] /\
  -1 < 0 /\
  plot_unit_waveform 64 tt spikes 8 1 false (-1) 0 w0
  = ({| np_random := if (0 <=? 0) && (0 <=? 0xFFFFFFFF)
                     then MT19937.mt19937_seed 0 else np_random w0;
        pyplot := pyplot w0 |}, Raise ValueError).
Proof.
  assert (Hnum : -1 < 0) by lia.
  split; [exact demo_unit8_frames|]. split; [exact Hnum|].
  exact (plot_unit_waveform_negative_count 64 tt spikes 8 1 (-1) 0 [500; 600] w0
           demo_unit8_frames Hnum).
Defined.

Lemma plot_unit_waveform_zero_count_witness :
  get_unit_frames spikes 8 = Ok [500; 600] /\
  0 <= 0 <= 0xFFFFFFFF /\
  plot_unit_waveform 64 tt spikes 8 1 false 0 0 w0
  = ({| np_random := MT19937.mt19937_seed 0;
        pyplot := pyplot w0 ++
          [Figure None; Xlabel "time (frames)"; Ylabel "action potential (mV)";
           Title 8 1; Show] |}, Ok tt).
Proof.
  assert (Hseed : 0 <= 0 <= 0xFFFFFFFF) by lia.
  split; [exact demo_unit8_frames|]. split; [exact Hseed|].
  exact (plot_unit_waveform_zero_count 64 tt spikes 8 1 0 [500; 600] w0
           demo_unit8_frames Hseed).
Defined.

Lemma plot_unit_waveform_seed_witness :
  get_unit_frames spikes 8 = Ok [500; 600] /\
  2 <= Z.of_nat (length [500; 600]) /\
  ~ 0 <= -1 <= 0xFFFFFFFF /\
  plot_unit_waveform 64 tt spikes 8 1 false 2 (-1) w0 = (w0, Raise ValueError).
Proof.
  assert (Hnum : 2 <= Z.of_nat (length [500; 600])) by (cbn; lia).
  assert (Hseed : ~ 0 <= -1 <= 0xFFFFFFFF) by lia.
  split; [exact demo_unit8_frames|]. split; [exact Hnum|]. split; [exact Hseed|].
  exact (proj2 (plot_unit_waveform_seed tt spikes 8 1 false 2 [500; 600]
                  demo_unit8_frames) eq_refl Hnum 64%nat (-1) w0 Hseed).
Defined.

Lemma plot_unit_waveform_bad_frame_witness :
  get_unit_frames spikes 8 = Ok ([500] ++ 600 :: []) /\
  frame_fails tt (-5) 600 IndexError /\
  plot_unit_waveform 64 tt spikes 8 (-5) true 10 0 w0
  = ({| np_random := np_random w0;
        pyplot := pyplot w0 ++ Figure None :: map Plot [] |}, Raise IndexError).
Proof.
  assert (Hfail : forall frame, frame_fails tt (-5) frame IndexError).
  { intros frame. right. exists (snippet frame). split; reflexivity. }
  split; [exact demo_unit8_frames|]. split; [exact (Hfail 600)|].
  exact (proj1 (plot_unit_waveform_bad_frame 64 tt spikes 8 (-5) true 10 0
                  [] 500 [600] [] IndexError w0 demo_unit8_frames
                  (or_introl eq_refl) (Forall2_nil_2 _ _ _) (Hfail 500))).
Defined.

Lemma plot_peak_waveform_split_witness :
  2 - 1 <= 3 <= 4 /\
  plot_peak_waveform tt peaks 2 4 w0
  = (plot_peak_waveform tt peaks 2 3 ;; plot_peak_waveform tt peaks (3 + 1) 4) w0.
Proof.
  assert (Hm : 2 - 1 <= 3 <= 4) by lia.
  split; [exact Hm|].
  exact (proj2 (plot_peak_waveform_split tt peaks 2 3 4 Hm) w0).
Defined.


Lemma demo_row_figure (t : Z) (l : list Z) :
  1 <= Z.of_nat (length l) <= 2 ^ 52 ->
  Forall (fun channel => 0 <= channel < 4) l ->
  row_figure tt {| peak_frame := t; peak_channel := PyList l |} (figure t l).
Proof.
  intros Hn Hl. exists (snippet t), l, (waveforms t l).
  split; [reflexivity|]. split; [reflexivity|]. split; [exact Hn|].
  split; [exact (demo_waveforms t l Hl)|reflexivity].
Defined.

Lemma plot_peak_waveform_figures_witness :
  Forall2 (fun idx row => peaks !! idx = Some row) (py_range 2 (4 + 1))
    [ {| peak_frame := 20; peak_channel := PyList [0; 1] |};
      {| peak_frame := 30; peak_channel := PyList [2] |};
      {| peak_frame := 40; peak_channel := PyList [3; 0; 1] |} ] /\
  plot_peak_waveform tt peaks 2 4 w0
  = ({| np_random := np_random w0;
        pyplot := pyplot w0 ++
          concat [figure 20 [0; 1]; figure 30 [2]; figure 40 [3; 0; 1]] |}, Ok tt).
Proof.
  assert (Hrows : Forall2 (fun idx row => peaks !! idx = Some row) (py_range 2 (4 + 1))
            [ {| peak_frame := 20; peak_channel := PyList [0; 1] |};
              {| peak_frame := 30; peak_channel := PyList [2] |};
              {| peak_frame := 40; peak_channel := PyList [3; 0; 1] |} ])
    by (repeat constructor).
  assert (Hfigs : Forall2 (row_figure tt)
            [ {| peak_frame := 20; peak_channel := PyList [0; 1] |};
              {| peak_frame := 30; peak_channel := PyList [2] |};
              {| peak_frame := 40; peak_channel := PyList [3; 0; 1] |} ]
            [figure 20 [0; 1]; figure 30 [2]; figure 40 [3; 0; 1]]).
  { repeat constructor; apply demo_row_figure;
      (cbn; lia) || (repeat constructor; lia). }
  split; [exact Hrows|].
  exact (proj1 (plot_peak_waveform_figures tt peaks 2 4 _ _ w0 Hrows Hfigs)).
Defined.

(** The figures of the three rows above: grids of 1 x 2, 1 x 1 and 2 x 2
    axes, the last one with one axes switched off. *)
Lemma demo_peaks_figures :
  map (fun fig => hd Show fig)
      [figure 20 [0; 1]; figure 30 [2]; figure 40 [3; 0; 1]]
  = [Subplots 1 2 (8, 3); Subplots 1 1 (4, 3); Subplots 2 2 (8, 6)] /\
  In (AxAxis 3 "off") (figure 40 [3; 0; 1]).
Proof. split; [reflexivity|]. vm_compute. tauto. Qed.

End MoreRuns.
